(** * Crowdsense: the alert debouncer and the dashboard helpers

    A shallow embedding of the decision logic of the repository:

    - [pi_stream.py]: the main loop of the streaming script, whose
      "false alarm filter" turns the per-frame person count into a
      three-level status and rate-limits the alert line;
    - [app.py]: [create_density_bar], [process_frame] and the refresh logic
      of the two dashboard loops [show_live] and [show_analysis].

    The detector, the camera, the drawing calls and the transport are
    collaborators of the code and stay opaque: a frame is represented by the
    list of boxes the detector returns for it. *)

From Stdlib Require Import ZArith QArith Qround String Ascii List Bool Lia Lqa.
From Stdlib Require Import Sorted DecimalString Qminmax.
From Stdlib Require Import Floats.SpecFloat.
Import ListNotations.

Local Open Scope Z_scope.

(* ================================================================= *)
(** ** The part of the Python runtime the code relies on *)

Module Py.

(** Exceptions the modelled expressions can raise. *)
Inductive exn : Type :=
| OverflowError
| ValueError
| ZeroDivisionError.

Inductive result (A : Type) : Type :=
| Ok (a : A)
| Raise (e : exn).
Arguments Ok {A} a.
Arguments Raise {A} e.

Definition bind {A B : Type} (r : result A) (k : A -> result B) : result B :=
  match r with
  | Ok a => k a
  | Raise e => Raise e
  end.

(** A Python [float] is an IEEE 754 binary64 number. *)
Definition float : Type := spec_float.
Definition prec : Z := 53.
Definition emax : Z := 1024.

(** An integer operand, taken exactly (mantissa [z], exponent 0). *)
Definition exact_int (z : Z) : float :=
  match z with
  | Z0 => S754_zero false
  | Zpos p => S754_finite false p 0
  | Zneg p => S754_finite true p 0
  end.

(** [float(z)]: the nearest double, [OverflowError] beyond the range. *)
Definition float_of_int (z : Z) : result float :=
  match binary_normalize prec emax z 0 false with
  | S754_infinity _ => Raise OverflowError
  | x => Ok x
  end.

(** [a / b] on two [int]s: the correctly rounded quotient, or
    [OverflowError] when it does not fit a double. *)
Definition truediv (a b : Z) : result float :=
  if b =? 0 then Raise ZeroDivisionError
  else match SFdiv prec emax (exact_int a) (exact_int b) with
       | S754_infinity _ => Raise OverflowError
       | q => Ok q
       end.

(** [n * x] with [n] an [int] and [x] a [float]. *)
Definition mul_int_float (n : Z) (x : float) : result float :=
  bind (float_of_int n) (fun fn => Ok (SFmul prec emax fn x)).

(** [min(x, y)]: the second argument replaces the first only when it
    compares strictly smaller. *)
Definition min2 (x y : float) : float :=
  if SFltb y x then y else x.

(** [int(x)]: truncation toward zero. *)
Definition int_of_float (x : float) : result Z :=
  match x with
  | S754_zero _ => Ok 0
  | S754_finite s m e =>
      let a := match e with
               | Zneg p => Z.pos m / 2 ^ Z.pos p
               | _ => Z.pos m * 2 ^ e
               end in
      Ok (if s then - a else a)
  | S754_infinity _ => Raise OverflowError
  | S754_nan => Raise ValueError
  end.

(** A [str] that may hold non-ASCII text is a list of code points. *)
Definition str : Type := list N.

Definition u (s : string) : str :=
  map N_of_ascii (list_ascii_of_string s).

(** [s * n]: repetition; empty when [n <= 0]. *)
Definition str_mul (s : str) (n : Z) : str :=
  concat (repeat s (Z.to_nat n)).

(** [str(z)], as interpolated by an f-string. *)
Definition str_of_int (z : Z) : str :=
  u (NilZero.string_of_int (Z.to_int z)).

(** The literals [1.0] and [3.0]. *)
Definition one : float := S754_finite false 4503599627370496 (-52).
Definition three : float := S754_finite false 6755399441055744 (-51).

End Py.

Notation "x <- c ;; k" := (Py.bind c (fun x => k))
  (at level 61, c at next level, right associativity).

(* ================================================================= *)
(** ** app.py *)

Module App.
Import Py.

(** "█" and "░". *)
Definition FULL_BLOCK : N := 9608%N.
Definition LIGHT_SHADE : N := 9617%N.

Definition create_density_bar (count : Z) : result str :=
  let max_capacity := 100 in
  q <- truediv count max_capacity ;;
  let percentage := min2 q one in
  let bar_length := 10 in
  p <- mul_int_float bar_length percentage ;;
  filled <- int_of_float p ;;
  let bar := str_mul [FULL_BLOCK] filled
             ++ str_mul [LIGHT_SHADE] (bar_length - filled) in
  Ok (str_of_int count ++ u " People detected &nbsp; " ++ bar).

(** The local [filled] of [create_density_bar], for statements about it. *)
Definition filled_cells (count : Z) : result Z :=
  q <- truediv count 100 ;;
  p <- mul_int_float 10 (min2 q one) ;;
  int_of_float p.

(** A detection, after [map(int, box.xyxy[0])]. *)
Record Box : Type := { x1 : Z; y1 : Z; x2 : Z; y2 : Z }.

(** A BGR colour. *)
Definition colour : Type := (Z * Z * Z)%type.

(** The [for box in results[0].boxes] loop: the running count and the
    filled rectangles drawn on the overlay. *)
Fixpoint draw_boxes (total_persons : Z) (boxes : list Box)
  : Z * list (Box * colour) :=
  match boxes with
  | [] => (total_persons, [])
  | box :: rest =>
      let total_persons := total_persons + 1 in
      let box_color := (0, 255, 0) in
      let box_color := if 20 <? total_persons then (0, 165, 255) else box_color in
      let box_color := if 25 <? total_persons then (0, 0, 255) else box_color in
      let '(n, drawn) := draw_boxes total_persons rest in
      (n, (box, box_color) :: drawn)
  end.

(** The status decision at the end of [process_frame]. *)
Definition classify (total_persons : Z) : string * string :=
  let status_text := "Normal"%string in
  let css_class := "status-normal"%string in
  if 25 <? total_persons then ("CRITICAL RISK"%string, "status-critical"%string)
  else if 20 <? total_persons then ("High Density"%string, "status-warning"%string)
  else (status_text, css_class).

(** [process_frame]: overlay, count, status text and CSS class. *)
Definition process_frame (boxes : list Box)
  : list (Box * colour) * Z * string * string :=
  let '(total_persons, overlay) := draw_boxes 0 boxes in
  let '(status_text, css_class) := classify total_persons in
  (overlay, total_persons, status_text, css_class).

(** The locals of a dashboard loop that survive from frame to frame. *)
Record Display : Type := {
  frame_count : Z;
  display_status : string;
  display_density : str;
  display_css : string
}.

Definition initial_display : Display :=
  {| frame_count := 0;
     display_status := "Initializing...";
     display_density := u "0 People " ++ repeat LIGHT_SHADE 10;
     display_css := "status-normal" |}.

(** What the status markup shows: status, density text and CSS class. *)
Definition shown (d : Display) : string * str * string :=
  (display_status d, display_density d, display_css d).

(** What a frame puts on display when it is the one that refreshes. *)
Definition computed (boxes : list Box) : result (string * str * string) :=
  let '(_, count, status, css) := process_frame boxes in
  density <- create_density_bar count ;;
  Ok (status, density, css).

(** A frame whose count is within the range of a double. *)
Definition countable (boxes : list Box) : Prop :=
  Z.of_nat (length boxes) < 2 ^ 1024.

(** One iteration of the [while cap.isOpened()] loop on a frame that was
    read: the values interpolated into the status markup. *)
Definition refresh (d : Display) (boxes : list Box) : result Display :=
  let '(_, count, status, css) := process_frame boxes in
  let frame_count' := frame_count d + 1 in
  if frame_count' mod 10 =? 0 then
    density <- create_density_bar count ;;
    Ok {| frame_count := frame_count';
          display_status := status;
          display_density := density;
          display_css := css |}
  else
    Ok {| frame_count := frame_count';
          display_status := display_status d;
          display_density := display_density d;
          display_css := display_css d |}.

(** The loop over the frames read before the capture ends; the result is
    what was rendered at each frame, oldest first. *)
Fixpoint dashboard_loop (d : Display) (frames : list (list Box))
  : result (list Display) :=
  match frames with
  | [] => Ok []
  | boxes :: rest =>
      d' <- refresh d boxes ;;
      ds <- dashboard_loop d' rest ;;
      Ok (d' :: ds)
  end.

Definition show_live (frames : list (list Box)) : result (list Display) :=
  dashboard_loop initial_display frames.

Definition show_analysis (frames : list (list Box)) : result (list Display) :=
  dashboard_loop initial_display frames.

End App.

(* ================================================================= *)
(** ** pi_stream.py *)

Module PiStream.

(** The configuration block at the top of the script, and the literal
    [5] of the alert test. *)
Record Config : Type := {
  WARNING_LIMIT : Z;
  CRITICAL_LIMIT : Z;
  BUFFER_SIZE : Z;
  ALERT_COOLDOWN : Q
}.

Definition FPS_LIMIT : Z := 15.
Definition REQUIRED_SECONDS : Py.float := Py.three.

(** [int(FPS_LIMIT * REQUIRED_SECONDS)]. *)
Definition BUFFER_SIZE_expr : Py.result Z :=
  p <- Py.mul_int_float FPS_LIMIT REQUIRED_SECONDS ;;
  Py.int_of_float p.

Definition script_config : Config :=
  {| WARNING_LIMIT := 30;
     CRITICAL_LIMIT := 50;
     BUFFER_SIZE := 45;
     ALERT_COOLDOWN := 5 |}.

(** A configuration is well formed when the warning level does not
    exceed the critical level and the buffer is not negative. *)
Definition well_formed (cfg : Config) : Prop :=
  WARNING_LIMIT cfg <= CRITICAL_LIMIT cfg /\ 0 <= BUFFER_SIZE cfg.

(** The two globals of the script. Clock readings are rationals (every
    double is one). *)
Record State : Type := {
  consecutive_critical_frames : Z;
  last_alert_time : Q
}.

Definition initial_state : State :=
  {| consecutive_critical_frames := 0; last_alert_time := 0 |}.

(** [display_status]: "Normal", "High Density" or "CRITICAL RISK". *)
Inductive Status : Type := Normal | Warning | Critical.

Definition status_text (s : Status) : string :=
  match s with
  | Normal => "Normal"
  | Warning => "High Density"
  | Critical => "CRITICAL RISK"
  end.

Definition status_color (s : Status) : Z * Z * Z :=
  match s with
  | Normal => (0, 255, 0)
  | Warning => (0, 165, 255)
  | Critical => (0, 0, 255)
  end.

(** What one pass over the filter yields: the status, and the count of
    the "ALERT!" line when one is printed. *)
Record Outcome : Type := {
  display_status : Status;
  alert : option Z
}.

(** What the filter consumes at one frame: the count, and what
    [time.time()] returns at the alert test and at the assignment. *)
Record Observation : Type := {
  total_persons : Z;
  t_check : Q;
  t_store : Q
}.

Section Filter.

(** The float subtraction of [time.time() - last_alert_time]. *)
Variable fsub : Q -> Q -> Q.
Variable cfg : Config.

(** Section 3 of the main loop: the false alarm filter and the
    status. *)
Definition step (st : State) (o : Observation) : Outcome * State :=
  let ccf :=
    if CRITICAL_LIMIT cfg <? total_persons o
    then consecutive_critical_frames st + 1
    else 0 in
  if BUFFER_SIZE cfg <? ccf then
    if Qlt_le_dec (ALERT_COOLDOWN cfg) (fsub (t_check o) (last_alert_time st))
    then ({| display_status := Critical; alert := Some (total_persons o) |},
          {| consecutive_critical_frames := ccf;
             last_alert_time := t_store o |})
    else ({| display_status := Critical; alert := None |},
          {| consecutive_critical_frames := ccf;
             last_alert_time := last_alert_time st |})
  else if WARNING_LIMIT cfg <? total_persons o then
    ({| display_status := Warning; alert := None |},
     {| consecutive_critical_frames := ccf;
        last_alert_time := last_alert_time st |})
  else
    ({| display_status := Normal; alert := None |},
     {| consecutive_critical_frames := ccf;
        last_alert_time := last_alert_time st |}).

(** The filter over the observations of successive frames. *)
Fixpoint run (st : State) (obs : list Observation)
  : list Outcome * State :=
  match obs with
  | [] => ([], st)
  | o :: rest =>
      let '(out, st') := step st o in
      let '(outs, st'') := run st' rest in
      (out :: outs, st'')
  end.

(** Section 2 of the main loop: the count and the box colours. *)
Fixpoint draw_boxes (total_persons : Z) (boxes : list App.Box)
  : Z * list (App.Box * App.colour) :=
  match boxes with
  | [] => (total_persons, [])
  | box :: rest =>
      let total_persons := total_persons + 1 in
      let box_color := (0, 255, 0) in
      let box_color :=
        if WARNING_LIMIT cfg <? total_persons then (0, 165, 255) else box_color in
      let box_color :=
        if CRITICAL_LIMIT cfg <? total_persons then (0, 0, 255) else box_color in
      let '(n, drawn) := draw_boxes total_persons rest in
      (n, (box, box_color) :: drawn)
  end.

(** What one iteration of [while True] draws and prints. *)
Record Rendered : Type := {
  overlay : list (App.Box * App.colour);
  status_line : string;
  status_line_color : Z * Z * Z;
  count_shown : Z;
  outcome : Outcome
}.

(** One iteration on a frame that was read. *)
Definition iteration (st : State) (boxes : list App.Box) (tc ts : Q)
  : Rendered * State :=
  let '(n, drawn) := draw_boxes 0 boxes in
  let '(out, st') :=
    step st {| total_persons := n; t_check := tc; t_store := ts |} in
  ({| overlay := drawn;
      status_line := String.append "Status: " (status_text (display_status out));
      status_line_color := status_color (display_status out);
      count_shown := n;
      outcome := out |}, st').

End Filter.

(** The statuses of a run from the initial state. *)
Definition statuses (fsub : Q -> Q -> Q) (cfg : Config)
  (obs : list Observation) : list Status :=
  map display_status (fst (run fsub cfg initial_state obs)).

(** The count printed at each frame that prints the alert line. *)
Definition alerts (fsub : Q -> Q -> Q) (cfg : Config)
  (obs : list Observation) : list (option Z) :=
  map alert (fst (run fsub cfg initial_state obs)).

(** The state reached after the first [n] observations. *)
Definition state_after (fsub : Q -> Q -> Q) (cfg : Config)
  (obs : list Observation) (n : nat) : State :=
  snd (run fsub cfg initial_state (firstn n obs)).

(** Successive clock readings never go back. *)
Definition clock_readings (obs : list Observation) : list Q :=
  flat_map (fun o => [t_check o; t_store o]) obs.

Definition monotone_clock (obs : list Observation) : Prop :=
  StronglySorted Qle (clock_readings obs).

(** The subtraction is sound for the alert test: it reports more than
    the cooldown only when the exact difference is. Round-to-nearest
    subtraction is, the cooldown being a double. *)
Definition sound_for (fsub : Q -> Q -> Q) (cfg : Config) : Prop :=
  forall a b : Q,
    (ALERT_COOLDOWN cfg < fsub a b)%Q -> (ALERT_COOLDOWN cfg < a - b)%Q.

(** The observations of the given counts, frame [k + i] reading the
    clock as [clock (k + i)] says. *)
Fixpoint at_times (clock : nat -> Q * Q) (k : nat) (counts : list Z)
  : list Observation :=
  match counts with
  | [] => []
  | n :: rest =>
      {| total_persons := n;
         t_check := fst (clock k);
         t_store := snd (clock k) |} :: at_times clock (S k) rest
  end.

(** The thresholds of the acceptance scenario. *)
Definition scenario_config : Config :=
  {| WARNING_LIMIT := 20;
     CRITICAL_LIMIT := 25;
     BUFFER_SIZE := 3;
     ALERT_COOLDOWN := 5 |}.

(** The literals of [process_frame] in app.py, read as a configuration
    with an empty buffer. *)
Definition dashboard_config : Config :=
  {| WARNING_LIMIT := 20;
     CRITICAL_LIMIT := 25;
     BUFFER_SIZE := 0;
     ALERT_COOLDOWN := 5 |}.

End PiStream.

(* ================================================================= *)
(** ** pi_stream.py: the loop over the frames *)

Module MainLoop.
Import PiStream.

(** A frame that [cap.read()] returned: the boxes the detector finds in
    it, and what the clock reads at the alert test and at the
    assignment of that iteration. *)
Record Frame : Type := {
  boxes : list App.Box;
  clock_check : Q;
  clock_store : Q
}.

(** What the filter sees of a frame. *)
Definition observe (f : Frame) : Observation :=
  {| total_persons := Z.of_nat (length (boxes f));
     t_check := clock_check f;
     t_store := clock_store f |}.

(** The [while True] loop, over the frames read before [cap.read()]
    fails: what each iteration draws and prints, and the globals at the
    end. *)
Fixpoint main_loop (fsub : Q -> Q -> Q) (cfg : Config) (st : State)
  (frames : list Frame) : list Rendered * State :=
  match frames with
  | [] => ([], st)
  | f :: rest =>
      let '(r, st') :=
        iteration fsub cfg st (boxes f) (clock_check f) (clock_store f) in
      let '(rs, st'') := main_loop fsub cfg st' rest in
      (r :: rs, st'')
  end.

(** How many counts at the head of a list exceed a limit, and the
    streak at the end of a list of counts, latest last. *)
Fixpoint leading (limit : Z) (counts : list Z) : Z :=
  match counts with
  | [] => 0
  | n :: rest => if limit <? n then 1 + leading limit rest else 0
  end.

Definition streak (limit : Z) (counts : list Z) : Z :=
  leading limit (rev counts).

(** The number of alert lines among the outcomes of a run. *)
Definition count_alerts (outs : list Outcome) : Z :=
  Z.of_nat
    (length (filter (fun out => match alert out with
                                | Some _ => true
                                | None => false
                                end) outs)).

(** The latest reading of the clock in a run. *)
Definition last_reading (obs : list Observation) : Q :=
  last (clock_readings obs) 0%Q.

End MainLoop.

(* ================================================================= *)
(** ** app.py: session state, theme and pages *)

Module Navigation.

Section Files.

(** What [st.file_uploader] returns for an uploaded video. *)
Variable UploadedFile : Type.

(** [st.session_state]: each of the three keys is absent or holds a
    value; [video_source] holds [None] or a file. *)
Record SessionState : Type := {
  page : option string;
  video_source : option (option UploadedFile);
  theme : option string
}.

(** The session of a browser tab that has not run the script yet. *)
Definition empty_session : SessionState :=
  {| page := None; video_source := None; theme := None |}.

(** Section 2 of the script: the three [if key not in st.session_state]
    guards. *)
Definition initialise (s : SessionState) : SessionState :=
  let s := match page s with
           | None => {| page := Some "home"%string;
                        video_source := video_source s;
                        theme := theme s |}
           | Some _ => s
           end in
  let s := match video_source s with
           | None => {| page := page s;
                        video_source := Some None;
                        theme := theme s |}
           | Some _ => s
           end in
  match theme s with
  | None => {| page := page s;
               video_source := video_source s;
               theme := Some "light"%string |}
  | Some _ => s
  end.

(** The colours of section 3, interpolated into the style sheet. *)
Record Palette : Type := {
  bg_color : string;
  text_color : string;
  card_bg : string;
  border_color : string;
  shadow_color : string;
  sidebar_icon_color : string
}.

Definition dark_palette : Palette :=
  {| bg_color := "#0f172a";
     text_color := "#f8fafc";
     card_bg := "#1e293b";
     border_color := "#334155";
     shadow_color := "rgba(0,0,0,0.3)";
     sidebar_icon_color := "#ffffff" |}.

Definition light_palette : Palette :=
  {| bg_color := "#f1f5f9";
     text_color := "#0f172a";
     card_bg := "#ffffff";
     border_color := "#e2e8f0";
     shadow_color := "rgba(0,0,0,0.05)";
     sidebar_icon_color := "#334155" |}.

(** The choice of the radio button of the sidebar. *)
Inductive Mode : Type := Light | Dark.

(** What the widgets return in one run of the script. A button reads
    [true] in the run its click starts. *)
Record Widgets : Type := {
  mode : Mode;
  start_live_clicked : bool;
  uploaded_file : option UploadedFile;
  analyze_clicked : bool;
  back_clicked : bool
}.

(** How a run of the script ends: [st.rerun()] was called; or a page
    was rendered, with the colours of the style sheet (the analysis page
    with the video it reads); or the router matched no page; or reading
    [video_source] failed because it holds [None]. *)
Inductive Outcome : Type :=
| Rerun
| Home (p : Palette)
| Live (p : Palette)
| Analysis (p : Palette) (video : UploadedFile)
| Blank (p : Palette)
| Crash.

(** A key read after [initialise]; the default is never used. *)
Definition get_page (s : SessionState) : string :=
  match page s with Some p => p | None => ""%string end.

Definition get_theme (s : SessionState) : string :=
  match theme s with Some t => t | None => ""%string end.

Definition set_page (s : SessionState) (p : string) : SessionState :=
  {| page := Some p; video_source := video_source s; theme := theme s |}.

Definition set_video_source (s : SessionState) (v : option UploadedFile)
  : SessionState :=
  {| page := page s; video_source := Some v; theme := theme s |}.

Definition set_theme (s : SessionState) (t : string) : SessionState :=
  {| page := page s; video_source := video_source s; theme := Some t |}.

Definition show_home (pal : Palette) (s : SessionState) (w : Widgets)
  : SessionState * Outcome :=
  if start_live_clicked w then (set_page s "live", Rerun)
  else match uploaded_file w with
       | Some f =>
           if analyze_clicked w
           then (set_page (set_video_source s (Some f)) "analysis", Rerun)
           else (s, Home pal)
       | None => (s, Home pal)
       end.

Definition show_live (pal : Palette) (s : SessionState) (w : Widgets)
  : SessionState * Outcome :=
  if back_clicked w then (set_page s "home", Rerun)
  else (s, Live pal).

Definition show_analysis (pal : Palette) (s : SessionState) (w : Widgets)
  : SessionState * Outcome :=
  if back_clicked w
  then (set_video_source (set_page s "home") None, Rerun)
  else match video_source s with
       | Some (Some f) => (s, Analysis pal f)
       | _ => (s, Crash)
       end.

(** One run of the script, top to bottom. *)
Definition script_run (s0 : SessionState) (w : Widgets)
  : SessionState * Outcome :=
  let s := initialise s0 in
  let pal := if String.eqb (get_theme s) "dark"
             then dark_palette else light_palette in
  match mode w with
  | Dark =>
      if negb (String.eqb (get_theme s) "dark")
      then (set_theme s "dark", Rerun)
      else if String.eqb (get_page s) "home" then show_home pal s w
      else if String.eqb (get_page s) "live" then show_live pal s w
      else if String.eqb (get_page s) "analysis" then show_analysis pal s w
      else (s, Blank pal)
  | Light =>
      if negb (String.eqb (get_theme s) "light")
      then (set_theme s "light", Rerun)
      else if String.eqb (get_page s) "home" then show_home pal s w
      else if String.eqb (get_page s) "live" then show_live pal s w
      else if String.eqb (get_page s) "analysis" then show_analysis pal s w
      else (s, Blank pal)
  end.

(** Successive runs, each with what the widgets return in it. *)
Fixpoint script_runs (s : SessionState) (ws : list Widgets)
  : SessionState * list Outcome :=
  match ws with
  | [] => (s, [])
  | w :: rest =>
      let '(s', out) := script_run s w in
      let '(s'', outs) := script_runs s' rest in
      (s'', out :: outs)
  end.

(** The palette of a rendered page. *)
Definition palette_of (out : Outcome) : option Palette :=
  match out with
  | Home p | Live p | Analysis p _ | Blank p => Some p
  | Rerun | Crash => None
  end.

Definition palette_for (m : Mode) : Palette :=
  match m with
  | Light => light_palette
  | Dark => dark_palette
  end.

(** The value the sidebar stores under [theme] for each mode. *)
Definition theme_name (m : Mode) : string :=
  match m with
  | Light => "light"
  | Dark => "dark"
  end.

(** A session whose three keys are set, whose page is one the router
    knows, and whose analysis page has a video to read. *)
Definition settled (s : SessionState) : Prop :=
  exists (p : string) (v : option UploadedFile) (t : string),
    page s = Some p
    /\ video_source s = Some v
    /\ theme s = Some t
    /\ (p = "home"%string \/ p = "live"%string \/ p = "analysis"%string)
    /\ (p = "analysis"%string -> v <> None).

End Files.

Arguments page {UploadedFile} s.
Arguments video_source {UploadedFile} s.
Arguments theme {UploadedFile} s.
Arguments mode {UploadedFile} w.
Arguments start_live_clicked {UploadedFile} w.
Arguments uploaded_file {UploadedFile} w.
Arguments analyze_clicked {UploadedFile} w.
Arguments back_clicked {UploadedFile} w.
Arguments initialise {UploadedFile} s.
Arguments get_page {UploadedFile} s.
Arguments get_theme {UploadedFile} s.
Arguments set_page {UploadedFile} s p.
Arguments set_video_source {UploadedFile} s v.
Arguments set_theme {UploadedFile} s t.
Arguments show_home {UploadedFile} pal s w.
Arguments show_live {UploadedFile} pal s w.
Arguments show_analysis {UploadedFile} pal s w.
Arguments script_run {UploadedFile} s0 w.
Arguments script_runs {UploadedFile} s ws.
Arguments palette_of {UploadedFile} out.
Arguments settled {UploadedFile} s.
Arguments empty_session {UploadedFile}.
Arguments Rerun {UploadedFile}.
Arguments Home {UploadedFile} p.
Arguments Live {UploadedFile} p.
Arguments Analysis {UploadedFile} p video.
Arguments Blank {UploadedFile} p.
Arguments Crash {UploadedFile}.

End Navigation.

(* ================================================================= *)
(** ** .ipynb_checkpoints/app-checkpoint.py *)

Module Checkpoint.
Import App.

Definition RISK_LIMIT : Z := 25.

(** The [for box in results[0].boxes] loop of the checkpointed script. *)
Fixpoint draw_boxes (total_persons : Z) (boxes : list Box)
  : Z * list (Box * colour) :=
  match boxes with
  | [] => (total_persons, [])
  | box :: rest =>
      let total_persons := total_persons + 1 in
      let box_color := (0, 255, 0) in
      let box_color := if 20 <? total_persons then (0, 165, 255) else box_color in
      let box_color :=
        if RISK_LIMIT <? total_persons then (0, 0, 255) else box_color in
      let '(n, drawn) := draw_boxes total_persons rest in
      (n, (box, box_color) :: drawn)
  end.

(** What the status bar shows after a frame: CSS class, status text and
    the number after "Detected Persons:". *)
Record StatusBar : Type := {
  css_class : string;
  status_text : string;
  detected_persons : Z
}.

(** One iteration of the processing loop: the overlay and the status
    bar. *)
Definition frame_body (boxes : list Box) : list (Box * colour) * StatusBar :=
  let '(total_persons, overlay) := draw_boxes 0 boxes in
  let status_text := "Normal"%string in
  let css_class := "status-normal"%string in
  let '(status_text, css_class) :=
    if RISK_LIMIT <? total_persons
    then ("CRITICAL RISK"%string, "status-critical"%string)
    else if 20 <? total_persons
         then ("High Density"%string, "status-warning"%string)
         else (status_text, css_class) in
  (overlay, {| css_class := css_class;
               status_text := status_text;
               detected_persons := total_persons |}).

(** The loop over the frames of the uploaded video: the status bar
    after each frame. *)
Definition processing_loop (frames : list (list Box)) : list StatusBar :=
  map (fun boxes => snd (frame_body boxes)) frames.

End Checkpoint.

(* ================================================================= *)
(** ** The float subtraction of the alert test *)

Module Binary64.
Import Py PiStream.

(** The value of a double. An infinity counts as [2 ^ 1024], beyond
    every double, and a NaN, which no comparison accepts, as 0. *)
Definition B2Q (x : float) : Q :=
  match x with
  | S754_zero _ => 0%Q
  | S754_finite s m e =>
      let v := match e with
               | Zneg p => (Z.pos m # 2 ^ p)%Q
               | _ => inject_Z (Z.pos m * 2 ^ e)
               end in
      if s then (- v)%Q else v
  | S754_infinity s =>
      if s then (- inject_Z (2 ^ 1024))%Q else inject_Z (2 ^ 1024)
  | S754_nan => 0%Q
  end.

(** The double nearest a rational, ties to even. *)
Definition round64 (x : Q) : float :=
  SFdiv prec emax (exact_int (Qnum x)) (exact_int (Z.pos (Qden x))).

(** The double a clock reading stands for; a reading that is a double
    stands for itself. *)
Definition as_double (r : Q) : Q :=
  B2Q (round64 r).

(** [a - b] on two [float]s: the subtraction of binary64. *)
Definition float_sub (a b : Q) : Q :=
  B2Q (SFsub prec emax (round64 a) (round64 b)).



End Binary64.

(* ================================================================= *)
(** ** pi_stream.py: the filter with its clock and its output *)

Module Script.
Import PiStream.

Section Block.
Variable fsub : Q -> Q -> Q.
Variable cfg : Config.

(** Everything else the script holds while the filter runs: the model,
    the camera, the producer, the frame and its overlay. *)
Variable Rest : Type.

(** What lines 85-108 run in. [time.time()] returns the readings of
    [clock] in turn, [reads] of which have been taken; [stdout] holds
    the lines printed so far. *)
Record World : Type := {
  globals : State;
  others : Rest;
  clock : nat -> Q;
  reads : nat;
  stdout : list Py.str
}.

(** [time.time()]. *)
Definition time_time (w : World) : Q * World :=
  (clock w (reads w),
   {| globals := globals w;
      others := others w;
      clock := clock w;
      reads := S (reads w);
      stdout := stdout w |}).

(** [print(line)]. *)
Definition print (line : Py.str) (w : World) : World :=
  {| globals := globals w;
     others := others w;
     clock := clock w;
     reads := reads w;
     stdout := stdout w ++ [line] |}.

(** Assignments to the two globals. *)
Definition set_consecutive_critical_frames (n : Z) (w : World) : World :=
  {| globals := {| consecutive_critical_frames := n;
                   last_alert_time := last_alert_time (globals w) |};
     others := others w;
     clock := clock w;
     reads := reads w;
     stdout := stdout w |}.

Definition set_last_alert_time (t : Q) (w : World) : World :=
  {| globals := {| consecutive_critical_frames :=
                     consecutive_critical_frames (globals w);
                   last_alert_time := t |};
     others := others w;
     clock := clock w;
     reads := reads w;
     stdout := stdout w |}.

(** [f"ALERT! Stampede Risk Confirmed! Count: {total_persons}"]. *)
Definition alert_line (total_persons : Z) : Py.str :=
  Py.u "ALERT! Stampede Risk Confirmed! Count: "
    ++ Py.str_of_int total_persons.

(** Lines 85-108, statement by statement: the locals [display_status]
    and [status_color] it leaves, and the world after it. *)
Definition filter_block (total_persons : Z) (w : World)
  : (Status * (Z * Z * Z)) * World :=
  let w :=
    if CRITICAL_LIMIT cfg <? total_persons
    then set_consecutive_critical_frames
           (consecutive_critical_frames (globals w) + 1) w
    else set_consecutive_critical_frames 0 w in
  let display_status := Normal in
  let status_color := (0, 255, 0) in
  if BUFFER_SIZE cfg <? consecutive_critical_frames (globals w) then
    let display_status := Critical in
    let status_color := (0, 0, 255) in
    let '(now, w) := time_time w in
    if Qlt_le_dec (ALERT_COOLDOWN cfg) (fsub now (last_alert_time (globals w)))
    then
      let w := print (alert_line total_persons) w in
      let '(now, w) := time_time w in
      (display_status, status_color, set_last_alert_time now w)
    else (display_status, status_color, w)
  else if WARNING_LIMIT cfg <? total_persons then
    let display_status := Warning in
    let status_color := (0, 165, 255) in
    (display_status, status_color, w)
  else (display_status, status_color, w).

End Block.

Arguments globals {Rest} w.
Arguments others {Rest} w.
Arguments clock {Rest} w k.
Arguments reads {Rest} w.
Arguments stdout {Rest} w.
Arguments time_time {Rest} w.
Arguments print {Rest} line w.
Arguments set_consecutive_critical_frames {Rest} n w.
Arguments set_last_alert_time {Rest} t w.
Arguments filter_block fsub cfg {Rest} total_persons w.

(** A world in which the window is about to fill: the clock reads 100
    at the alert test and [second] at the assignment. *)
Definition window_full (second : Q) : World unit :=
  {| globals := {| consecutive_critical_frames := 45; last_alert_time := 0 |};
     others := tt;
     clock := fun k => match k with O => 100%Q | _ => second end;
     reads := 0;
     stdout := [] |}.



End Script.

(* ================================================================= *)
(** ** Sanity checks *)

Example one_is_float_1 : Py.float_of_int 1 = Py.Ok Py.one.
Proof. reflexivity. Qed.

Example three_is_float_3 : Py.float_of_int 3 = Py.Ok Py.three.
Proof. reflexivity. Qed.

Example BUFFER_SIZE_is_45 :
  PiStream.BUFFER_SIZE_expr = Py.Ok (PiStream.BUFFER_SIZE PiStream.script_config).
Proof. reflexivity. Qed.

Example density_bar_24 :
  App.create_density_bar 24
  = Py.Ok (Py.u "24 People detected &nbsp; "
           ++ repeat App.FULL_BLOCK 2 ++ repeat App.LIGHT_SHADE 8).
Proof. vm_compute. reflexivity. Qed.

(* ================================================================= *)
(** ** The false alarm filter *)

Module FilterFacts.
Import PiStream.

Section Step.
Variable fsub : Q -> Q -> Q.
Variable cfg : Config.

(** The counter after a step depends on the count alone. *)
Lemma step_counter (st : State) (o : Observation) :
  consecutive_critical_frames (snd (step fsub cfg st o))
  = if CRITICAL_LIMIT cfg <? total_persons o
    then consecutive_critical_frames st + 1
    else 0.
Proof.
  unfold step.
  destruct (CRITICAL_LIMIT cfg <? total_persons o);
    repeat match goal with
           | |- context [if ?b then _ else _] => destruct b
           end; reflexivity.
Qed.

(** The status is decided by the new counter and the count. *)
Lemma step_status (st : State) (o : Observation) :
  display_status (fst (step fsub cfg st o))
  = if BUFFER_SIZE cfg <? consecutive_critical_frames (snd (step fsub cfg st o))
    then Critical
    else if WARNING_LIMIT cfg <? total_persons o then Warning else Normal.
Proof.
  rewrite step_counter. unfold step.
  destruct (CRITICAL_LIMIT cfg <? total_persons o);
    repeat match goal with
           | |- context [if ?b then _ else _] => destruct b
           end; reflexivity.
Qed.

(** When the alert line is printed. *)
Lemma step_alert (st : State) (o : Observation) (n : Z) :
  alert (fst (step fsub cfg st o)) = Some n ->
  n = total_persons o
  /\ display_status (fst (step fsub cfg st o)) = Critical
  /\ (ALERT_COOLDOWN cfg < fsub (t_check o) (last_alert_time st))%Q
  /\ last_alert_time (snd (step fsub cfg st o)) = t_store o.
Proof.
  unfold step.
  destruct (BUFFER_SIZE cfg <? _).
  - destruct (Qlt_le_dec _ _) as [Hlt | Hle]; simpl; intros H.
    + inversion H. auto.
    + discriminate.
  - destruct (WARNING_LIMIT cfg <? _); simpl; discriminate.
Qed.

Lemma step_no_alert (st : State) (o : Observation) :
  alert (fst (step fsub cfg st o)) = None ->
  last_alert_time (snd (step fsub cfg st o)) = last_alert_time st.
Proof.
  unfold step.
  destruct (BUFFER_SIZE cfg <? _).
  - destruct (Qlt_le_dec _ _); simpl; intros H; [discriminate | reflexivity].
  - destruct (WARNING_LIMIT cfg <? _); reflexivity.
Qed.

Lemma run_app (st : State) (l1 l2 : list Observation) :
  run fsub cfg st (l1 ++ l2)
  = (fst (run fsub cfg st l1)
       ++ fst (run fsub cfg (snd (run fsub cfg st l1)) l2),
     snd (run fsub cfg (snd (run fsub cfg st l1)) l2)).
Proof.
  revert st. induction l1 as [| o l1 IH]; intros st; simpl.
  - destruct (run fsub cfg st l2); reflexivity.
  - destruct (step fsub cfg st o) as [out st'].
    rewrite IH.
    destruct (run fsub cfg st' l1) as [outs st'']. simpl.
    reflexivity.
Qed.

Lemma run_length (st : State) (obs : list Observation) :
  length (fst (run fsub cfg st obs)) = length obs.
Proof.
  revert st. induction obs as [| o obs IH]; intros st; simpl.
  - reflexivity.
  - destruct (step fsub cfg st o) as [out st'].
    specialize (IH st').
    destruct (run fsub cfg st' obs) as [outs st'']. simpl in *.
    now rewrite IH.
Qed.

(** The state after one more observation. *)
Lemma state_after_S (obs : list Observation) (i : nat) (o : Observation) :
  nth_error obs i = Some o ->
  state_after fsub cfg obs (S i)
  = snd (step fsub cfg (state_after fsub cfg obs i) o).
Proof.
  intros Hi. unfold state_after.
  assert (Hsplit : firstn (S i) obs = firstn i obs ++ [o]).
  { revert i Hi. induction obs as [| a obs IH]; intros [| i] Hi;
      simpl in *; try discriminate.
    - now inversion Hi.
    - now rewrite <- IH. }
  rewrite Hsplit, run_app. simpl.
  destruct (step fsub cfg _ o); reflexivity.
Qed.

(** The outcome at a frame is the step from the state before it. *)
Lemma outcome_at (st : State) (obs : list Observation) (i : nat)
  (out : Outcome) :
  nth_error (fst (run fsub cfg st obs)) i = Some out ->
  exists o, nth_error obs i = Some o
            /\ out = fst (step fsub cfg
                            (snd (run fsub cfg st (firstn i obs))) o).
Proof.
  revert st i. induction obs as [| a obs IH]; intros st i; simpl.
  - destruct i; discriminate.
  - destruct (step fsub cfg st a) as [out0 st'] eqn:Hstep.
    specialize (IH st').
    destruct (run fsub cfg st' obs) as [outs st''] eqn:Hrun.
    destruct i as [| i]; simpl.
    + intros H. inversion H. subst. exists a. rewrite Hstep. auto.
    + intros H. destruct (IH i H) as [o [Ho Hout]].
      exists o. split; [exact Ho |].
      rewrite Hstep.
      destruct (run fsub cfg st' (firstn i obs)); exact Hout.
Qed.

Lemma status_at (obs : list Observation) (i : nat) (s : Status) :
  nth_error (statuses fsub cfg obs) i = Some s ->
  exists o, nth_error obs i = Some o
            /\ s = display_status
                     (fst (step fsub cfg (state_after fsub cfg obs i) o)).
Proof.
  unfold statuses. rewrite nth_error_map.
  destruct (nth_error _ i) as [out |] eqn:Hout; [| discriminate].
  intros H. inversion H. subst.
  destruct (outcome_at _ _ _ _ Hout) as [o [Ho Heq]].
  exists o. split; [exact Ho | now rewrite Heq].
Qed.

(** From the initial state the counter is the length of the current
    streak: it never exceeds the number of frames seen, and the frames
    it counts all exceed the critical limit. *)
Lemma counter_is_streak (obs : list Observation) (n : nat) :
  (n <= length obs)%nat ->
  let k := consecutive_critical_frames (state_after fsub cfg obs n) in
  0 <= k <= Z.of_nat n
  /\ forall j : nat,
      Z.of_nat n - k <= Z.of_nat j < Z.of_nat n ->
      exists o, nth_error obs j = Some o
                /\ CRITICAL_LIMIT cfg < total_persons o.
Proof.
  induction n as [| n IH]; intros Hn k.
  - subst k. unfold state_after. simpl. split; [lia |]. intros j Hj. lia.
  - destruct (nth_error obs n) as [o |] eqn:Ho.
    2:{ apply nth_error_None in Ho. lia. }
    subst k. rewrite (state_after_S _ _ _ Ho), step_counter.
    specialize (IH ltac:(lia)). cbv zeta in IH.
    destruct IH as [Hk Hwin].
    destruct (Z.ltb_spec (CRITICAL_LIMIT cfg) (total_persons o)) as [Hc | Hc].
    + split; [lia |]. intros j Hj.
      destruct (Nat.eq_dec j n) as [-> | Hne].
      * exists o. auto.
      * apply Hwin. lia.
    + split; [lia |]. intros j Hj. lia.
Qed.

(** A critical status at frame [i] needs the [BUFFER_SIZE + 1] latest
    counts to exceed the critical limit. *)
Lemma critical_window (obs : list Observation) (i : nat) :
  nth_error (statuses fsub cfg obs) i = Some Critical ->
  BUFFER_SIZE cfg <= Z.of_nat i
  /\ forall j : nat,
      Z.of_nat i - BUFFER_SIZE cfg <= Z.of_nat j <= Z.of_nat i ->
      exists o, nth_error obs j = Some o
                /\ CRITICAL_LIMIT cfg < total_persons o.
Proof.
  intros H. destruct (status_at _ _ _ H) as [o [Ho Hs]].
  rewrite step_status, <- (state_after_S _ _ _ Ho) in Hs.
  assert (Hlen : (S i <= length obs)%nat).
  { apply Nat.le_succ_l. apply nth_error_Some. congruence. }
  destruct (counter_is_streak obs (S i) Hlen) as [Hk Hwin].
  destruct (Z.ltb_spec (BUFFER_SIZE cfg)
              (consecutive_critical_frames (state_after fsub cfg obs (S i))))
    as [Hb | Hb].
  - split; [lia |]. intros j Hj. apply Hwin. lia.
  - destruct (WARNING_LIMIT cfg <? total_persons o); discriminate.
Qed.

End Step.

Lemma script_config_well_formed : well_formed script_config.
Proof. unfold well_formed. simpl. lia. Qed.

Lemma scenario_config_well_formed : well_formed scenario_config.
Proof. unfold well_formed. simpl. lia. Qed.

Lemma dashboard_config_well_formed : well_formed dashboard_config.
Proof. unfold well_formed. simpl. lia. Qed.

End FilterFacts.

(* ================================================================= *)
(** ** The clock and the alert line *)

Module AlertFacts.
Import PiStream FilterFacts.

Lemma alert_at (fsub : Q -> Q -> Q) (cfg : Config)
  (obs : list Observation) (i : nat) (a : option Z) :
  nth_error (alerts fsub cfg obs) i = Some a ->
  exists o, nth_error obs i = Some o
            /\ a = alert (fst (step fsub cfg (state_after fsub cfg obs i) o)).
Proof.
  unfold alerts. rewrite nth_error_map.
  destruct (nth_error _ i) as [out |] eqn:Hout; [| discriminate].
  intros H. inversion H. subst.
  destruct (outcome_at _ _ _ _ _ _ Hout) as [o [Ho Heq]].
  exists o. split; [exact Ho | now rewrite Heq].
Qed.

(** Readings of a clock that never goes back, frame by frame. *)
Lemma monotone_clock_order (obs : list Observation) :
  monotone_clock obs ->
  forall (i j : nat) (oi oj : Observation),
    (i <= j)%nat ->
    nth_error obs i = Some oi ->
    nth_error obs j = Some oj ->
    (t_check oi <= t_store oj)%Q /\ (t_store oi <= t_store oj)%Q.
Proof.
  unfold monotone_clock.
  induction obs as [| a obs IH]; intros Hs i j oi oj Hij Hi Hj.
  - destruct i; discriminate.
  - simpl in Hs.
    apply StronglySorted_inv in Hs. destruct Hs as [Hs1 Ha1].
    apply StronglySorted_inv in Hs1. destruct Hs1 as [Hs2 Ha2].
    rewrite Forall_forall in Ha1, Ha2.
    assert (Hcs : (t_check a <= t_store a)%Q).
    { apply Ha1. left. reflexivity. }
    assert (Hin : forall k o, nth_error obs k = Some o ->
                              In (t_store o) (clock_readings obs)).
    { intros k o Hk. unfold clock_readings. apply in_flat_map.
      exists o. split; [eapply nth_error_In; eassumption |].
      right. left. reflexivity. }
    destruct i as [| i]; simpl in Hi.
    + inversion Hi. subst oi.
      destruct j as [| j]; simpl in Hj.
      * inversion Hj. subst oj. split; [exact Hcs | apply Qle_refl].
      * split.
        -- apply Ha1. right. eapply Hin. eassumption.
        -- apply Ha2. eapply Hin. eassumption.
    + destruct j as [| j]; [lia |]. simpl in Hj.
      apply (IH Hs2 i j); [lia | assumption | assumption].
Qed.

(** The stored timestamp is never older than a past alert's. *)
Lemma last_alert_time_covers (fsub : Q -> Q -> Q) (cfg : Config)
  (obs : list Observation) :
  monotone_clock obs ->
  forall (n i : nat) (oi : Observation) (c : Z),
    (i < n <= length obs)%nat ->
    nth_error obs i = Some oi ->
    nth_error (alerts fsub cfg obs) i = Some (Some c) ->
    (t_store oi <= last_alert_time (state_after fsub cfg obs n))%Q.
Proof.
  intros Hmono. induction n as [| n IH]; intros i oi c Hin Hoi Hal; [lia |].
  destruct (nth_error obs n) as [o |] eqn:Ho.
  2:{ apply nth_error_None in Ho. lia. }
  rewrite (state_after_S _ _ _ _ _ Ho).
  destruct (alert (fst (step fsub cfg (state_after fsub cfg obs n) o)))
    as [c' |] eqn:Hstep.
  - destruct (step_alert _ _ _ _ _ Hstep) as [_ [_ [_ Hlast]]].
    rewrite Hlast.
    apply (monotone_clock_order obs Hmono i n oi o); [lia | assumption ..].
  - rewrite (step_no_alert _ _ _ _ Hstep).
    destruct (Nat.eq_dec i n) as [-> | Hne].
    + destruct (alert_at _ _ _ _ _ Hal) as [o' [Ho' Ha]].
      rewrite Ho in Ho'. inversion Ho'. subst o'.
      rewrite Hstep in Ha. discriminate.
    + apply (IH i oi c); [lia | assumption ..].
Qed.

(** The count of a frame is the number of its boxes. *)
Lemma draw_boxes_count (cfg : Config) (boxes : list App.Box) (k : Z) :
  fst (draw_boxes cfg k boxes) = k + Z.of_nat (length boxes).
Proof.
  revert k. induction boxes as [| b boxes IH]; intros k; simpl.
  - lia.
  - specialize (IH (k + 1)).
    destruct (draw_boxes cfg (k + 1) boxes) as [n drawn]. simpl in *. lia.
Qed.

End AlertFacts.

(* ================================================================= *)
(** ** The dashboard's status decision *)

Module ClassifyFacts.
Import PiStream.

(** [process_frame] counts the boxes. *)
Lemma app_draw_boxes_count (boxes : list App.Box) (k : Z) :
  fst (App.draw_boxes k boxes) = k + Z.of_nat (length boxes).
Proof.
  revert k. induction boxes as [| b boxes IH]; intros k; simpl.
  - lia.
  - specialize (IH (k + 1)).
    destruct (App.draw_boxes (k + 1) boxes) as [n drawn]. simpl in *. lia.
Qed.

(** The status of [process_frame] is the filter's with thresholds 20 and
    25 and an empty buffer. *)
Lemma classify_is_filter (fsub : Q -> Q -> Q) (st : State) (o : Observation) :
  0 <= consecutive_critical_frames st ->
  fst (App.classify (total_persons o))
  = status_text (display_status (fst (step fsub dashboard_config st o))).
Proof.
  intros Hst. rewrite FilterFacts.step_status, FilterFacts.step_counter.
  unfold App.classify, dashboard_config. simpl.
  destruct (Z.ltb_spec 25 (total_persons o)).
  - destruct (Z.ltb_spec 0 (consecutive_critical_frames st + 1)); [reflexivity | lia].
  - simpl. destruct (20 <? total_persons o); reflexivity.
Qed.

End ClassifyFacts.

(* ================================================================= *)
(** ** Properties of the alert debouncer *)

Module Debouncer.
Import PiStream FilterFacts AlertFacts.

(** C1. In a run from the initial state, the status of frame [i] is
    Critical only if there are at least [BUFFER_SIZE + 1] frames so far
    and each of the [BUFFER_SIZE + 1] latest counts, the current one
    included, is strictly above the critical limit. A shorter streak
    therefore never yields Critical. *)
Theorem critical_only_after_full_window :
  forall (fsub : Q -> Q -> Q) (cfg : Config)
         (obs : list Observation) (i : nat),
    nth_error (statuses fsub cfg obs) i = Some Critical ->
    BUFFER_SIZE cfg + 1 <= Z.of_nat i + 1
    /\ forall j : nat,
        Z.of_nat i - BUFFER_SIZE cfg <= Z.of_nat j <= Z.of_nat i ->
        exists o, nth_error obs j = Some o
                  /\ CRITICAL_LIMIT cfg < total_persons o.
Proof.
  intros fsub cfg obs i H.
  destruct (critical_window fsub cfg obs i H) as [Hlen Hwin].
  split; [lia | exact Hwin].
Qed.

Lemma critical_only_after_full_window_witness :
  BUFFER_SIZE scenario_config + 1 <= Z.of_nat 3 + 1
  /\ forall j : nat,
      Z.of_nat 3 - BUFFER_SIZE scenario_config <= Z.of_nat j <= Z.of_nat 3 ->
      exists o,
        nth_error (at_times (fun _ => (100, 100)%Q) 0 [30; 30; 30; 30]) j = Some o
        /\ CRITICAL_LIMIT scenario_config < total_persons o.
Proof.
  apply (critical_only_after_full_window Qminus scenario_config
           (at_times (fun _ => (100, 100)%Q) 0 [30; 30; 30; 30]) 3).
  reflexivity.
Defined.

(** C2. With thresholds 20 and 25 and a buffer of 3, the counts
    30,30,30,30,10,30,30,30,30 give the statuses Warning, Warning,
    Warning, Critical, Normal, Warning, Warning, Warning, Critical,
    whatever the clock reads. *)
Theorem scenario_statuses :
  forall (fsub : Q -> Q -> Q) (clock : nat -> Q * Q),
    statuses fsub scenario_config
      (at_times clock 0 [30; 30; 30; 30; 10; 30; 30; 30; 30])
    = [Warning; Warning; Warning; Critical; Normal;
       Warning; Warning; Warning; Critical].
Proof.
  intros fsub clock. unfold statuses. simpl.
  unfold step. simpl.
  repeat (destruct (Qlt_le_dec _ _); simpl).
  all: reflexivity.
Qed.

(** C3. Whatever the counter was, a count at or below the critical limit
    resets it to 0. *)
Theorem drop_resets_counter :
  forall (fsub : Q -> Q -> Q) (cfg : Config) (st : State) (o : Observation),
    total_persons o <= CRITICAL_LIMIT cfg ->
    consecutive_critical_frames (snd (step fsub cfg st o)) = 0.
Proof.
  intros fsub cfg st o H. rewrite step_counter.
  destruct (Z.ltb_spec (CRITICAL_LIMIT cfg) (total_persons o)); [lia | reflexivity].
Qed.

Lemma drop_resets_counter_witness :
  consecutive_critical_frames
    (snd (step Qminus script_config
            {| consecutive_critical_frames := 1000; last_alert_time := 0 |}
            {| total_persons := 50; t_check := 7; t_store := 7 |})) = 0.
Proof.
  apply (drop_resets_counter Qminus script_config). simpl. lia.
Defined.

(** C4. Under a well-formed configuration, a count at or below the
    warning limit gives the status Normal and a counter of 0, whatever
    the state was. *)
Theorem low_count_is_normal :
  forall (fsub : Q -> Q -> Q) (cfg : Config) (st : State) (o : Observation),
    well_formed cfg ->
    total_persons o <= WARNING_LIMIT cfg ->
    display_status (fst (step fsub cfg st o)) = Normal
    /\ consecutive_critical_frames (snd (step fsub cfg st o)) = 0
    /\ (WARNING_LIMIT cfg = 20 ->
        App.classify (total_persons o)
        = ("Normal"%string, "status-normal"%string)).
Proof.
  intros fsub cfg st o [Hwc Hb] H.
  rewrite step_status, step_counter.
  destruct (Z.ltb_spec (CRITICAL_LIMIT cfg) (total_persons o)); [lia |].
  destruct (Z.ltb_spec (BUFFER_SIZE cfg) 0); [lia |].
  destruct (Z.ltb_spec (WARNING_LIMIT cfg) (total_persons o)); [lia |].
  repeat split.
  intros H20. unfold App.classify.
  destruct (Z.ltb_spec 25 (total_persons o)); [lia |].
  destruct (Z.ltb_spec 20 (total_persons o)); [lia | reflexivity].
Qed.

Lemma low_count_is_normal_witness :
  display_status
    (fst (step Qminus script_config
            {| consecutive_critical_frames := 1000; last_alert_time := 0 |}
            {| total_persons := 30; t_check := 7; t_store := 7 |})) = Normal
  /\ consecutive_critical_frames
       (snd (step Qminus script_config
               {| consecutive_critical_frames := 1000; last_alert_time := 0 |}
               {| total_persons := 30; t_check := 7; t_store := 7 |})) = 0
  /\ (WARNING_LIMIT script_config = 20 ->
      App.classify 30 = ("Normal"%string, "status-normal"%string)).
Proof.
  apply (low_count_is_normal Qminus script_config
           {| consecutive_critical_frames := 1000; last_alert_time := 0 |}
           {| total_persons := 30; t_check := 7; t_store := 7 |}).
  - unfold well_formed. simpl. lia.
  - simpl. lia.
Defined.

(** C5. With a buffer that is not negative, a count strictly between
    the warning limit and the critical limit gives the status Warning,
    displayed as "High Density"; so does [process_frame] of app.py
    between its literals 20 and 25. *)
Theorem between_limits_is_warning :
  forall (fsub : Q -> Q -> Q) (cfg : Config) (st : State) (o : Observation),
    0 <= BUFFER_SIZE cfg ->
    WARNING_LIMIT cfg < total_persons o < CRITICAL_LIMIT cfg ->
    display_status (fst (step fsub cfg st o)) = Warning
    /\ status_text (display_status (fst (step fsub cfg st o)))
       = "High Density"%string
    /\ (WARNING_LIMIT cfg = 20 -> CRITICAL_LIMIT cfg = 25 ->
        App.classify (total_persons o)
        = ("High Density"%string, "status-warning"%string)).
Proof.
  intros fsub cfg st o Hb [Hw Hc].
  assert (Hs : display_status (fst (step fsub cfg st o)) = Warning).
  { rewrite step_status, step_counter.
    destruct (Z.ltb_spec (CRITICAL_LIMIT cfg) (total_persons o)); [lia |].
    destruct (Z.ltb_spec (BUFFER_SIZE cfg) 0); [lia |].
    destruct (Z.ltb_spec (WARNING_LIMIT cfg) (total_persons o)); [reflexivity | lia]. }
  rewrite Hs. repeat split.
  intros H20 H25. unfold App.classify.
  destruct (Z.ltb_spec 25 (total_persons o)); [lia |].
  destruct (Z.ltb_spec 20 (total_persons o)); [reflexivity | lia].
Qed.

Lemma between_limits_is_warning_witness :
  display_status
    (fst (step Qminus scenario_config initial_state
            {| total_persons := 23; t_check := 7; t_store := 7 |})) = Warning
  /\ status_text
       (display_status
          (fst (step Qminus scenario_config initial_state
                  {| total_persons := 23; t_check := 7; t_store := 7 |})))
     = "High Density"%string
  /\ (WARNING_LIMIT scenario_config = 20 -> CRITICAL_LIMIT scenario_config = 25 ->
      App.classify 23 = ("High Density"%string, "status-warning"%string)).
Proof.
  apply (between_limits_is_warning Qminus scenario_config initial_state
           {| total_persons := 23; t_check := 7; t_store := 7 |}).
  - simpl. lia.
  - simpl. lia.
Defined.

(** C6. The comparisons are strict. A count equal to the critical limit
    resets the counter, is not Critical at its own frame (the buffer not
    being negative) and lies in the window of no Critical frame of a run;
    a counter equal to the buffer is not yet Critical; a count equal to
    the warning limit is never Warning and, under a well-formed
    configuration, is Normal. In app.py, 25 persons are "High Density"
    and 20 are "Normal". *)
Theorem limits_are_strict :
  forall (fsub : Q -> Q -> Q) (cfg : Config) (st : State) (o : Observation),
    (total_persons o = CRITICAL_LIMIT cfg ->
     consecutive_critical_frames (snd (step fsub cfg st o)) = 0
     /\ (0 <= BUFFER_SIZE cfg ->
         display_status (fst (step fsub cfg st o)) <> Critical))
    /\ (forall (obs : list Observation) (i j : nat),
           nth_error obs j = Some o ->
           total_persons o = CRITICAL_LIMIT cfg ->
           nth_error (statuses fsub cfg obs) i = Some Critical ->
           ~ (Z.of_nat i - BUFFER_SIZE cfg <= Z.of_nat j <= Z.of_nat i))
    /\ (consecutive_critical_frames (snd (step fsub cfg st o)) = BUFFER_SIZE cfg ->
        display_status (fst (step fsub cfg st o)) <> Critical)
    /\ (total_persons o = WARNING_LIMIT cfg ->
        display_status (fst (step fsub cfg st o)) <> Warning
        /\ (well_formed cfg ->
            display_status (fst (step fsub cfg st o)) = Normal))
    /\ App.classify 25 = ("High Density"%string, "status-warning"%string)
    /\ App.classify 20 = ("Normal"%string, "status-normal"%string).
Proof.
  intros fsub cfg st o.
  split; [| split; [| split; [| split; [| split; reflexivity]]]].
  - intros Heq. rewrite step_status, step_counter.
    destruct (Z.ltb_spec (CRITICAL_LIMIT cfg) (total_persons o)); [lia |].
    split; [reflexivity |]. intros Hb.
    destruct (Z.ltb_spec (BUFFER_SIZE cfg) 0); [lia |].
    destruct (WARNING_LIMIT cfg <? total_persons o); discriminate.
  - intros obs i j Hj Heq Hcrit Hwin.
    destruct (critical_window fsub cfg obs i Hcrit) as [_ Hall].
    destruct (Hall j Hwin) as [o' [Ho' Hlt]].
    rewrite Hj in Ho'. inversion Ho'. subst o'. lia.
  - intros Heq. rewrite step_status, Heq, Z.ltb_irrefl.
    destruct (WARNING_LIMIT cfg <? total_persons o); discriminate.
  - intros Heq. rewrite step_status, step_counter.
    destruct (Z.ltb_spec (WARNING_LIMIT cfg) (total_persons o)); [lia |].
    split.
    + destruct (BUFFER_SIZE cfg <? _); discriminate.
    + intros [Hwc Hb].
      destruct (Z.ltb_spec (CRITICAL_LIMIT cfg) (total_persons o)); [lia |].
      destruct (Z.ltb_spec (BUFFER_SIZE cfg) 0); [lia | reflexivity].
Qed.

Lemma limits_are_strict_witness :
  consecutive_critical_frames
    (snd (step Qminus script_config
            {| consecutive_critical_frames := 1000; last_alert_time := 0 |}
            {| total_persons := 50; t_check := 7; t_store := 7 |})) = 0
  /\ display_status
       (fst (step Qminus script_config
               {| consecutive_critical_frames := 1000; last_alert_time := 0 |}
               {| total_persons := 50; t_check := 7; t_store := 7 |}))
     <> Critical.
Proof.
  destruct (limits_are_strict Qminus script_config
              {| consecutive_critical_frames := 1000; last_alert_time := 0 |}
              {| total_persons := 50; t_check := 7; t_store := 7 |})
    as [Hcrit _].
  destruct (Hcrit eq_refl) as [Hzero Hnot].
  split; [exact Hzero | apply Hnot; simpl; lia].
Defined.

End Debouncer.

(* ================================================================= *)
(** ** Rounding to binary64 *)

Module FloatFacts.
Import Py.

(** The number of binary digits brackets the number. *)
Lemma digits2_pos_bounds (p : positive) :
  2 ^ (Z.pos (digits2_pos p) - 1) <= Z.pos p < 2 ^ Z.pos (digits2_pos p).
Proof.
  induction p as [p IH | p IH |]; simpl digits2_pos.
  - rewrite Pos2Z.inj_succ.
    replace (Z.succ (Z.pos (digits2_pos p)) - 1)
      with (Z.succ (Z.pos (digits2_pos p) - 1)) by lia.
    rewrite !Z.pow_succ_r by lia. lia.
  - rewrite Pos2Z.inj_succ.
    replace (Z.succ (Z.pos (digits2_pos p)) - 1)
      with (Z.succ (Z.pos (digits2_pos p) - 1)) by lia.
    rewrite !Z.pow_succ_r by lia. lia.
  - simpl. lia.
Qed.

Lemma Zdigits2_bounds (m : Z) :
  0 < m -> 2 ^ (Zdigits2 m - 1) <= m < 2 ^ Zdigits2 m.
Proof.
  destruct m as [| p | p]; try lia. intros _. apply digits2_pos_bounds.
Qed.

Lemma Zdigits2_pos (m : Z) : 0 < m -> 0 < Zdigits2 m.
Proof. destruct m; simpl; lia. Qed.

(** A number below [2 ^ k] has at most [k] digits; one that reaches
    [2 ^ k] has more. *)
Lemma Zdigits2_le (m k : Z) : 0 < m -> 0 <= k -> m < 2 ^ k -> Zdigits2 m <= k.
Proof.
  intros Hm Hk Hlt.
  destruct (Z_le_gt_dec (Zdigits2 m) k) as [H | H]; [exact H | exfalso].
  pose proof (Zdigits2_bounds m Hm) as [Hlo _].
  assert (2 ^ k <= 2 ^ (Zdigits2 m - 1)) by (apply Z.pow_le_mono_r; lia).
  lia.
Qed.

Lemma Zdigits2_gt (m k : Z) : 0 < m -> 0 <= k -> 2 ^ k <= m -> k < Zdigits2 m.
Proof.
  intros Hm Hk Hle.
  destruct (Z_lt_le_dec k (Zdigits2 m)) as [H | H]; [exact H | exfalso].
  pose proof (Zdigits2_bounds m Hm) as [_ Hhi].
  pose proof (Zdigits2_pos m Hm).
  assert (2 ^ Zdigits2 m <= 2 ^ k) by (apply Z.pow_le_mono_r; lia).
  lia.
Qed.

(** Shifting right halves the mantissa. *)
Lemma shr_1_m (r : shr_record) :
  0 <= shr_m r -> shr_m (shr_1 r) = shr_m r / 2.
Proof.
  destruct r as [m r s]. simpl. intros Hm.
  destruct m as [| [p | p |] | p]; cbn [shr_m shr_1].
  - reflexivity.
  - apply (Z.div_unique _ _ _ 1); lia.
  - apply (Z.div_unique _ _ _ 0); lia.
  - reflexivity.
  - lia.
Qed.

Lemma iter_shr_1_m (n : positive) (r : shr_record) :
  0 <= shr_m r -> shr_m (iter_pos shr_1 n r) = shr_m r / 2 ^ Z.pos n.
Proof.
  revert r. induction n as [n IH | n IH |]; intros r Hr; simpl iter_pos.
  - assert (H1 : 0 <= shr_m (shr_1 r)).
    { rewrite shr_1_m by exact Hr. apply Z.div_pos; lia. }
    assert (H2 : 0 <= shr_m (iter_pos shr_1 n (shr_1 r))).
    { rewrite IH by exact H1. apply Z.div_pos; lia. }
    rewrite IH by exact H2. rewrite IH by exact H1.
    rewrite shr_1_m by exact Hr.
    rewrite !Z.div_div by lia.
    f_equal. change 2 with (2 ^ 1) at 1.
    rewrite <- !Z.pow_add_r by lia. f_equal. lia.
  - assert (H2 : 0 <= shr_m (iter_pos shr_1 n r)).
    { rewrite IH by exact Hr. apply Z.div_pos; lia. }
    rewrite IH by exact H2. rewrite IH by exact Hr.
    rewrite Z.div_div by lia.
    f_equal. rewrite <- Z.pow_add_r by lia. f_equal. lia.
  - rewrite shr_1_m by exact Hr. reflexivity.
Qed.

Lemma shr_record_of_loc_m (m : Z) (l : location) :
  shr_m (shr_record_of_loc m l) = m.
Proof. destruct l as [| []]; reflexivity. Qed.

(** A right shift by [n >= 0] places. *)
Lemma shr_m_div (r : shr_record) (e n : Z) :
  0 <= shr_m r -> 0 <= n ->
  shr_m (fst (shr r e n)) = shr_m r / 2 ^ n /\ snd (shr r e n) = e + n.
Proof.
  intros Hr Hn. destruct n as [| p | p]; simpl; try lia.
  - rewrite Z.div_1_r. split; [reflexivity | lia].
  - split; [| reflexivity]. apply iter_shr_1_m. exact Hr.
Qed.

Lemma round_nearest_even_step (m : Z) (l : location) :
  round_nearest_even m l = m \/ round_nearest_even m l = m + 1.
Proof.
  destruct l as [| []]; simpl; auto. destruct (Z.even m); auto.
Qed.

(** Rounding a mantissa of at least 53 digits, in the normal range:
    the result has a 53-digit mantissa, and its exponent is the one that
    leaves 53 digits, or the next one when rounding up carries. *)
Lemma binary_round_aux_normal (q e : Z) (l : location) :
  2 ^ 52 <= q ->
  -1021 <= e + Zdigits2 q ->
  exists (m3 : positive) (e3 : Z),
    binary_round_aux prec emax false q e l
    = (if e3 <=? 971 then S754_finite false m3 e3 else S754_infinity false)
    /\ 2 ^ 52 <= Z.pos m3 < 2 ^ 53
    /\ e + Zdigits2 q - 53 <= e3 <= e + Zdigits2 q - 52.
Proof.
  intros Hq He.
  assert (Hq0 : 0 < q) by lia.
  pose proof (Zdigits2_bounds q Hq0) as [Hlo Hhi].
  pose proof (Zdigits2_gt q 52 Hq0 ltac:(lia) Hq) as Hdq.
  set (dq := Zdigits2 q) in *.
  unfold binary_round_aux, shr_fexp. fold dq.
  replace (fexp prec emax (dq + e) - e) with (dq - 53)
    by (unfold fexp, emin, prec, emax; lia).
  destruct (shr_m_div (shr_record_of_loc q l) e (dq - 53)) as [Hm1 He1];
    [rewrite shr_record_of_loc_m; lia | lia |].
  rewrite shr_record_of_loc_m in Hm1.
  destruct (shr (shr_record_of_loc q l) e (dq - 53)) as [mrs1 e1].
  simpl in Hm1, He1. subst e1.
  assert (Hm1b : 2 ^ 52 <= shr_m mrs1 < 2 ^ 53).
  { rewrite Hm1. split.
    - apply Z.div_le_lower_bound; [apply Z.pow_pos_nonneg; lia |].
      rewrite <- Z.pow_add_r by lia.
      replace (dq - 53 + 52) with (dq - 1) by lia. exact Hlo.
    - apply Z.div_lt_upper_bound; [apply Z.pow_pos_nonneg; lia |].
      rewrite <- Z.pow_add_r by lia.
      replace (dq - 53 + 53) with dq by lia. exact Hhi. }
  set (m2 := round_nearest_even (shr_m mrs1) (loc_of_shr_record mrs1)).
  assert (Hm2 : 2 ^ 52 <= m2 <= 2 ^ 53).
  { subst m2.
    destruct (round_nearest_even_step (shr_m mrs1) (loc_of_shr_record mrs1))
      as [-> | ->]; lia. }
  destruct (Z_lt_le_dec m2 (2 ^ 53)) as [Hlt | Hge].
  - assert (Hd2 : Zdigits2 m2 = 53).
    { apply Z.le_antisymm.
      - apply Zdigits2_le; lia.
      - pose proof (Zdigits2_gt m2 52 ltac:(lia) ltac:(lia) ltac:(lia)). lia. }
    rewrite Hd2.
    replace (fexp prec emax (53 + (e + (dq - 53))) - (e + (dq - 53))) with 0
      by (unfold fexp, emin, prec, emax; lia).
    cbn [shr]. rewrite shr_record_of_loc_m.
    destruct m2 as [| m | m] eqn:Em; try lia.
    exists m, (e + (dq - 53)).
    split; [reflexivity | split; lia].
  - assert (Em : m2 = 2 ^ 53) by lia.
    rewrite Em.
    change (Zdigits2 (2 ^ 53)) with 54.
    replace (fexp prec emax (54 + (e + (dq - 53))) - (e + (dq - 53))) with 1
      by (unfold fexp, emin, prec, emax; lia).
    cbn.
    exists 4503599627370496%positive, (e + (dq - 53) + 1).
    split; [reflexivity | split; lia].
Qed.

Lemma div_eucl_div_mod (a b : Z) : Z.div_eucl a b = (a / b, a mod b).
Proof. unfold Z.div, Z.modulo. destruct (Z.div_eucl a b). reflexivity. Qed.

(** The integer quotient that [count / 100] rounds: the count is
    shifted left until it has 60 digits, so that the quotient has at
    least 53. *)
Lemma div_core_100 (count : Z) :
  100 <= count ->
  let s := Z.max (60 - Zdigits2 count) 0 in
  SFdiv_core_binary prec emax count 0 100 0
  = (count * 2 ^ s / 100, - s, new_location 100 ((count * 2 ^ s) mod 100)).
Proof.
  intros Hc s.
  pose proof (Zdigits2_gt count 6 ltac:(lia) ltac:(lia) ltac:(simpl; lia)) as Hd.
  unfold SFdiv_core_binary.
  change (Zdigits2 100) with 7.
  replace (Z.min (fexp prec emax (Zdigits2 count + 0 - (7 + 0))) (0 - 0))
    with (- s) by (unfold fexp, emin, prec, emax; lia).
  replace (0 - 0 - - s) with s by lia.
  assert (Hm : match s with
               | 0 => count
               | Z.pos _ => Z.shiftl count s
               | Z.neg _ => 0
               end = count * 2 ^ s).
  { destruct s as [| p | p] eqn:Es.
    - simpl. lia.
    - rewrite Z.shiftl_mul_pow2 by lia. reflexivity.
    - lia. }
  rewrite Hm, div_eucl_div_mod. reflexivity.
Qed.

(** [count / 100] for a count of at least 100: a double that is at
    least 1, or an overflow. *)
Lemma SFdiv_100_large (count : Z) :
  100 <= count ->
  exists (m3 : positive) (e3 : Z),
    SFdiv prec emax (exact_int count) (exact_int 100)
    = (if e3 <=? 971 then S754_finite false m3 e3 else S754_infinity false)
    /\ 2 ^ 52 <= Z.pos m3 < 2 ^ 53
    /\ -52 <= e3 <= Zdigits2 count - 58.
Proof.
  intros Hc.
  pose proof (div_core_100 count Hc) as Hcore. cbv zeta in Hcore.
  pose proof (Zdigits2_gt count 6 ltac:(lia) ltac:(lia) ltac:(simpl; lia)) as Hd.
  pose proof (Zdigits2_bounds count ltac:(lia)) as [Hlo Hhi].
  set (d1 := Zdigits2 count) in *.
  set (s := Z.max (60 - d1) 0) in *.
  set (q := count * 2 ^ s / 100) in *.
  assert (Hs : 0 <= s) by lia.
  assert (Hp : 0 < 2 ^ s) by (apply Z.pow_pos_nonneg; lia).
  assert (Hm59 : 2 ^ 59 <= count * 2 ^ s).
  { destruct (Z_le_gt_dec d1 60) as [Hle | Hgt].
    - replace s with (60 - d1) by lia.
      replace 59 with (d1 - 1 + (60 - d1)) by lia.
      rewrite Z.pow_add_r by lia.
      apply Z.mul_le_mono_nonneg_r; [apply Z.pow_nonneg; lia | exact Hlo].
    - replace s with 0 by lia. rewrite Z.pow_0_r, Z.mul_1_r.
      assert (2 ^ 59 <= 2 ^ (d1 - 1)) by (apply Z.pow_le_mono_r; lia).
      lia. }
  assert (Hq52 : 2 ^ 52 <= q).
  { unfold q. apply Z.div_le_lower_bound; [lia |].
    change (2 ^ 59) with (128 * 2 ^ 52) in Hm59. lia. }
  assert (Hqs : 2 ^ s <= q).
  { unfold q. apply Z.div_le_lower_bound; [lia |]. nia. }
  assert (Hqhi : q < 2 ^ (d1 + s - 6)).
  { unfold q. apply Z.div_lt_upper_bound; [lia |].
    assert (Hpow : 2 ^ (d1 + s) = 64 * 2 ^ (d1 + s - 6)).
    { change 64 with (2 ^ 6). rewrite <- Z.pow_add_r by lia.
      f_equal. lia. }
    assert (count * 2 ^ s < 2 ^ (d1 + s)).
    { rewrite Z.pow_add_r by lia. nia. }
    assert (0 < 2 ^ (d1 + s - 6)) by (apply Z.pow_pos_nonneg; lia).
    lia. }
  pose proof (Zdigits2_gt q s ltac:(lia) Hs Hqs) as Hdq_lo.
  pose proof (Zdigits2_le q (d1 + s - 6) ltac:(lia) ltac:(lia) Hqhi) as Hdq_hi.
  pose proof (Zdigits2_gt q 52 ltac:(lia) ltac:(lia) Hq52) as Hdq53.
  destruct (binary_round_aux_normal q (- s)
              (new_location 100 ((count * 2 ^ s) mod 100)) Hq52 ltac:(lia))
    as [m3 [e3 [Hr [Hm3 He3]]]].
  exists m3, e3. split; [| split; [exact Hm3 | lia]].
  destruct count as [| p | p]; try lia.
  unfold SFdiv, exact_int. cbn [xorb].
  rewrite Hcore. exact Hr.
Qed.

(** From 100 persons on, and below the range of a double, the quotient
    exists and the percentage is exactly [1.0]. *)
Lemma truediv_100_large (count : Z) :
  100 <= count < 2 ^ 1024 ->
  exists x : float, truediv count 100 = Ok x /\ min2 x one = one.
Proof.
  intros [Hc Hhi].
  destruct (SFdiv_100_large count Hc) as [m3 [e3 [Hdiv [Hm3 He3]]]].
  pose proof (Zdigits2_le count 1024 ltac:(lia) ltac:(lia) Hhi) as Hd.
  clear Hhi.
  destruct (Z.leb_spec e3 971) as [Hfin | Hinf]; [| lia].
  exists (S754_finite false m3 e3). split.
  - unfold truediv. rewrite Hdiv. reflexivity.
  - unfold min2, SFltb, one, SFcompare.
    destruct (Z.compare_spec (-52) e3) as [Heq | Hlt | Hgt].
    + subst e3.
      destruct (Pos.compare_spec 4503599627370496 m3) as [Hpe | Hpl | Hpg].
      * subst m3.
        rewrite Pos.compare_cont_spec, Pos.compare_refl. reflexivity.
      * rewrite Pos.compare_cont_spec, (proj2 (Pos.compare_lt_iff _ _) Hpl).
        reflexivity.
      * exfalso. apply Pos2Z.pos_lt_pos in Hpg. destruct Hm3 as [Hm3 _].
        change (2 ^ 52) with 4503599627370496 in Hm3.
        apply (Z.lt_irrefl (Z.pos m3)).
        eapply Z.lt_le_trans; eassumption.
    + reflexivity.
    + lia.
Qed.

(** The cells filled by a count: a tenth of it, and 10 from 100 on. *)
Lemma filled_cells_small_check :
  forallb (fun n : nat =>
             match App.filled_cells (Z.of_nat n) with
             | Ok k => k =? Z.of_nat n / 10
             | Raise _ => false
             end) (seq 0 100) = true.
Proof. vm_compute. reflexivity. Qed.

Lemma filled_cells_small (count : Z) :
  0 <= count < 100 -> App.filled_cells count = Ok (count / 10).
Proof.
  intros Hc.
  pose proof filled_cells_small_check as Hall.
  rewrite forallb_forall in Hall.
  specialize (Hall (Z.to_nat count)).
  rewrite Z2Nat.id in Hall by lia.
  assert (Hin : In (Z.to_nat count) (seq 0 100)).
  { apply in_seq. lia. }
  specialize (Hall Hin).
  destruct (App.filled_cells count) as [k | e]; [| discriminate].
  apply Z.eqb_eq in Hall. now subst k.
Qed.

Lemma filled_cells_large (count : Z) :
  100 <= count < 2 ^ 1024 -> App.filled_cells count = Ok 10.
Proof.
  intros Hc.
  destruct (truediv_100_large count Hc) as [x [Hx Hmin]].
  unfold App.filled_cells. rewrite Hx. cbn [bind]. rewrite Hmin.
  reflexivity.
Qed.

Lemma filled_cells_value (count : Z) :
  0 <= count < 2 ^ 1024 ->
  App.filled_cells count = Ok (Z.min (count / 10) 10).
Proof.
  intros Hc. destruct (Z_lt_le_dec count 100) as [Hlt | Hge].
  - rewrite filled_cells_small by lia. f_equal.
    assert (count / 10 < 10) by (apply Z.div_lt_upper_bound; lia). lia.
  - rewrite filled_cells_large by lia. f_equal.
    assert (10 <= count / 10) by (apply Z.div_le_lower_bound; lia). lia.
Qed.

(** [create_density_bar] in terms of its local [filled]. *)
Lemma create_density_bar_filled (count : Z) :
  App.create_density_bar count
  = (filled <- App.filled_cells count ;;
     Ok (str_of_int count ++ u " People detected &nbsp; "
           ++ str_mul [App.FULL_BLOCK] filled
           ++ str_mul [App.LIGHT_SHADE] (10 - filled))).
Proof.
  unfold App.create_density_bar, App.filled_cells.
  destruct (truediv count 100) as [q | e]; cbn [bind]; [| reflexivity].
  destruct (mul_int_float 10 (min2 q one)) as [p | e]; cbn [bind];
    [| reflexivity].
  destruct (int_of_float p) as [k | e]; reflexivity.
Qed.

Lemma str_mul_single (c : N) (n : Z) :
  str_mul [c] n = repeat c (Z.to_nat n).
Proof.
  unfold str_mul. induction (Z.to_nat n) as [| k IH]; simpl.
  - reflexivity.
  - now rewrite IH.
Qed.

(** The formula of the bar, on rationals. *)
Lemma tenth_capped (count : Z) :
  0 <= count ->
  Qfloor (10 * Qmin (inject_Z count / 100) 1) = Z.min (count / 10) 10.
Proof.
  intros Hc.
  destruct (Z_lt_le_dec count 100) as [Hlt | Hge].
  - assert (Hmin : (Qmin (inject_Z count / 100) 1 == inject_Z count / 100)%Q).
    { apply Q.min_l. unfold Qle, Qdiv, Qmult, Qinv, inject_Z. cbn [Qnum Qden]. lia. }
    rewrite Hmin.
    assert (Heq : (10 * (inject_Z count / 100) == (count # 10))%Q).
    { unfold Qeq, Qdiv, Qmult, Qinv, inject_Z. cbn [Qnum Qden]. lia. }
    rewrite Heq. unfold Qfloor.
    assert (count / 10 < 10) by (apply Z.div_lt_upper_bound; lia). lia.
  - assert (Hmin : (Qmin (inject_Z count / 100) 1 == 1)%Q).
    { apply Q.min_r. unfold Qle, Qdiv, Qmult, Qinv, inject_Z. cbn [Qnum Qden]. lia. }
    rewrite Hmin.
    assert (10 <= count / 10) by (apply Z.div_le_lower_bound; lia).
    change (Qfloor (10 * 1)) with 10. lia.
Qed.

(** Where the division starts to overflow. *)
Example last_count_that_divides :
  App.filled_cells (100 * (2 ^ 1024 - 2 ^ 970) - 1) = Ok 10.
Proof. vm_compute. reflexivity. Qed.

Example first_count_that_overflows :
  App.filled_cells (100 * (2 ^ 1024 - 2 ^ 970)) = Raise OverflowError.
Proof. vm_compute. reflexivity. Qed.

End FloatFacts.

(* ================================================================= *)
(** ** Rounding at the top of the range *)

Module FloatBoundary.
Import Py FloatFacts.

(** The bit shifted out last is the round bit. *)
Lemma shr_1_r (r : shr_record) :
  0 <= shr_m r -> shr_r (shr_1 r) = Z.odd (shr_m r).
Proof.
  destruct r as [m r s]. cbn [shr_m]. intros Hm.
  destruct m as [| [p | p |] | p]; try reflexivity. lia.
Qed.

Lemma shr_1_nonneg (r : shr_record) : 0 <= shr_m r -> 0 <= shr_m (shr_1 r).
Proof. intros H. rewrite shr_1_m by exact H. apply Z.div_pos; lia. Qed.

Lemma iter_shr_1_nonneg (n : positive) (r : shr_record) :
  0 <= shr_m r -> 0 <= shr_m (iter_pos shr_1 n r).
Proof.
  intros H. rewrite iter_shr_1_m by exact H.
  apply Z.div_pos; [exact H | apply Z.pow_pos_nonneg; lia].
Qed.

Lemma iter_shr_1_r (n : positive) (r : shr_record) :
  0 <= shr_m r ->
  shr_r (iter_pos shr_1 n r) = Z.odd (shr_m r / 2 ^ (Z.pos n - 1)).
Proof.
  revert r. induction n as [n IH | n IH |]; intros r Hr; cbn [iter_pos].
  - pose proof (shr_1_nonneg r Hr) as H1.
    pose proof (iter_shr_1_nonneg n (shr_1 r) H1) as H2.
    rewrite IH by exact H2.
    rewrite iter_shr_1_m by exact H1. rewrite shr_1_m by exact Hr.
    rewrite !Z.div_div by lia.
    f_equal. f_equal.
    change 2 with (2 ^ 1) at 1.
    rewrite <- !Z.pow_add_r by lia. f_equal. lia.
  - pose proof (iter_shr_1_nonneg n r Hr) as H2.
    rewrite IH by exact H2.
    rewrite iter_shr_1_m by exact Hr.
    rewrite Z.div_div by lia.
    f_equal. f_equal.
    rewrite <- Z.pow_add_r by lia. f_equal. lia.
  - rewrite shr_1_r by exact Hr. cbn. now rewrite Z.div_1_r.
Qed.

(** With a round bit of 0 the mantissa is kept; with a round bit of 1
    an odd mantissa is rounded up. *)
Lemma round_down_when_bit_clear (mrs : shr_record) :
  shr_r mrs = false ->
  round_nearest_even (shr_m mrs) (loc_of_shr_record mrs) = shr_m mrs.
Proof.
  destruct mrs as [m r s]. cbn. intros ->. destruct s; reflexivity.
Qed.

Lemma round_up_when_bit_set (mrs : shr_record) :
  shr_r mrs = true ->
  Z.even (shr_m mrs) = false ->
  round_nearest_even (shr_m mrs) (loc_of_shr_record mrs) = shr_m mrs + 1.
Proof.
  destruct mrs as [m r s]. cbn. intros -> He. destruct s; cbn.
  - reflexivity.
  - now rewrite He.
Qed.

(** A quotient of 1024 digits: it rounds to a double below the
    midpoint between the largest double and [2 ^ 1024], and overflows
    from the midpoint on. *)
Lemma round_top_binade (q : Z) (l : location) :
  2 ^ 1023 <= q < 2 ^ 1024 ->
  (q < 2 ^ 1024 - 2 ^ 970 ->
   exists m : positive,
     binary_round_aux prec emax false q 0 l = S754_finite false m 971)
  /\ (2 ^ 1024 - 2 ^ 970 <= q ->
      binary_round_aux prec emax false q 0 l = S754_infinity false).
Proof.
  intros [Hlo Hhi].
  assert (Hq0 : 0 < q).
  { assert (0 < 2 ^ 1023) by (apply Z.pow_pos_nonneg; lia). lia. }
  assert (Hdq : Zdigits2 q = 1024).
  { apply Z.le_antisymm.
    - apply Zdigits2_le; [exact Hq0 | lia | exact Hhi].
    - pose proof (Zdigits2_gt q 1023 Hq0 ltac:(lia) Hlo). lia. }
  unfold binary_round_aux, shr_fexp. rewrite Hdq.
  replace (fexp prec emax (1024 + 0) - 0) with 971
    by (unfold fexp, emin, prec, emax; lia).
  cbn [shr]. 
  set (mrs := iter_pos shr_1 971 (shr_record_of_loc q l)).
  assert (Hm : shr_m mrs = q / 2 ^ 971).
  { unfold mrs. rewrite iter_shr_1_m by (rewrite shr_record_of_loc_m; lia).
    now rewrite shr_record_of_loc_m. }
  assert (Hr : shr_r mrs = Z.odd (q / 2 ^ 970)).
  { unfold mrs. rewrite iter_shr_1_r by (rewrite shr_record_of_loc_m; lia).
    now rewrite shr_record_of_loc_m. }
  assert (H971 : 2 ^ 971 = 2 * 2 ^ 970).
  { change 971 with (1 + 970). rewrite Z.pow_add_r by lia. reflexivity. }
  assert (H1024 : 2 ^ 1024 = 2 ^ 54 * 2 ^ 970).
  { change 1024 with (54 + 970). rewrite Z.pow_add_r by lia. reflexivity. }
  assert (H1023 : 2 ^ 1023 = 2 ^ 53 * 2 ^ 970).
  { change 1023 with (53 + 970). rewrite Z.pow_add_r by lia. reflexivity. }
  assert (Hp : 0 < 2 ^ 970) by (apply Z.pow_pos_nonneg; lia).
  set (P := 2 ^ 970) in *.
  set (h := q / P).
  assert (Hh : 2 ^ 53 <= h < 2 ^ 54).
  { unfold h. split.
    - apply Z.div_le_lower_bound; [exact Hp |]. lia.
    - apply Z.div_lt_upper_bound; [exact Hp |]. lia. }
  assert (Hm' : shr_m mrs = h / 2).
  { rewrite Hm, H971. unfold h. rewrite Z.div_div by lia. f_equal; lia. }
  fold h in Hr.
  pose proof (Z.div_mod h 2 ltac:(lia)) as Hdm.
  pose proof (Z.mod_pos_bound h 2 ltac:(lia)) as Hmb.
  assert (Hodd : Z.odd h = (h mod 2 =? 1)).
  { rewrite Zmod_odd. destruct (Z.odd h); reflexivity. }
  pose proof (Z.div_mod q P ltac:(lia)) as Hqdm.
  pose proof (Z.mod_pos_bound q P ltac:(lia)) as Hqmb.
  fold h in Hqdm.
  split.
  - intros Hbelow.
    assert (Hcase : h / 2 <= 2 ^ 53 - 2 \/ (h / 2 = 2 ^ 53 - 1 /\ h mod 2 = 0)).
    { assert (h <= 2 ^ 54 - 2) by nia. lia. }
    assert (Hm2 : 2 ^ 52
                  <= round_nearest_even (shr_m mrs) (loc_of_shr_record mrs)
                  < 2 ^ 53).
    { destruct Hcase as [Hsmall | [Htop Hbit]].
      - destruct (round_nearest_even_step (shr_m mrs) (loc_of_shr_record mrs))
          as [-> | ->]; lia.
      - rewrite round_down_when_bit_clear; [lia |].
        rewrite Hr, Hodd, Hbit. reflexivity. }
    set (m2 := round_nearest_even (shr_m mrs) (loc_of_shr_record mrs)) in *.
    assert (Hd2 : Zdigits2 m2 = 53).
    { apply Z.le_antisymm.
      - apply Zdigits2_le; lia.
      - pose proof (Zdigits2_gt m2 52 ltac:(lia) ltac:(lia) ltac:(lia)). lia. }
    rewrite Hd2.
    replace (fexp prec emax (53 + (0 + 971)) - (0 + 971)) with 0
      by (unfold fexp, emin, prec, emax; lia).
    cbn [shr]. rewrite shr_record_of_loc_m.
    destruct m2 as [| m | m] eqn:Em; try lia.
    exists m. reflexivity.
  - intros Habove.
    assert (Htop : h / 2 = 2 ^ 53 - 1 /\ h mod 2 = 1).
    { assert (2 ^ 54 - 1 <= h) by nia. lia. }
    destruct Htop as [Htop Hbit].
    rewrite round_up_when_bit_set.
    + rewrite Hm', Htop.
      change (Zdigits2 (2 ^ 53 - 1 + 1)) with 54.
      replace (fexp prec emax (54 + (0 + 971)) - (0 + 971)) with 1
        by (unfold fexp, emin, prec, emax; lia).
      reflexivity.
    + rewrite Hr, Hodd, Hbit. reflexivity.
    + rewrite Hm', Htop. reflexivity.
Qed.


(** A double that is at least 1 caps to [1.0]. *)
Lemma min2_one_of_at_least_one (m : positive) (e : Z) :
  2 ^ 52 <= Z.pos m ->
  -52 <= e ->
  min2 (S754_finite false m e) one = one.
Proof.
  intros Hm He. unfold min2, SFltb, one, SFcompare.
  destruct (Z.compare_spec (-52) e) as [Heq | Hlt | Hgt].
  - subst e.
    destruct (Pos.compare_spec 4503599627370496 m) as [Hpe | Hpl | Hpg].
    + subst m. rewrite Pos.compare_cont_spec, Pos.compare_refl. reflexivity.
    + rewrite Pos.compare_cont_spec, (proj2 (Pos.compare_lt_iff _ _) Hpl).
      reflexivity.
    + exfalso. apply Pos2Z.pos_lt_pos in Hpg.
      change (2 ^ 52) with 4503599627370496 in Hm.
      apply (Z.lt_irrefl (Z.pos m)).
      eapply Z.lt_le_trans; eassumption.
  - reflexivity.
  - lia.
Qed.

(** The first count whose hundredth is beyond the doubles. *)
Lemma overflow_threshold :
  100 * (2 ^ 1024 - 2 ^ 970) < 2 ^ 1031 /\ 2 ^ 1029 < 100 * (2 ^ 1024 - 2 ^ 970).
Proof.
  split; apply Z.ltb_lt; vm_compute; reflexivity.
Qed.

(** [count / 100] from 100 on: a double that is at least 1 below the
    threshold, an overflow from the threshold on. *)
Lemma SFdiv_100_range (count : Z) :
  100 <= count ->
  (count < 100 * (2 ^ 1024 - 2 ^ 970) ->
   exists (m : positive) (e : Z),
     SFdiv prec emax (exact_int count) (exact_int 100) = S754_finite false m e
     /\ 2 ^ 52 <= Z.pos m /\ -52 <= e)
  /\ (100 * (2 ^ 1024 - 2 ^ 970) <= count ->
      SFdiv prec emax (exact_int count) (exact_int 100) = S754_infinity false).
Proof.
  intros Hc.
  destruct overflow_threshold as [Tlt Tgt].
  destruct (SFdiv_100_large count Hc) as [m3 [e3 [Hdiv [Hm3 He3]]]].
  assert (Hp1029 : 0 < 2 ^ 1029) by (apply Z.pow_pos_nonneg; lia).
  destruct (Z_lt_le_dec count (2 ^ 1029)) as [Hsmall | Hbig].
  { (* at most 1029 digits: the exponent stays in range *)
    pose proof (Zdigits2_le count 1029 ltac:(lia) ltac:(lia) Hsmall) as Hd.
    split; [| intros Hge; exfalso; lia].
    intros _. exists m3, e3.
    destruct (Z.leb_spec e3 971) as [Hfin | Hinf]; [| exfalso; lia].
    split; [exact Hdiv | split; lia]. }
  (* 1030 digits or more: the count is divided as it is *)
  pose proof (Zdigits2_gt count 1029 ltac:(lia) ltac:(lia) Hbig) as Hd.
  pose proof (div_core_100 count Hc) as Hcore. cbv zeta in Hcore.
  replace (Z.max (60 - Zdigits2 count) 0) with 0 in Hcore by lia.
  rewrite Z.pow_0_r, Z.mul_1_r in Hcore. cbn [Z.opp] in Hcore.
  set (q := count / 100) in *.
  set (l := new_location 100 (count mod 100)) in *.
  assert (Hdivq : SFdiv prec emax (exact_int count) (exact_int 100)
                  = binary_round_aux prec emax false q 0 l).
  { destruct count as [| p | p]; try lia.
    unfold SFdiv, exact_int. cbn [xorb]. rewrite Hcore. reflexivity. }
  assert (H1022 : 2 ^ 1022 <= q).
  { unfold q. apply Z.div_le_lower_bound; [lia |].
    assert (Hs : 2 ^ 1029 = 128 * 2 ^ 1022).
    { change 128 with (2 ^ 7). rewrite <- Z.pow_add_r by lia. reflexivity. }
    assert (0 < 2 ^ 1022) by (apply Z.pow_pos_nonneg; lia). lia. }
  assert (Hp1022 : 0 < 2 ^ 1022) by (apply Z.pow_pos_nonneg; lia).
  assert (H52 : 2 ^ 52 <= q).
  { assert (2 ^ 52 <= 2 ^ 1022) by (apply Z.pow_le_mono_r; lia). lia. }
  split.
  - intros Hbelow.
    assert (Hq : q < 2 ^ 1024 - 2 ^ 970).
    { unfold q. apply Z.div_lt_upper_bound; lia. }
    destruct (Z_lt_le_dec q (2 ^ 1023)) as [Hq1023 | Hq1023].
    + pose proof (Zdigits2_le q 1023 ltac:(lia) ltac:(lia) Hq1023) as Hdq.
      pose proof (Zdigits2_gt q 1022 ltac:(lia) ltac:(lia) H1022) as Hdq'.
      destruct (binary_round_aux_normal q 0 l H52 ltac:(lia))
        as [m [e [Hr [Hm He]]]].
      exists m, e. rewrite Hdivq, Hr.
      destruct (Z.leb_spec e 971) as [Hfin | Hinf]; [| exfalso; lia].
      split; [reflexivity | split; lia].
    + assert (Hp970 : 0 < 2 ^ 970) by (apply Z.pow_pos_nonneg; lia).
      destruct (round_top_binade q l ltac:(lia)) as [Hfinite _].
      destruct (Hfinite Hq) as [m Hm].
      exists m3, e3. rewrite Hdivq, Hm in Hdiv.
      destruct (Z.leb_spec e3 971) as [Hfin | Hinf]; [| discriminate].
      inversion Hdiv. subst. rewrite Hdivq, Hm.
      split; [reflexivity | split; lia].
  - intros Habove.
    assert (Hq : 2 ^ 1024 - 2 ^ 970 <= q).
    { unfold q. apply Z.div_le_lower_bound; lia. }
    assert (Hp970 : 0 < 2 ^ 970) by (apply Z.pow_pos_nonneg; lia).
    assert (H1023 : 2 ^ 1023 <= 2 ^ 1024 - 2 ^ 970).
    { apply Z.leb_le. vm_compute. reflexivity. }
    destruct (Z_lt_le_dec q (2 ^ 1024)) as [Hq1024 | Hq1024].
    + destruct (round_top_binade q l ltac:(lia)) as [_ Hinf].
      rewrite Hdivq. apply Hinf. exact Hq.
    + pose proof (Zdigits2_gt q 1024 ltac:(lia) ltac:(lia) Hq1024) as Hdq.
      destruct (binary_round_aux_normal q 0 l H52 ltac:(lia))
        as [m [e [Hr [Hm He]]]].
      rewrite Hdivq, Hr.
      destruct (Z.leb_spec e 971) as [Hfin | Hinf]; [exfalso; lia | reflexivity].
Qed.

(** The cells filled over the whole range on which the division
    returns. *)
Lemma filled_cells_in_range (count : Z) :
  0 <= count < 100 * (2 ^ 1024 - 2 ^ 970) ->
  App.filled_cells count = Ok (Z.min (count / 10) 10).
Proof.
  intros [H0 HT].
  destruct (Z_lt_le_dec count 100) as [Hlt | Hge].
  - rewrite filled_cells_small by lia. f_equal.
    assert (count / 10 < 10) by (apply Z.div_lt_upper_bound; lia). lia.
  - destruct (SFdiv_100_range count Hge) as [Hfin _].
    destruct (Hfin HT) as [m [e [Hdiv [Hm He]]]].
    unfold App.filled_cells, truediv. cbn [Z.eqb]. rewrite Hdiv. cbn [bind].
    rewrite (min2_one_of_at_least_one m e Hm He).
    assert (10 <= count / 10) by (apply Z.div_le_lower_bound; lia).
    replace (Z.min (count / 10) 10) with 10 by lia.
    reflexivity.
Qed.

Lemma create_density_bar_in_range (count : Z) :
  0 <= count < 100 * (2 ^ 1024 - 2 ^ 970) ->
  App.create_density_bar count
  = Ok (str_of_int count ++ u " People detected &nbsp; "
          ++ repeat App.FULL_BLOCK (Z.to_nat (Z.min (count / 10) 10))
          ++ repeat App.LIGHT_SHADE (Z.to_nat (10 - Z.min (count / 10) 10))).
Proof.
  intros Hc.
  rewrite create_density_bar_filled, (filled_cells_in_range count Hc).
  cbn [bind]. now rewrite !str_mul_single.
Qed.

Lemma create_density_bar_beyond_range (count : Z) :
  100 * (2 ^ 1024 - 2 ^ 970) <= count ->
  App.create_density_bar count = Raise OverflowError.
Proof.
  intros Hc. destruct overflow_threshold as [_ Tgt].
  assert (Hp : 0 < 2 ^ 1029) by (apply Z.pow_pos_nonneg; lia).
  assert (H100 : 100 <= count).
  { assert (100 <= 2 ^ 1029) by (apply Z.leb_le; vm_compute; reflexivity). lia. }
  destruct (SFdiv_100_range count H100) as [_ Hinf].
  unfold App.create_density_bar, truediv. cbn [Z.eqb].
  rewrite (Hinf Hc). reflexivity.
Qed.

End FloatBoundary.

(* ================================================================= *)
(** ** The rounded difference never overstates a whole cooldown *)

Module RoundingFacts.
Import Py Binary64 FloatFacts.



















End RoundingFacts.

(* ================================================================= *)
(** ** The dashboard loops *)

Module LoopFacts.
Import Py App FloatFacts.

Lemma create_density_bar_total (count : Z) :
  0 <= count < 2 ^ 1024 ->
  create_density_bar count
  = Ok (str_of_int count ++ u " People detected &nbsp; "
          ++ repeat FULL_BLOCK (Z.to_nat (Z.min (count / 10) 10))
          ++ repeat LIGHT_SHADE (Z.to_nat (10 - Z.min (count / 10) 10))).
Proof.
  intros Hc.
  rewrite create_density_bar_filled, (filled_cells_value count Hc).
  cbn [bind]. now rewrite !str_mul_single.
Qed.

(** One frame: the counter advances, and the display is replaced on the
    tenth frames only. *)
Lemma refresh_spec (d : Display) (boxes : list Box) :
  countable boxes ->
  exists d' : Display,
    refresh d boxes = Ok d'
    /\ frame_count d' = frame_count d + 1
    /\ ((frame_count d + 1) mod 10 = 0 -> computed boxes = Ok (shown d'))
    /\ ((frame_count d + 1) mod 10 <> 0 -> shown d' = shown d).
Proof.
  unfold countable. intros Hsmall.
  unfold refresh, computed, process_frame.
  pose proof (ClassifyFacts.app_draw_boxes_count boxes 0) as Hn.
  destruct (draw_boxes 0 boxes) as [n ov]. simpl in Hn.
  destruct (classify n) as [status css].
  destruct (Z.eqb_spec ((frame_count d + 1) mod 10) 0) as [Hz | Hnz].
  - rewrite (create_density_bar_total n) by lia. cbn [bind].
    eexists. split; [reflexivity |]. cbn. repeat split; congruence.
  - eexists. split; [reflexivity |]. cbn. repeat split; congruence.
Qed.

(** The loop renders one display per frame, each obtained from the one
    before it. *)
Lemma dashboard_loop_spec (frames : list (list Box)) :
  Forall countable frames ->
  forall d0 : Display,
  exists ds : list Display,
    dashboard_loop d0 frames = Ok ds
    /\ length ds = length frames
    /\ forall (n : nat) (d : Display),
        nth_error ds n = Some d ->
        exists (prev : Display) (boxes : list Box),
          nth_error (d0 :: ds) n = Some prev
          /\ nth_error frames n = Some boxes
          /\ refresh prev boxes = Ok d.
Proof.
  induction 1 as [| boxes frames Hb Hrest IH]; intros d0.
  - exists []. repeat split. intros [| n] d H; discriminate.
  - destruct (refresh_spec d0 boxes Hb) as [d1 [Hr _]].
    destruct (IH d1) as [ds [Hloop [Hlen Hstep]]].
    exists (d1 :: ds). cbn [dashboard_loop]. rewrite Hr. cbn [bind].
    rewrite Hloop. cbn [bind]. split; [reflexivity |].
    split; [simpl; now rewrite Hlen |].
    intros [| n] d Hd.
    + inversion Hd. subst d. exists d0, boxes. repeat split. exact Hr.
    + simpl in Hd. destruct (Hstep n d Hd) as [prev [bx [Hp [Hf Hrf]]]].
      exists prev, bx. repeat split; assumption.
Qed.

(** From the initial display: the frame counter is the 1-based index,
    and what is shown is what the latest tenth frame computed. *)
Lemma shown_is_latest_tenth (frames : list (list Box)) (ds : list Display) :
  Forall countable frames ->
  dashboard_loop initial_display frames = Ok ds ->
  forall (n : nat) (d : Display),
    nth_error ds n = Some d ->
    frame_count d = Z.of_nat n + 1
    /\ (10 * ((Z.of_nat n + 1) / 10) = 0 -> shown d = shown initial_display)
    /\ (0 < 10 * ((Z.of_nat n + 1) / 10) ->
        exists boxes : list Box,
          nth_error frames (Z.to_nat (10 * ((Z.of_nat n + 1) / 10) - 1))
          = Some boxes
          /\ computed boxes = Ok (shown d)).
Proof.
  intros Hsmall Hloop.
  destruct (dashboard_loop_spec frames Hsmall initial_display)
    as [ds' [Hloop' [Hlen Hstep]]].
  rewrite Hloop in Hloop'. inversion Hloop'. subst ds'. clear Hloop'.
  assert (Hcountable : forall k bx, nth_error frames k = Some bx -> countable bx).
  { intros k bx Hk. rewrite Forall_forall in Hsmall.
    apply Hsmall. eapply nth_error_In. eassumption. }
  induction n as [| n IH]; intros d Hd.
  - destruct (Hstep 0%nat d Hd) as [prev [bx [Hp [Hf Hr]]]].
    simpl in Hp. inversion Hp. subst prev.
    destruct (refresh_spec initial_display bx (Hcountable _ _ Hf))
      as [d' [Hr' [Hfc [_ Hkeep]]]].
    rewrite Hr in Hr'. inversion Hr'. subst d'.
    change (frame_count initial_display) with 0 in *.
    split; [simpl; lia |]. split.
    + intros _. apply Hkeep. discriminate.
    + intros Hk. exfalso. revert Hk. simpl. lia.
  - destruct (Hstep (S n) d Hd) as [prev [bx [Hp [Hf Hr]]]].
    simpl in Hp. destruct (IH prev Hp) as [Hfcp [Hinit Hlate]].
    destruct (refresh_spec prev bx (Hcountable _ _ Hf))
      as [d' [Hr' [Hfc [Hnew Hkeep]]]].
    rewrite Hr in Hr'. inversion Hr'. subst d'.
    rewrite Hfcp in *.
    replace (Z.of_nat (S n)) with (Z.of_nat n + 1) by lia.
    split; [lia |].
    destruct (Z.eq_dec ((Z.of_nat n + 1 + 1) mod 10) 0) as [Hz | Hnz].
    + assert (Hk : 10 * ((Z.of_nat n + 1 + 1) / 10) = Z.of_nat n + 1 + 1).
      { pose proof (Z.div_mod (Z.of_nat n + 1 + 1) 10 ltac:(lia)). lia. }
      rewrite Hk. split; [lia |]. intros _.
      exists bx. split; [| exact (Hnew Hz)].
      replace (Z.to_nat (Z.of_nat n + 1 + 1 - 1)) with (S n) by lia.
      exact Hf.
    + assert (Hk : (Z.of_nat n + 1 + 1) / 10 = (Z.of_nat n + 1) / 10).
      { pose proof (Z.div_mod (Z.of_nat n + 1 + 1) 10 ltac:(lia)).
        pose proof (Z.div_mod (Z.of_nat n + 1) 10 ltac:(lia)).
        pose proof (Z.mod_pos_bound (Z.of_nat n + 1 + 1) 10 ltac:(lia)).
        pose proof (Z.mod_pos_bound (Z.of_nat n + 1) 10 ltac:(lia)).
        lia. }
      rewrite Hk, (Hkeep Hnz). split; assumption.
Qed.

End LoopFacts.

(* ================================================================= *)
(** ** Properties of the dashboard *)

Module Dashboard.
Import Py App FloatFacts FloatBoundary LoopFacts.

(** C9. [create_density_bar] on every count it can be given. [count] is
    the number of boxes found in one frame, and
    [100 * (2 ^ 1024 - 2 ^ 970)] is the first count whose hundredth
    [count / max_capacity] is beyond every double: the hypothesis leaves
    out no count on which the division returns. For every count from 0
    up to there, the function returns the count, the caption and a bar
    of exactly 10 cells, of which [floor (10 * min (count / 100) 1)] are
    filled; from 100 on the bar is full. *)
Theorem density_bar_has_ten_cells :
  forall count : Z,
    0 <= count < 100 * (2 ^ 1024 - 2 ^ 970) ->
    exists filled : Z,
      create_density_bar count
      = Ok (str_of_int count ++ u " People detected &nbsp; "
              ++ repeat FULL_BLOCK (Z.to_nat filled)
              ++ repeat LIGHT_SHADE (Z.to_nat (10 - filled)))
      /\ filled = Qfloor (10 * Qmin (inject_Z count / 100) 1)
      /\ 0 <= filled <= 10
      /\ length (repeat FULL_BLOCK (Z.to_nat filled)
                   ++ repeat LIGHT_SHADE (Z.to_nat (10 - filled))) = 10%nat
      /\ (100 <= count -> filled = 10).
Proof.
  intros count Hc.
  exists (Z.min (count / 10) 10).
  assert (Hdiv : 0 <= count / 10) by (apply Z.div_pos; lia).
  split; [apply create_density_bar_in_range; exact Hc |].
  split; [symmetry; apply tenth_capped; lia |].
  split; [lia |].
  split.
  - rewrite length_app, !repeat_length. lia.
  - intros H100.
    assert (10 <= count / 10) by (apply Z.div_le_lower_bound; lia). lia.
Qed.

Lemma density_bar_has_ten_cells_witness :
  exists filled : Z,
    create_density_bar (2 ^ 1030)
    = Ok (str_of_int (2 ^ 1030) ++ u " People detected &nbsp; "
            ++ repeat FULL_BLOCK (Z.to_nat filled)
            ++ repeat LIGHT_SHADE (Z.to_nat (10 - filled)))
    /\ filled = Qfloor (10 * Qmin (inject_Z (2 ^ 1030) / 100) 1)
    /\ 0 <= filled <= 10
    /\ length (repeat FULL_BLOCK (Z.to_nat filled)
                 ++ repeat LIGHT_SHADE (Z.to_nat (10 - filled))) = 10%nat
    /\ (100 <= 2 ^ 1030 -> filled = 10).
Proof.
  apply (density_bar_has_ten_cells (2 ^ 1030)).
  split; [apply Z.leb_le | apply Z.ltb_lt]; vm_compute; reflexivity.
Defined.

(** C10. In both dashboard loops, over frames with counts in the range
    of a double: the frame counter is the 1-based index of the frame; on
    a frame whose index is a multiple of 10 the status, the density bar
    and the CSS class on display are the ones computed for that frame;
    on every other frame they are those of the frame before (the initial
    ones before the first frame). So what is on display is what the
    latest multiple-of-10 frame computed, at most 9 frames back. *)
Theorem display_refreshes_every_tenth_frame :
  forall frames : list (list Box),
    Forall countable frames ->
    exists ds : list Display,
      show_live frames = Ok ds
      /\ show_analysis frames = Ok ds
      /\ length ds = length frames
      /\ forall (n : nat) (boxes : list Box) (d : Display),
          nth_error frames n = Some boxes ->
          nth_error ds n = Some d ->
          frame_count d = Z.of_nat n + 1
          /\ ((Z.of_nat n + 1) mod 10 = 0 -> computed boxes = Ok (shown d))
          /\ ((Z.of_nat n + 1) mod 10 <> 0 ->
              exists prev : Display,
                nth_error (initial_display :: ds) n = Some prev
                /\ shown d = shown prev)
          /\ 0 <= Z.of_nat n + 1 - 10 * ((Z.of_nat n + 1) / 10) <= 9
          /\ (10 * ((Z.of_nat n + 1) / 10) = 0 ->
              shown d = shown initial_display)
          /\ (0 < 10 * ((Z.of_nat n + 1) / 10) ->
              exists latest : list Box,
                nth_error frames (Z.to_nat (10 * ((Z.of_nat n + 1) / 10) - 1))
                = Some latest
                /\ computed latest = Ok (shown d)).
Proof.
  intros frames Hsmall.
  destruct (dashboard_loop_spec frames Hsmall initial_display)
    as [ds [Hloop [Hlen Hstep]]].
  exists ds. unfold show_live, show_analysis.
  split; [exact Hloop |]. split; [exact Hloop |]. split; [exact Hlen |].
  intros n boxes d Hf Hd.
  destruct (shown_is_latest_tenth frames ds Hsmall Hloop n d Hd)
    as [Hfc [Hinit Hlate]].
  destruct (Hstep n d Hd) as [prev [bx [Hp [Hf' Hr]]]].
  rewrite Hf in Hf'. inversion Hf'. subst bx.
  assert (Hb : countable boxes).
  { rewrite Forall_forall in Hsmall. apply Hsmall.
    eapply nth_error_In. eassumption. }
  destruct (refresh_spec prev boxes Hb) as [d' [Hr' [Hfc' [Hnew Hkeep]]]].
  rewrite Hr in Hr'. inversion Hr'. subst d'.
  assert (Hprev : frame_count prev + 1 = Z.of_nat n + 1) by lia.
  rewrite Hprev in Hnew, Hkeep.
  split; [exact Hfc |]. split; [exact Hnew |].
  split; [intros Hnz; exists prev; split; [exact Hp | exact (Hkeep Hnz)] |].
  split; [| split; assumption].
  pose proof (Z.div_mod (Z.of_nat n + 1) 10 ltac:(lia)).
  pose proof (Z.mod_pos_bound (Z.of_nat n + 1) 10 ltac:(lia)).
  lia.
Qed.

Lemma display_refreshes_every_tenth_frame_witness :
  exists ds : list Display,
    show_live (repeat [] 10) = Ok ds
    /\ show_analysis (repeat [] 10) = Ok ds
    /\ length ds = length (repeat (@nil Box) 10)
    /\ forall (n : nat) (boxes : list Box) (d : Display),
        nth_error (repeat [] 10) n = Some boxes ->
        nth_error ds n = Some d ->
        frame_count d = Z.of_nat n + 1
        /\ ((Z.of_nat n + 1) mod 10 = 0 -> computed boxes = Ok (shown d))
        /\ ((Z.of_nat n + 1) mod 10 <> 0 ->
            exists prev : Display,
              nth_error (initial_display :: ds) n = Some prev
              /\ shown d = shown prev)
        /\ 0 <= Z.of_nat n + 1 - 10 * ((Z.of_nat n + 1) / 10) <= 9
        /\ (10 * ((Z.of_nat n + 1) / 10) = 0 ->
            shown d = shown initial_display)
        /\ (0 < 10 * ((Z.of_nat n + 1) / 10) ->
            exists latest : list Box,
              nth_error (repeat [] 10)
                (Z.to_nat (10 * ((Z.of_nat n + 1) / 10) - 1))
              = Some latest
              /\ computed latest = Ok (shown d)).
Proof.
  apply (display_refreshes_every_tenth_frame (repeat [] 10)).
  simpl. repeat constructor.
Defined.

(** The lag of 9 frames is reached: after ten crowded frames and nine
    empty ones the display still reads "CRITICAL RISK", while the frame
    just processed is "Normal". *)
Example display_lags_nine_frames :
  let busy := repeat {| x1 := 0; y1 := 0; x2 := 1; y2 := 1 |} 30 in
  exists (ds : list Display) (d : Display),
    show_live (repeat busy 10 ++ repeat [] 9) = Ok ds
    /\ nth_error ds 18 = Some d
    /\ display_status d = "CRITICAL RISK"%string
    /\ process_frame []
       = ([], 0, "Normal"%string, "status-normal"%string).
Proof.
  vm_compute. eexists. eexists.
  split; [reflexivity |]. split; [reflexivity |]. split; reflexivity.
Qed.

End Dashboard.

(* ================================================================= *)
(** ** The cooldown of the alert line *)

Module Cooldown.
Import Py PiStream Binary64 Script FilterFacts AlertFacts RoundingFacts.

(** The subtraction on readings that Python prints as 0.3 and 0.1, and
    on readings of the clock. *)
Example float_sub_values :
  float_sub (3 # 10) (1 # 10) = (7205759403792793 # 2 ^ 55)%Q
  /\ (float_sub 106 100 == 6)%Q
  /\ (float_sub 96 100 == - (4))%Q
  /\ (float_sub (1793780411284 # 1000) (1793780405100 # 1000)
      == 3242197 # 524288)%Q
  /\ (as_double 100 == 100)%Q.
Proof. vm_compute. repeat split; reflexivity. Qed.

(** The cooldown of the script is the whole number 5. *)
Lemma script_cooldown_is_whole :
  ALERT_COOLDOWN script_config = inject_Z 5 /\ 0 <= 5 < 2 ^ 53.
Proof. split; [reflexivity | lia]. Qed.







End Cooldown.

(* ================================================================= *)
(** ** What the filter reads and writes *)

Module Purity.
Import Py PiStream Binary64 Script FilterFacts.

(** The block of lines 85-108 is the step of the filter on the count
    and the next two readings of the clock; it leaves the rest of the
    world alone, reads the clock at most twice and prints at most the
    alert line. *)
Lemma filter_block_is_step (fsub : Q -> Q -> Q) (cfg : Config)
  (Rest : Type) (n : Z) (w : World Rest) :
  let o := {| total_persons := n;
              t_check := clock w (reads w);
              t_store := clock w (S (reads w)) |} in
  let out := fst (step fsub cfg (globals w) o) in
  fst (filter_block fsub cfg n w)
  = (display_status out, status_color (display_status out))
  /\ globals (snd (filter_block fsub cfg n w)) = snd (step fsub cfg (globals w) o)
  /\ stdout (snd (filter_block fsub cfg n w))
     = stdout w ++ match alert out with
                   | Some k => [alert_line k]
                   | None => []
                   end
  /\ others (snd (filter_block fsub cfg n w)) = others w
  /\ clock (snd (filter_block fsub cfg n w)) = clock w
  /\ reads (snd (filter_block fsub cfg n w))
     = Nat.add (reads w)
         (if BUFFER_SIZE cfg
             <? consecutive_critical_frames (snd (step fsub cfg (globals w) o))
          then match alert out with Some _ => 2%nat | None => 1%nat end
          else 0%nat).
Proof.
  cbv zeta. rewrite step_counter.
  unfold filter_block, step, time_time, print, set_last_alert_time,
    set_consecutive_critical_frames.
  destruct w as [[ccf last] rest clk k out].
  cbn [globals others clock reads stdout consecutive_critical_frames
       last_alert_time total_persons t_check t_store].
  destruct (CRITICAL_LIMIT cfg <? n);
    cbn [globals others clock reads stdout consecutive_critical_frames
         last_alert_time];
    match goal with
    | |- context [BUFFER_SIZE cfg <? ?x] => destruct (BUFFER_SIZE cfg <? x)
    end;
    cbn [globals others clock reads stdout consecutive_critical_frames
         last_alert_time];
    repeat match goal with
           | |- context [Qlt_le_dec ?a ?b] => destruct (Qlt_le_dec a b)
           | |- context [WARNING_LIMIT cfg <? n] =>
               destruct (WARNING_LIMIT cfg <? n)
           end;
    cbn [fst snd globals others clock reads stdout
         consecutive_critical_frames last_alert_time display_status alert
         status_color];
    rewrite ?app_nil_r, ?Nat.add_0_r;
    repeat split; try reflexivity; lia.
Qed.

(** The status and the counter of a step depend on the count and the
    counter alone; the alert, in addition, on [last_alert_time] and the
    reading of the clock at the test. *)
Lemma step_status_ignores_clock (f1 f2 : Q -> Q -> Q) (cfg : Config)
  (st1 st2 : State) (o1 o2 : Observation) :
  total_persons o1 = total_persons o2 ->
  consecutive_critical_frames st1 = consecutive_critical_frames st2 ->
  display_status (fst (step f1 cfg st1 o1))
  = display_status (fst (step f2 cfg st2 o2))
  /\ consecutive_critical_frames (snd (step f1 cfg st1 o1))
     = consecutive_critical_frames (snd (step f2 cfg st2 o2)).
Proof.
  intros Hn Hc. rewrite !step_status, !step_counter, Hn, Hc. auto.
Qed.

Lemma step_alert_ignores_store (fsub : Q -> Q -> Q) (cfg : Config)
  (st1 st2 : State) (o1 o2 : Observation) :
  total_persons o1 = total_persons o2 ->
  t_check o1 = t_check o2 ->
  st1 = st2 ->
  alert (fst (step fsub cfg st1 o1)) = alert (fst (step fsub cfg st2 o2)).
Proof.
  intros Hn Ht <-. unfold step. rewrite Hn, Ht.
  destruct (CRITICAL_LIMIT cfg <? total_persons o2);
    repeat match goal with
           | |- context [if ?b then _ else _] => destruct b
           end; reflexivity.
Qed.

(** C8, as the code has it. The filter reads the clock itself, once at
    the alert test and once more at the assignment, and prints. Two
    runs of lines 85-108 on the same count, from worlds that agree on
    the two globals and on those two readings of the clock, leave the
    same status and colour, print the same lines and end with the same
    globals, whatever else the worlds hold. The status, the colour and
    the counter need the count and the counter alone to agree, under
    any clock and any subtraction; the alert needs, besides the globals,
    the reading at the test only. Nothing but the two globals is
    written: the rest of the world is left as it was, the clock is read
    at most twice, and what is printed is the alert line of the step,
    if any. *)
Theorem filter_reads_and_writes :
  forall (fsub : Q -> Q -> Q) (cfg : Config) (n : Z),
    (forall (R1 R2 : Type) (w1 : World R1) (w2 : World R2),
        globals w1 = globals w2 ->
        clock w1 (reads w1) = clock w2 (reads w2) ->
        clock w1 (S (reads w1)) = clock w2 (S (reads w2)) ->
        fst (filter_block fsub cfg n w1) = fst (filter_block fsub cfg n w2)
        /\ globals (snd (filter_block fsub cfg n w1))
           = globals (snd (filter_block fsub cfg n w2))
        /\ exists lines : list str,
            stdout (snd (filter_block fsub cfg n w1)) = stdout w1 ++ lines
            /\ stdout (snd (filter_block fsub cfg n w2)) = stdout w2 ++ lines)
    /\ (forall (fsub' : Q -> Q -> Q) (R1 R2 : Type)
               (w1 : World R1) (w2 : World R2),
           consecutive_critical_frames (globals w1)
           = consecutive_critical_frames (globals w2) ->
           fst (filter_block fsub cfg n w1) = fst (filter_block fsub' cfg n w2)
           /\ consecutive_critical_frames
                (globals (snd (filter_block fsub cfg n w1)))
              = consecutive_critical_frames
                  (globals (snd (filter_block fsub' cfg n w2))))
    /\ (forall (R1 R2 : Type) (w1 : World R1) (w2 : World R2),
           globals w1 = globals w2 ->
           clock w1 (reads w1) = clock w2 (reads w2) ->
           exists lines : list str,
             stdout (snd (filter_block fsub cfg n w1)) = stdout w1 ++ lines
             /\ stdout (snd (filter_block fsub cfg n w2)) = stdout w2 ++ lines)
    /\ (forall (R : Type) (w : World R),
           others (snd (filter_block fsub cfg n w)) = others w
           /\ clock (snd (filter_block fsub cfg n w)) = clock w
           /\ (reads w <= reads (snd (filter_block fsub cfg n w))
               <= reads w + 2)%nat
           /\ (stdout (snd (filter_block fsub cfg n w)) = stdout w
               \/ stdout (snd (filter_block fsub cfg n w))
                  = stdout w ++ [alert_line n])
           /\ (last_alert_time (globals (snd (filter_block fsub cfg n w)))
               = last_alert_time (globals w)
               \/ last_alert_time (globals (snd (filter_block fsub cfg n w)))
                  = clock w (S (reads w)))).
Proof.
  intros fsub cfg n. split; [| split; [| split]].
  - intros R1 R2 w1 w2 Hg H0 H1.
    destruct (filter_block_is_step fsub cfg R1 n w1)
      as (Hs1 & Hg1 & Ho1 & _).
    destruct (filter_block_is_step fsub cfg R2 n w2)
      as (Hs2 & Hg2 & Ho2 & _).
    cbv zeta in *.
    rewrite Hs1, Hs2, Hg1, Hg2, Ho1, Ho2, Hg, H0, H1.
    repeat split. eexists. split; reflexivity.
  - intros fsub' R1 R2 w1 w2 Hc.
    destruct (filter_block_is_step fsub cfg R1 n w1)
      as (Hs1 & Hg1 & _).
    destruct (filter_block_is_step fsub' cfg R2 n w2)
      as (Hs2 & Hg2 & _).
    cbv zeta in *. rewrite Hs1, Hs2, Hg1, Hg2.
    match goal with
    | |- context [step fsub cfg ?s1 ?o1] =>
        match goal with
        | |- context [step fsub' cfg ?s2 ?o2] =>
            destruct (step_status_ignores_clock fsub fsub' cfg s1 s2 o1 o2
                        eq_refl Hc) as [Hst Hcc]
        end
    end.
    rewrite Hst. split; [reflexivity | exact Hcc].
  - intros R1 R2 w1 w2 Hg H0.
    destruct (filter_block_is_step fsub cfg R1 n w1) as (_ & _ & Ho1 & _).
    destruct (filter_block_is_step fsub cfg R2 n w2) as (_ & _ & Ho2 & _).
    cbv zeta in *. rewrite Ho1, Ho2.
    match goal with
    | |- context [step fsub cfg ?s1 ?o1] =>
        match goal with
        | |- context [stdout w2 ++ match alert (fst (step fsub cfg ?s2 ?o2))
                                   with _ => _ end] =>
            rewrite (step_alert_ignores_store fsub cfg s1 s2 o1 o2
                       eq_refl H0 Hg)
        end
    end.
    eexists. split; reflexivity.
  - intros R w.
    destruct (filter_block_is_step fsub cfg R n w)
      as (_ & Hg & Ho & Hr & Hc & Hk).
    cbv zeta in *. rewrite Hg, Ho, Hr, Hc, Hk.
    repeat split.
    + lia.
    + destruct (BUFFER_SIZE cfg <? _); [| lia].
      destruct (alert _); lia.
    + destruct (alert _) as [k |] eqn:Ha.
      * right. destruct (step_alert _ _ _ _ _ Ha) as [-> _]. reflexivity.
      * left. apply app_nil_r.
    + destruct (alert (fst (step fsub cfg (globals w) _))) as [k |] eqn:Ha.
      * right. exact (proj2 (proj2 (proj2 (step_alert _ _ _ _ _ Ha)))).
      * left. apply step_no_alert. exact Ha.
Qed.

Lemma filter_reads_and_writes_witness :
  fst (filter_block float_sub script_config 60 (window_full 100))
  = fst (filter_block float_sub script_config 60
           {| globals := globals (window_full 100);
              others := [1; 2; 3]%Z;
              clock := fun _ => 100%Q;
              reads := 7;
              stdout := [u "Starting Stable Stream... Press Ctrl+C to stop."] |})
  /\ globals (snd (filter_block float_sub script_config 60 (window_full 100)))
     = globals
         (snd (filter_block float_sub script_config 60
                 {| globals := globals (window_full 100);
                    others := [1; 2; 3]%Z;
                    clock := fun _ => 100%Q;
                    reads := 7;
                    stdout :=
                      [u "Starting Stable Stream... Press Ctrl+C to stop."] |}))
  /\ exists lines : list str,
      stdout (snd (filter_block float_sub script_config 60 (window_full 100)))
      = stdout (window_full 100) ++ lines
      /\ stdout
           (snd (filter_block float_sub script_config 60
                   {| globals := globals (window_full 100);
                      others := [1; 2; 3]%Z;
                      clock := fun _ => 100%Q;
                      reads := 7;
                      stdout :=
                        [u "Starting Stable Stream... Press Ctrl+C to stop."] |}))
         = [u "Starting Stable Stream... Press Ctrl+C to stop."] ++ lines.
Proof.
  apply (proj1 (filter_reads_and_writes float_sub script_config 60)
           unit (list Z) (window_full 100)
           {| globals := globals (window_full 100);
              others := [1; 2; 3]%Z;
              clock := fun _ => 100%Q;
              reads := 7;
              stdout := [u "Starting Stable Stream... Press Ctrl+C to stop."] |}).
  - reflexivity.
  - reflexivity.
  - reflexivity.
Defined.

(** C8, as stated, fails: the current time is not one input of the
    step. From the same globals and on the same count, two runs that
    read the same time at the alert test both print the alert line, yet
    end in different states when the clock reads differently at the
    assignment. *)
Lemma second_reading_matters :
  globals (window_full 101) = globals (window_full 102)
  /\ clock (window_full 101) (reads (window_full 101))
     = clock (window_full 102) (reads (window_full 102))
  /\ fst (filter_block float_sub script_config 60 (window_full 101))
     = (Critical, (0, 0, 255))
  /\ fst (filter_block float_sub script_config 60 (window_full 102))
     = (Critical, (0, 0, 255))
  /\ stdout (snd (filter_block float_sub script_config 60 (window_full 101)))
     = [alert_line 60]
  /\ stdout (snd (filter_block float_sub script_config 60 (window_full 102)))
     = [alert_line 60]
  /\ globals (snd (filter_block float_sub script_config 60 (window_full 101)))
     = {| consecutive_critical_frames := 46; last_alert_time := 101 |}
  /\ globals (snd (filter_block float_sub script_config 60 (window_full 102)))
     = {| consecutive_critical_frames := 46; last_alert_time := 102 |}
  /\ globals (snd (filter_block float_sub script_config 60 (window_full 101)))
     <> globals (snd (filter_block float_sub script_config 60
                        (window_full 102))).
Proof.
  repeat split; try (vm_compute; reflexivity).
  vm_compute. intros H. discriminate H.
Qed.

End Purity.

(* ================================================================= *)
(** ** More on the false alarm filter *)

Module FilterExtras.
Import PiStream MainLoop FilterFacts AlertFacts.

Lemma statuses_length (fsub : Q -> Q -> Q) (cfg : Config)
  (obs : list Observation) :
  length (statuses fsub cfg obs) = length obs.
Proof. unfold statuses. rewrite length_map. apply run_length. Qed.

(** The status of a frame, from the state before it. *)
Lemma status_at_index (fsub : Q -> Q -> Q) (cfg : Config)
  (obs : list Observation) (i : nat) (o : Observation) :
  nth_error obs i = Some o ->
  nth_error (statuses fsub cfg obs) i
  = Some (display_status
            (fst (step fsub cfg (state_after fsub cfg obs i) o))).
Proof.
  intros Ho.
  destruct (nth_error (statuses fsub cfg obs) i) as [s |] eqn:Hs.
  - destruct (status_at _ _ _ _ _ Hs) as [o' [Ho' Heq]].
    rewrite Ho in Ho'. inversion Ho'. subst o'. now rewrite Heq.
  - apply nth_error_None in Hs. rewrite statuses_length in Hs.
    assert (i < length obs)%nat by (apply nth_error_Some; congruence). lia.
Qed.

(** X1. After any run from the initial state the counter is the length
    of the streak of counts above the critical limit that ends the run. *)
Theorem counter_is_current_streak :
  forall (fsub : Q -> Q -> Q) (cfg : Config) (obs : list Observation),
    consecutive_critical_frames (snd (run fsub cfg initial_state obs))
    = streak (CRITICAL_LIMIT cfg) (map total_persons obs)
    /\ 0 <= consecutive_critical_frames (snd (run fsub cfg initial_state obs))
       <= Z.of_nat (length obs).
Proof.
  intros fsub cfg obs.
  assert (Heq : consecutive_critical_frames (snd (run fsub cfg initial_state obs))
                = streak (CRITICAL_LIMIT cfg) (map total_persons obs)).
  { induction obs as [| o l IH] using rev_ind.
    - reflexivity.
    - rewrite run_app. cbn [snd run].
      destruct (step fsub cfg (snd (run fsub cfg initial_state l)) o)
        as [out st'] eqn:Hstep.
      cbn [snd].
      replace st' with (snd (step fsub cfg (snd (run fsub cfg initial_state l)) o))
        by now rewrite Hstep.
      rewrite step_counter, IH.
      unfold streak. rewrite map_app, rev_app_distr. cbn [map rev app leading].
      destruct (CRITICAL_LIMIT cfg <? total_persons o); lia. }
  split; [exact Heq |].
  pose proof (counter_is_streak fsub cfg obs (length obs) (le_n _)) as H.
  cbv zeta in H. unfold state_after in H. rewrite firstn_all in H.
  exact (proj1 H).
Qed.

(** The counter is at least the number of latest counts above the
    limit. *)
Lemma counter_at_least (fsub : Q -> Q -> Q) (cfg : Config)
  (obs : list Observation) (n : nat) :
  (n <= length obs)%nat ->
  forall m : nat,
    (m <= n)%nat ->
    (forall j : nat,
        (n - m <= j < n)%nat ->
        exists o, nth_error obs j = Some o
                  /\ CRITICAL_LIMIT cfg < total_persons o) ->
    Z.of_nat m <= consecutive_critical_frames (state_after fsub cfg obs n).
Proof.
  induction n as [| n IH]; intros Hn m Hm Hall.
  - assert (m = 0)%nat by lia. subst m. unfold state_after. simpl. lia.
  - destruct (nth_error obs n) as [o |] eqn:Ho.
    2:{ apply nth_error_None in Ho. lia. }
    rewrite (state_after_S _ _ _ _ _ Ho), step_counter.
    destruct m as [| m].
    + pose proof (counter_is_streak fsub cfg obs n ltac:(lia)) as Hk.
      cbv zeta in Hk. destruct Hk as [Hk _].
      destruct (CRITICAL_LIMIT cfg <? total_persons o); lia.
    + destruct (Hall n ltac:(lia)) as [o' [Ho' Hab]].
      rewrite Ho in Ho'. inversion Ho'. subst o'.
      destruct (Z.ltb_spec (CRITICAL_LIMIT cfg) (total_persons o)); [| lia].
      assert (Z.of_nat m
              <= consecutive_critical_frames (state_after fsub cfg obs n)).
      { apply IH; [lia | lia |]. intros j Hj. apply Hall. lia. }
      lia.
Qed.

(** A full window escalates. *)
Lemma critical_when_window_full (fsub : Q -> Q -> Q) (cfg : Config)
  (obs : list Observation) (i : nat) :
  0 <= BUFFER_SIZE cfg ->
  BUFFER_SIZE cfg <= Z.of_nat i ->
  (forall j : nat,
      Z.of_nat i - BUFFER_SIZE cfg <= Z.of_nat j <= Z.of_nat i ->
      exists o, nth_error obs j = Some o
                /\ CRITICAL_LIMIT cfg < total_persons o) ->
  nth_error (statuses fsub cfg obs) i = Some Critical.
Proof.
  intros Hb Hi Hall.
  destruct (Hall i ltac:(lia)) as [o [Ho Hab]].
  rewrite (status_at_index _ _ _ _ _ Ho), step_status.
  rewrite <- (state_after_S _ _ _ _ _ Ho).
  assert (Hlen : (S i <= length obs)%nat).
  { apply Nat.le_succ_l. apply nth_error_Some. congruence. }
  pose proof (counter_at_least fsub cfg obs (S i) Hlen
                (Z.to_nat (BUFFER_SIZE cfg + 1)) ltac:(lia)) as Hge.
  assert (Hk : BUFFER_SIZE cfg + 1
               <= consecutive_critical_frames (state_after fsub cfg obs (S i))).
  { rewrite <- (Z2Nat.id (BUFFER_SIZE cfg + 1)) at 1 by lia.
    apply Hge. intros j Hj. apply Hall. lia. }
  destruct (Z.ltb_spec (BUFFER_SIZE cfg)
              (consecutive_critical_frames (state_after fsub cfg obs (S i))));
    [reflexivity | lia].
Qed.

(** X2. With a buffer that is not negative, the status of frame [i] of
    a run from the initial state is Critical exactly when the
    [BUFFER_SIZE + 1] latest counts, the current one included, all exceed
    the critical limit: a full window always escalates. *)
Theorem critical_iff_full_window :
  forall (fsub : Q -> Q -> Q) (cfg : Config)
         (obs : list Observation) (i : nat),
    0 <= BUFFER_SIZE cfg ->
    (nth_error (statuses fsub cfg obs) i = Some Critical
     <-> (BUFFER_SIZE cfg <= Z.of_nat i
          /\ forall j : nat,
              Z.of_nat i - BUFFER_SIZE cfg <= Z.of_nat j <= Z.of_nat i ->
              exists o, nth_error obs j = Some o
                        /\ CRITICAL_LIMIT cfg < total_persons o)).
Proof.
  intros fsub cfg obs i Hb. split.
  - apply critical_window.
  - intros [Hi Hall]. now apply critical_when_window_full.
Qed.

Lemma critical_iff_full_window_witness :
  nth_error (statuses Qminus scenario_config
               (at_times (fun _ => (100, 100)%Q) 0 [30; 30; 30; 30])) 3
  = Some Critical
  <-> (BUFFER_SIZE scenario_config <= Z.of_nat 3
       /\ forall j : nat,
           Z.of_nat 3 - BUFFER_SIZE scenario_config <= Z.of_nat j <= Z.of_nat 3 ->
           exists o,
             nth_error (at_times (fun _ => (100, 100)%Q) 0 [30; 30; 30; 30]) j
             = Some o
             /\ CRITICAL_LIMIT scenario_config < total_persons o).
Proof.
  apply (critical_iff_full_window Qminus scenario_config
           (at_times (fun _ => (100, 100)%Q) 0 [30; 30; 30; 30]) 3).
  simpl. lia.
Defined.

(** X3. Critical lasts exactly as long as the counts stay above the
    critical limit: after a Critical frame a count above the limit is
    Critical again, while a count at or below it gives, whatever came
    before, Warning or Normal by the count alone (the buffer not being
    negative). *)
Theorem critical_lasts_while_above :
  forall (fsub : Q -> Q -> Q) (cfg : Config)
         (obs : list Observation) (i : nat) (o : Observation),
    0 <= BUFFER_SIZE cfg ->
    (nth_error (statuses fsub cfg obs) i = Some Critical ->
     nth_error obs (S i) = Some o ->
     CRITICAL_LIMIT cfg < total_persons o ->
     nth_error (statuses fsub cfg obs) (S i) = Some Critical)
    /\ (nth_error obs i = Some o ->
        total_persons o <= CRITICAL_LIMIT cfg ->
        nth_error (statuses fsub cfg obs) i
        = Some (if WARNING_LIMIT cfg <? total_persons o
                then Warning else Normal)).
Proof.
  intros fsub cfg obs i o Hb. split.
  - intros Hcrit Ho Hab.
    destruct (status_at _ _ _ _ _ Hcrit) as [oi [Hoi Hs]].
    rewrite step_status, <- (state_after_S _ _ _ _ _ Hoi) in Hs.
    rewrite (status_at_index _ _ _ _ _ Ho), step_status, step_counter.
    destruct (Z.ltb_spec (CRITICAL_LIMIT cfg) (total_persons o)); [| lia].
    destruct (Z.ltb_spec (BUFFER_SIZE cfg)
                (consecutive_critical_frames (state_after fsub cfg obs (S i))))
      as [Hgt | Hle].
    + destruct (Z.ltb_spec (BUFFER_SIZE cfg)
                  (consecutive_critical_frames (state_after fsub cfg obs (S i)) + 1));
        [reflexivity | lia].
    + destruct (WARNING_LIMIT cfg <? total_persons oi); discriminate.
  - intros Ho Hle.
    rewrite (status_at_index _ _ _ _ _ Ho), step_status, step_counter.
    destruct (Z.ltb_spec (CRITICAL_LIMIT cfg) (total_persons o)); [lia |].
    destruct (Z.ltb_spec (BUFFER_SIZE cfg) 0); [lia | reflexivity].
Qed.

Lemma critical_lasts_while_above_witness :
  (nth_error (statuses Qminus scenario_config
                (at_times (fun _ => (100, 100)%Q) 0 [30; 30; 30; 30; 30])) 3
   = Some Critical ->
   nth_error (at_times (fun _ => (100, 100)%Q) 0 [30; 30; 30; 30; 30]) 4
   = Some {| total_persons := 30; t_check := 100; t_store := 100 |} ->
   CRITICAL_LIMIT scenario_config < 30 ->
   nth_error (statuses Qminus scenario_config
                (at_times (fun _ => (100, 100)%Q) 0 [30; 30; 30; 30; 30])) 4
   = Some Critical)
  /\ (nth_error (at_times (fun _ => (100, 100)%Q) 0 [30; 30; 30; 30; 30]) 3
      = Some {| total_persons := 30; t_check := 100; t_store := 100 |} ->
      30 <= CRITICAL_LIMIT scenario_config ->
      nth_error (statuses Qminus scenario_config
                   (at_times (fun _ => (100, 100)%Q) 0 [30; 30; 30; 30; 30])) 3
      = Some (if WARNING_LIMIT scenario_config <? 30 then Warning else Normal)).
Proof.
  apply (critical_lasts_while_above Qminus scenario_config
           (at_times (fun _ => (100, 100)%Q) 0 [30; 30; 30; 30; 30]) 3
           {| total_persons := 30; t_check := 100; t_store := 100 |}).
  simpl. lia.
Defined.

(** X4. The count printed by an alert line is the count of its frame,
    and it exceeds the critical limit (the buffer not being negative). *)
Theorem alert_reports_count_above_limit :
  forall (fsub : Q -> Q -> Q) (cfg : Config)
         (obs : list Observation) (i : nat) (c : Z),
    0 <= BUFFER_SIZE cfg ->
    nth_error (alerts fsub cfg obs) i = Some (Some c) ->
    exists o, nth_error obs i = Some o
              /\ c = total_persons o
              /\ CRITICAL_LIMIT cfg < c.
Proof.
  intros fsub cfg obs i c Hb Hal.
  destruct (alert_at _ _ _ _ _ Hal) as [o [Ho Ha]]. symmetry in Ha.
  destruct (step_alert _ _ _ _ _ Ha) as [Hc [Hs _]].
  exists o. split; [exact Ho |]. split; [exact Hc |].
  assert (Hcrit : nth_error (statuses fsub cfg obs) i = Some Critical).
  { rewrite (status_at_index _ _ _ _ _ Ho). now rewrite Hs. }
  destruct (critical_window _ _ _ _ Hcrit) as [_ Hall].
  destruct (Hall i ltac:(lia)) as [o' [Ho' Hab]].
  rewrite Ho in Ho'. inversion Ho'. subst o'. lia.
Qed.

Lemma alert_reports_count_above_limit_witness :
  exists o,
    nth_error (at_times (fun _ => (100, 100)%Q) 0 [30; 30; 30; 30]) 3 = Some o
    /\ 30 = total_persons o
    /\ CRITICAL_LIMIT scenario_config < 30.
Proof.
  apply (alert_reports_count_above_limit Qminus scenario_config
           (at_times (fun _ => (100, 100)%Q) 0 [30; 30; 30; 30]) 3 30).
  - simpl. lia.
  - reflexivity.
Defined.

Lemma last_in (A : Type) (l : list A) (d : A) : l <> [] -> In (last l d) l.
Proof.
  induction l as [| a l IH]; intros Hne; [congruence |].
  destruct l as [| b l]; [left; reflexivity |].
  right. apply IH. discriminate.
Qed.

Lemma count_alerts_cons (out : Outcome) (outs : list Outcome) :
  count_alerts (out :: outs)
  = (match alert out with Some _ => 1 | None => 0 end) + count_alerts outs.
Proof.
  unfold count_alerts. cbn [filter].
  destruct (alert out); cbn [length]; lia.
Qed.

Lemma count_alerts_nonneg (outs : list Outcome) : 0 <= count_alerts outs.
Proof. unfold count_alerts. lia. Qed.

Lemma last_reading_cons (o : Observation) (rest : list Observation) :
  last_reading (o :: rest)
  = match rest with [] => t_store o | _ :: _ => last_reading rest end.
Proof.
  unfold last_reading, clock_readings. destruct rest as [| o' rest].
  - reflexivity.
  - cbn [flat_map app]. reflexivity.
Qed.

(** With a clock that never goes back, the latest reading of later
    frames is not before the readings of a frame. *)
Lemma monotone_clock_cons (o : Observation) (rest : list Observation) :
  monotone_clock (o :: rest) ->
  monotone_clock rest
  /\ (t_check o <= t_store o)%Q
  /\ (rest <> [] -> (t_store o <= last_reading rest)%Q).
Proof.
  unfold monotone_clock. cbn [clock_readings flat_map app]. intros Hs.
  apply StronglySorted_inv in Hs. destruct Hs as [Hs1 Ha1].
  apply StronglySorted_inv in Hs1. destruct Hs1 as [Hs2 Ha2].
  rewrite Forall_forall in Ha1, Ha2.
  split; [exact Hs2 |]. split; [apply Ha1; left; reflexivity |].
  intros Hne. apply Ha2. unfold last_reading. apply last_in.
  destruct rest as [| o' rest]; [congruence | discriminate].
Qed.

(** X5. The rate of alerts: over any stretch of frames read with a
    clock that never goes back, [k >= 1] alert lines need the clock to
    end more than [k] cooldowns after the [last_alert_time] the stretch
    started with. *)
Theorem alert_rate_bound :
  forall (fsub : Q -> Q -> Q) (cfg : Config) (st : State)
         (obs : list Observation),
    sound_for fsub cfg ->
    monotone_clock obs ->
    0 < count_alerts (fst (run fsub cfg st obs)) ->
    (inject_Z (count_alerts (fst (run fsub cfg st obs))) * ALERT_COOLDOWN cfg
     < last_reading obs - last_alert_time st)%Q.
Proof.
  intros fsub cfg st obs Hsound. revert st.
  induction obs as [| o rest IH]; intros st Hmono Hpos.
  - simpl in Hpos. unfold count_alerts in Hpos. simpl in Hpos. lia.
  - destruct (monotone_clock_cons o rest Hmono) as [Hrest [Hcs Hlast]].
    revert Hpos. cbn [run].
    destruct (step fsub cfg st o) as [out st'] eqn:Hstep.
    pose proof (IH st' Hrest) as IHst.
    destruct (run fsub cfg st' rest) as [outs st''] eqn:Hrun.
    cbn [fst] in *. rewrite count_alerts_cons, last_reading_cons.
    pose proof (count_alerts_nonneg outs) as Hnn.
    assert (Hout : out = fst (step fsub cfg st o)) by now rewrite Hstep.
    assert (Hst' : st' = snd (step fsub cfg st o)) by now rewrite Hstep.
    destruct (alert out) as [c |] eqn:Hal.
    + rewrite Hout in Hal.
      destruct (step_alert _ _ _ _ _ Hal) as [_ [_ [Hlt Hstore]]].
      apply Hsound in Hlt. rewrite <- Hst' in Hstore.
      intros _.
      assert (Hsplit : (inject_Z (1 + count_alerts outs) * ALERT_COOLDOWN cfg
                        == ALERT_COOLDOWN cfg
                           + inject_Z (count_alerts outs) * ALERT_COOLDOWN cfg)%Q).
      { rewrite inject_Z_plus. ring. }
      rewrite Hsplit.
      destruct rest as [| o' rest'].
      * simpl in Hrun. inversion Hrun. subst outs.
        change (count_alerts []) with 0.
        setoid_replace (inject_Z 0 * ALERT_COOLDOWN cfg)%Q with 0%Q by ring.
        lra.
      * specialize (Hlast ltac:(discriminate)).
        destruct (Z_lt_le_dec 0 (count_alerts outs)) as [Hk | Hk].
        -- specialize (IHst Hk). rewrite Hstore in IHst. lra.
        -- assert (Hz : count_alerts outs = 0) by lia. rewrite Hz.
           setoid_replace (inject_Z 0 * ALERT_COOLDOWN cfg)%Q with 0%Q by ring.
           lra.
    + rewrite Hout in Hal.
      pose proof (step_no_alert _ _ _ _ Hal) as Hkeep. rewrite <- Hst' in Hkeep.
      rewrite Z.add_0_l. intros Hk.
      specialize (IHst Hk). rewrite Hkeep in IHst.
      destruct rest as [| o' rest'].
      * simpl in Hrun. inversion Hrun. subst outs.
        unfold count_alerts in Hk. simpl in Hk. lia.
      * exact IHst.
Qed.

Lemma alert_rate_bound_witness :
  (inject_Z
     (count_alerts
        (fst (run Qminus scenario_config
                {| consecutive_critical_frames := 4%Z; last_alert_time := 9 |}
                (at_times
                   (fun k => (inject_Z (12 + 3 * Z.of_nat k),
                              inject_Z (12 + 3 * Z.of_nat k)))
                   0%nat [30%Z; 30%Z; 30%Z; 30%Z]))))
   * ALERT_COOLDOWN scenario_config
   < last_reading
       (at_times
          (fun k => (inject_Z (12 + 3 * Z.of_nat k),
                     inject_Z (12 + 3 * Z.of_nat k)))
          0%nat [30%Z; 30%Z; 30%Z; 30%Z])
     - last_alert_time
         {| consecutive_critical_frames := 4%Z; last_alert_time := 9 |})%Q.
Proof.
  apply (alert_rate_bound Qminus scenario_config
           {| consecutive_critical_frames := 4; last_alert_time := 9 |}
           (at_times
              (fun k => (inject_Z (12 + 3 * Z.of_nat k),
                         inject_Z (12 + 3 * Z.of_nat k)))
              0 [30; 30; 30; 30])).
  - intros a b H. exact H.
  - unfold monotone_clock. simpl. repeat constructor; unfold Qle; simpl; lia.
  - reflexivity.
Defined.

(** One iteration is the filter's step on the number of boxes. *)
Lemma iteration_is_step (fsub : Q -> Q -> Q) (cfg : Config) (st : State)
  (f : Frame) :
  outcome (fst (iteration fsub cfg st (boxes f) (clock_check f) (clock_store f)))
  = fst (step fsub cfg st (observe f))
  /\ snd (iteration fsub cfg st (boxes f) (clock_check f) (clock_store f))
     = snd (step fsub cfg st (observe f))
  /\ count_shown
       (fst (iteration fsub cfg st (boxes f) (clock_check f) (clock_store f)))
     = Z.of_nat (length (boxes f))
  /\ status_line
       (fst (iteration fsub cfg st (boxes f) (clock_check f) (clock_store f)))
     = String.append "Status: "
         (status_text (display_status (fst (step fsub cfg st (observe f))))).
Proof.
  unfold iteration, observe.
  pose proof (draw_boxes_count cfg (boxes f) 0) as Hn.
  destruct (draw_boxes cfg 0 (boxes f)) as [n drawn].
  simpl in Hn. subst n.
  destruct (step fsub cfg st _) as [out st']. simpl. auto.
Qed.

(** The main loop, iteration by iteration. *)
Lemma main_loop_outcomes :
  forall (fsub : Q -> Q -> Q) (cfg : Config) (st : State)
         (frames : list Frame),
    map outcome (fst (main_loop fsub cfg st frames))
    = fst (run fsub cfg st (map observe frames))
    /\ snd (main_loop fsub cfg st frames)
       = snd (run fsub cfg st (map observe frames))
    /\ map count_shown (fst (main_loop fsub cfg st frames))
       = map (fun f => Z.of_nat (length (boxes f))) frames
    /\ map status_line (fst (main_loop fsub cfg st frames))
       = map (fun out => String.append "Status: "
                           (status_text (display_status out)))
           (fst (run fsub cfg st (map observe frames))).
Proof.
  intros fsub cfg st frames. revert st.
  induction frames as [| f rest IH]; intros st.
  - simpl. auto.
  - cbn [main_loop map run].
    destruct (iteration_is_step fsub cfg st f) as [Ho [Hs [Hc Hl]]].
    destruct (iteration fsub cfg st (boxes f) (clock_check f) (clock_store f))
      as [r st1].
    destruct (step fsub cfg st (observe f)) as [out st2].
    cbn [fst snd] in Ho, Hs, Hc, Hl. subst st2.
    destruct (IH st1) as [IH1 [IH2 [IH3 IH4]]].
    destruct (main_loop fsub cfg st1 rest) as [rs st3].
    destruct (run fsub cfg st1 (map observe rest)) as [outs st4].
    cbn [fst snd map] in *.
    rewrite IH1, IH3, IH4, Ho, Hc, Hl. subst st4. auto.
Qed.

(** X6. The main loop is the filter run over the numbers of boxes of
    the frames: same outcomes and same final globals; the count drawn on
    each frame is its number of boxes and the status text is the one of
    the filter's status. *)
Theorem main_loop_is_run :
  forall (fsub : Q -> Q -> Q) (cfg : Config) (st : State)
         (frames : list Frame),
    map outcome (fst (main_loop fsub cfg st frames))
    = fst (run fsub cfg st (map observe frames))
    /\ snd (main_loop fsub cfg st frames)
       = snd (run fsub cfg st (map observe frames))
    /\ map count_shown (fst (main_loop fsub cfg st frames))
       = map (fun f => Z.of_nat (length (boxes f))) frames
    /\ map status_line (fst (main_loop fsub cfg st frames))
       = map (fun out => String.append "Status: "
                           (status_text (display_status out)))
           (fst (run fsub cfg st (map observe frames))).
Proof. exact main_loop_outcomes. Qed.

(** X7. What the stream shows: with a buffer that is not negative, the
    status text drawn on frame [i] is "Status: CRITICAL RISK" exactly
    when each of the [BUFFER_SIZE + 1] latest frames holds more boxes
    than the critical limit. *)
Theorem stream_shows_critical_iff :
  forall (fsub : Q -> Q -> Q) (cfg : Config) (frames : list Frame) (i : nat),
    0 <= BUFFER_SIZE cfg ->
    (nth_error (map status_line
                  (fst (main_loop fsub cfg initial_state frames))) i
     = Some "Status: CRITICAL RISK"%string
     <-> (BUFFER_SIZE cfg <= Z.of_nat i
          /\ forall j : nat,
              Z.of_nat i - BUFFER_SIZE cfg <= Z.of_nat j <= Z.of_nat i ->
              exists f, nth_error frames j = Some f
                        /\ CRITICAL_LIMIT cfg < Z.of_nat (length (boxes f)))).
Proof.
  intros fsub cfg frames i Hb.
  destruct (main_loop_outcomes fsub cfg initial_state frames) as [_ [_ [_ Hl]]].
  rewrite Hl.
  assert (Hst : nth_error
                  (map (fun out => String.append "Status: "
                                     (status_text (display_status out)))
                     (fst (run fsub cfg initial_state (map observe frames)))) i
                = Some "Status: CRITICAL RISK"%string
                <-> nth_error (statuses fsub cfg (map observe frames)) i
                    = Some Critical).
  { unfold statuses. rewrite !nth_error_map.
    destruct (nth_error (fst (run fsub cfg initial_state (map observe frames))) i)
      as [out |]; cbn [option_map]; [| split; discriminate].
    destruct (display_status out); cbn; split; intros H;
      try discriminate; reflexivity. }
  rewrite Hst. split.
  - intros Hcrit.
    destruct (critical_window fsub cfg (map observe frames) i Hcrit)
      as [Hi Hall].
    split; [exact Hi |]. intros j Hj.
    destruct (Hall j Hj) as [o [Ho Hab]].
    rewrite nth_error_map in Ho.
    destruct (nth_error frames j) as [f |]; [| discriminate].
    inversion Ho. subst o. exists f. auto.
  - intros [Hi Hall].
    apply critical_when_window_full; [exact Hb | exact Hi |].
    intros j Hj. destruct (Hall j Hj) as [f [Hf Hab]].
    exists (observe f). rewrite nth_error_map, Hf. auto.
Qed.


Lemma stream_shows_critical_iff_witness :
  nth_error (map status_line
               (fst (main_loop Qminus dashboard_config initial_state
                       [{| boxes := repeat {| App.x1 := 0; App.y1 := 0;
                                              App.x2 := 1; App.y2 := 1 |} 26;
                           clock_check := 100; clock_store := 100 |}]))) 0
  = Some "Status: CRITICAL RISK"%string
  <-> (BUFFER_SIZE dashboard_config <= Z.of_nat 0
       /\ forall j : nat,
           Z.of_nat 0 - BUFFER_SIZE dashboard_config <= Z.of_nat j <= Z.of_nat 0 ->
           exists f,
             nth_error
               [{| boxes := repeat {| App.x1 := 0; App.y1 := 0;
                                      App.x2 := 1; App.y2 := 1 |} 26;
                   clock_check := 100; clock_store := 100 |}] j = Some f
             /\ CRITICAL_LIMIT dashboard_config < Z.of_nat (length (boxes f))).
Proof.
  apply (stream_shows_critical_iff Qminus dashboard_config
           [{| boxes := repeat {| App.x1 := 0; App.y1 := 0;
                                  App.x2 := 1; App.y2 := 1 |} 26;
               clock_check := 100; clock_store := 100 |}] 0).
  simpl. lia.
Defined.


(** Statuses and counter go by the counts and the counter alone. *)
Lemma run_ignores_clock (fsub fsub' : Q -> Q -> Q) (cfg : Config) :
  forall (obs obs' : list Observation) (st st' : State),
    consecutive_critical_frames st = consecutive_critical_frames st' ->
    map total_persons obs = map total_persons obs' ->
    map display_status (fst (run fsub cfg st obs))
    = map display_status (fst (run fsub' cfg st' obs'))
    /\ consecutive_critical_frames (snd (run fsub cfg st obs))
       = consecutive_critical_frames (snd (run fsub' cfg st' obs')).
Proof.
  induction obs as [| o obs IH]; intros [| o' obs'] st st' Hc Hm;
    try discriminate.
  - simpl. auto.
  - cbn [map] in Hm. injection Hm as Ho Hrest.
    pose proof (step_status fsub cfg st o) as Hs.
    pose proof (step_status fsub' cfg st' o') as Hs'.
    pose proof (step_counter fsub cfg st o) as Hk.
    pose proof (step_counter fsub' cfg st' o') as Hk'.
    cbn [run].
    destruct (step fsub cfg st o) as [out st1].
    destruct (step fsub' cfg st' o') as [out' st1'].
    cbn [fst snd] in Hs, Hs', Hk, Hk'.
    assert (Hk1 : consecutive_critical_frames st1
                  = consecutive_critical_frames st1').
    { rewrite Hk, Hk', Ho, Hc. reflexivity. }
    destruct (IH obs' st1 st1' Hk1 Hrest) as [IHs IHc].
    destruct (run fsub cfg st1 obs) as [outs st2].
    destruct (run fsub' cfg st1' obs') as [outs' st2'].
    cbn [fst snd map] in *.
    split; [| exact IHc].
    rewrite IHs, Hs, Hs', Hk1, Ho. reflexivity.
Qed.

(** X18. The statuses depend on the counts alone: two runs over the
    same counts give the same statuses and the same counter, whatever
    the clock reads, however the subtraction rounds and whichever alerts
    were printed. *)
Theorem statuses_ignore_clock :
  forall (fsub fsub' : Q -> Q -> Q) (cfg : Config)
         (obs obs' : list Observation),
    map total_persons obs = map total_persons obs' ->
    statuses fsub cfg obs = statuses fsub' cfg obs'
    /\ consecutive_critical_frames (snd (run fsub cfg initial_state obs))
       = consecutive_critical_frames (snd (run fsub' cfg initial_state obs')).
Proof.
  intros fsub fsub' cfg obs obs' Hm. unfold statuses.
  apply run_ignores_clock; [reflexivity | exact Hm].
Qed.

Lemma statuses_ignore_clock_witness :
  statuses Qminus scenario_config
    (at_times (fun _ => (100, 100)%Q) 0 [30; 30; 30; 30])
  = statuses (fun _ _ => 0%Q) scenario_config
      (at_times (fun k => (inject_Z (Z.of_nat k), 7%Q)) 0 [30; 30; 30; 30])
  /\ consecutive_critical_frames
       (snd (run Qminus scenario_config initial_state
               (at_times (fun _ => (100, 100)%Q) 0 [30; 30; 30; 30])))
     = consecutive_critical_frames
         (snd (run (fun _ _ => 0%Q) scenario_config initial_state
                 (at_times (fun k => (inject_Z (Z.of_nat k), 7%Q)) 0
                    [30; 30; 30; 30]))).
Proof.
  apply (statuses_ignore_clock Qminus (fun _ _ => 0%Q) scenario_config
           (at_times (fun _ => (100, 100)%Q) 0 [30; 30; 30; 30])
           (at_times (fun k => (inject_Z (Z.of_nat k), 7%Q)) 0
              [30; 30; 30; 30])).
  reflexivity.
Defined.

(** X19. [last_alert_time] is written by alert lines only: after [n]
    frames of a run from the initial state it is what the clock read at
    the assignment of the latest frame that printed one, and still the
    initial 0 when none did. *)
Theorem last_alert_time_is_latest_alert :
  forall (fsub : Q -> Q -> Q) (cfg : Config)
         (obs : list Observation) (n : nat),
    (n <= length obs)%nat ->
    ((forall j : nat, (j < n)%nat -> nth_error (alerts fsub cfg obs) j = Some None) ->
     last_alert_time (state_after fsub cfg obs n) = 0%Q)
    /\ forall (i : nat) (oi : Observation) (c : Z),
        (i < n)%nat ->
        nth_error obs i = Some oi ->
        nth_error (alerts fsub cfg obs) i = Some (Some c) ->
        (forall j : nat,
            (i < j < n)%nat -> nth_error (alerts fsub cfg obs) j = Some None) ->
        last_alert_time (state_after fsub cfg obs n) = t_store oi.
Proof.
  intros fsub cfg obs.
  assert (Halert : forall k o a,
             nth_error obs k = Some o ->
             nth_error (alerts fsub cfg obs) k = Some a ->
             alert (fst (step fsub cfg (state_after fsub cfg obs k) o)) = a).
  { intros k o a Ho Ha. destruct (alert_at _ _ _ _ _ Ha) as [o' [Ho' Heq]].
    rewrite Ho in Ho'. inversion Ho'. subst o'. now rewrite Heq. }
  induction n as [| n IH]; intros Hn.
  - split; [intros _; reflexivity | intros i oi c Hi; lia].
  - destruct (nth_error obs n) as [o |] eqn:Ho.
    2:{ apply nth_error_None in Ho. lia. }
    destruct (IH ltac:(lia)) as [IHnone IHsome].
    rewrite (state_after_S _ _ _ _ _ Ho). split.
    + intros Hnone.
      rewrite step_no_alert by (apply (Halert n o None Ho); apply Hnone; lia).
      apply IHnone. intros j Hj. apply Hnone. lia.
    + intros i oi c Hi Hoi Hai Hafter.
      destruct (Nat.eq_dec i n) as [-> | Hne].
      * rewrite Ho in Hoi. inversion Hoi. subst oi.
        pose proof (Halert n o (Some c) Ho Hai) as Hstep.
        exact (proj2 (proj2 (proj2 (step_alert _ _ _ _ _ Hstep)))).
      * rewrite step_no_alert
          by (apply (Halert n o None Ho); apply Hafter; lia).
        apply (IHsome i oi c); [lia | assumption | assumption |].
        intros j Hj. apply Hafter. lia.
Qed.

Lemma last_alert_time_is_latest_alert_witness :
  ((forall j : nat,
       (j < 3)%nat ->
       nth_error (alerts Qminus scenario_config
                    (at_times (fun _ => (100, 100)%Q) 0 [30; 30; 30; 30])) j
       = Some None) ->
   last_alert_time
     (state_after Qminus scenario_config
        (at_times (fun _ => (100, 100)%Q) 0 [30; 30; 30; 30]) 3) = 0%Q)
  /\ forall (i : nat) (oi : Observation) (c : Z),
      (i < 3)%nat ->
      nth_error (at_times (fun _ => (100, 100)%Q) 0 [30; 30; 30; 30]) i
      = Some oi ->
      nth_error (alerts Qminus scenario_config
                   (at_times (fun _ => (100, 100)%Q) 0 [30; 30; 30; 30])) i
      = Some (Some c) ->
      (forall j : nat,
          (i < j < 3)%nat ->
          nth_error (alerts Qminus scenario_config
                       (at_times (fun _ => (100, 100)%Q) 0 [30; 30; 30; 30])) j
          = Some None) ->
      last_alert_time
        (state_after Qminus scenario_config
           (at_times (fun _ => (100, 100)%Q) 0 [30; 30; 30; 30]) 3)
      = t_store oi.
Proof.
  apply (last_alert_time_is_latest_alert Qminus scenario_config
           (at_times (fun _ => (100, 100)%Q) 0 [30; 30; 30; 30]) 3).
  simpl. lia.
Defined.

End FilterExtras.

(* ================================================================= *)
(** ** Boxes, colours and the status of a frame *)

Module ColourFacts.
Import PiStream AlertFacts ClassifyFacts.

(** The overlay holds the boxes in the order of detection. *)
Lemma draw_boxes_boxes (cfg : Config) (boxes : list App.Box) (k : Z) :
  map fst (snd (draw_boxes cfg k boxes)) = boxes.
Proof.
  revert k. induction boxes as [| b boxes IH]; intros k; simpl.
  - reflexivity.
  - specialize (IH (k + 1)).
    destruct (draw_boxes cfg (k + 1) boxes) as [n drawn]. simpl in *.
    now rewrite IH.
Qed.

Lemma draw_boxes_nth (cfg : Config) (boxes : list App.Box) :
  forall (k : Z) (i : nat) (b : App.Box) (col : App.colour),
    nth_error (snd (draw_boxes cfg k boxes)) i = Some (b, col) ->
    nth_error boxes i = Some b
    /\ col = (if CRITICAL_LIMIT cfg <? k + Z.of_nat i + 1 then (0, 0, 255)
              else if WARNING_LIMIT cfg <? k + Z.of_nat i + 1 then (0, 165, 255)
                   else (0, 255, 0)).
Proof.
  induction boxes as [| b0 boxes IH]; intros k i b col; simpl.
  - destruct i; discriminate.
  - specialize (IH (k + 1)).
    destruct (draw_boxes cfg (k + 1) boxes) as [n drawn]. simpl in *.
    destruct i as [| i]; simpl.
    + intros H. inversion H. subst. split; [reflexivity |].
      replace (k + 0 + 1) with (k + 1) by lia.
      destruct (CRITICAL_LIMIT cfg <? k + 1); reflexivity.
    + intros H. destruct (IH i b col H) as [Hb Hc].
      split; [exact Hb |]. rewrite Hc.
      replace (k + 1 + Z.of_nat i + 1) with (k + Z.pos (Pos.of_succ_nat i) + 1)
        by lia.
      reflexivity.
Qed.

(** The three loops over the boxes are the same loop. *)
Lemma app_draw_boxes_is (boxes : list App.Box) (k : Z) :
  App.draw_boxes k boxes = draw_boxes dashboard_config k boxes.
Proof.
  revert k. induction boxes as [| b boxes IH]; intros k; simpl.
  - reflexivity.
  - now rewrite IH.
Qed.

Lemma checkpoint_draw_boxes_is (boxes : list App.Box) (k : Z) :
  Checkpoint.draw_boxes k boxes = App.draw_boxes k boxes.
Proof.
  revert k. induction boxes as [| b boxes IH]; intros k; simpl.
  - reflexivity.
  - now rewrite IH.
Qed.

Lemma stream_box_colours_aux (boxes : list App.Box) :
  fst (draw_boxes dashboard_config 0 boxes) = Z.of_nat (length boxes)
  /\ map fst (snd (draw_boxes dashboard_config 0 boxes)) = boxes
  /\ forall (i : nat) (b : App.Box) (col : App.colour),
      nth_error (snd (draw_boxes dashboard_config 0 boxes)) i = Some (b, col) ->
      col = (if CRITICAL_LIMIT dashboard_config <? Z.of_nat i + 1 then (0, 0, 255)
             else if WARNING_LIMIT dashboard_config <? Z.of_nat i + 1
                  then (0, 165, 255)
                  else (0, 255, 0)).
Proof.
  split; [rewrite draw_boxes_count; lia |].
  split; [apply draw_boxes_boxes |].
  intros i b col H. apply (draw_boxes_nth dashboard_config boxes 0 i b col H).
Qed.

(** X8. In the stream, the colour of a box goes by its rank in the
    detection order, not by the total of the frame: box number [i + 1]
    is red beyond the critical limit, else orange beyond the warning
    limit, else green; the overlay holds one rectangle per box, in
    order, and the count is their number. *)
Theorem stream_box_colours :
  forall (cfg : Config) (boxes : list App.Box),
    fst (draw_boxes cfg 0 boxes) = Z.of_nat (length boxes)
    /\ map fst (snd (draw_boxes cfg 0 boxes)) = boxes
    /\ forall (i : nat) (b : App.Box) (col : App.colour),
        nth_error (snd (draw_boxes cfg 0 boxes)) i = Some (b, col) ->
        col = (if CRITICAL_LIMIT cfg <? Z.of_nat i + 1 then (0, 0, 255)
               else if WARNING_LIMIT cfg <? Z.of_nat i + 1 then (0, 165, 255)
                    else (0, 255, 0)).
Proof.
  intros cfg boxes.
  split; [rewrite draw_boxes_count; lia |].
  split; [apply draw_boxes_boxes |].
  intros i b col H. apply (draw_boxes_nth cfg boxes 0 i b col H).
Qed.

Lemma stream_box_colours_witness :
  (0, 255, 0)
  = (if CRITICAL_LIMIT script_config <? Z.of_nat 0 + 1 then (0, 0, 255)
     else if WARNING_LIMIT script_config <? Z.of_nat 0 + 1 then (0, 165, 255)
          else (0, 255, 0)).
Proof.
  apply (proj2 (proj2 (stream_box_colours script_config
                         [{| App.x1 := 0; App.y1 := 0;
                             App.x2 := 1; App.y2 := 1 |}]))
           0%nat {| App.x1 := 0; App.y1 := 0; App.x2 := 1; App.y2 := 1 |}).
  reflexivity.
Defined.


Lemma process_frame_overlay_aux (boxes : list App.Box) :
  let '(overlay, n, _, _) := App.process_frame boxes in
  n = Z.of_nat (length boxes)
  /\ map fst overlay = boxes
  /\ forall (i : nat) (b : App.Box) (col : App.colour),
      nth_error overlay i = Some (b, col) ->
      col = (if (25 <=? i)%nat then (0, 0, 255)
             else if (20 <=? i)%nat then (0, 165, 255)
                  else (0, 255, 0)).
Proof.
  unfold App.process_frame.
  rewrite app_draw_boxes_is.
  destruct (stream_box_colours_aux boxes) as [Hn [Hb Hc]].
  destruct (draw_boxes dashboard_config 0 boxes) as [n' drawn].
  destruct (App.classify n') as [s c]. cbn [fst snd] in *.
  split; [exact Hn |]. split; [exact Hb |]. intros i b col Hi.
  rewrite (Hc i b col Hi). cbn [CRITICAL_LIMIT WARNING_LIMIT dashboard_config].
  destruct (Z.ltb_spec 25 (Z.of_nat i + 1)), (Nat.leb_spec 25 i); try lia;
    [reflexivity |].
  destruct (Z.ltb_spec 20 (Z.of_nat i + 1)), (Nat.leb_spec 20 i); try lia;
    reflexivity.
Qed.

(** X9. [process_frame] returns the number of boxes as the count and
    one rectangle per box, in order; the first 20 are green, the next 5
    orange and the others red. *)
Theorem process_frame_overlay :
  forall boxes : list App.Box,
    let '(overlay, n, _, _) := App.process_frame boxes in
    n = Z.of_nat (length boxes)
    /\ map fst overlay = boxes
    /\ forall (i : nat) (b : App.Box) (col : App.colour),
        nth_error overlay i = Some (b, col) ->
        col = (if (25 <=? i)%nat then (0, 0, 255)
               else if (20 <=? i)%nat then (0, 165, 255)
                    else (0, 255, 0)).
Proof. exact process_frame_overlay_aux. Qed.

Lemma process_frame_overlay_witness :
  (0, 255, 0)
  = (if (25 <=? 0)%nat then (0, 0, 255)
     else if (20 <=? 0)%nat then (0, 165, 255)
          else (0, 255, 0)).
Proof.
  pose proof (process_frame_overlay
                [{| App.x1 := 0; App.y1 := 0; App.x2 := 1; App.y2 := 1 |}])
    as H.
  cbn in H. destruct H as [_ [_ H]].
  apply (H 0%nat {| App.x1 := 0; App.y1 := 0; App.x2 := 1; App.y2 := 1 |}).
  reflexivity.
Defined.


(** X10. The status of [process_frame] goes by the number of boxes:
    "CRITICAL RISK" beyond 25, "High Density" from 21 to 25, "Normal" up
    to 20, each with its CSS class; and it agrees with the colour of the
    box drawn last: red, orange or green. *)
Theorem process_frame_status :
  forall boxes : list App.Box,
    let '(overlay, _, status, css) := App.process_frame boxes in
    (status, css)
    = (if (25 <? length boxes)%nat
       then ("CRITICAL RISK"%string, "status-critical"%string)
       else if (20 <? length boxes)%nat
            then ("High Density"%string, "status-warning"%string)
            else ("Normal"%string, "status-normal"%string))
    /\ forall (b : App.Box) (col : App.colour),
        nth_error overlay (length boxes - 1) = Some (b, col) ->
        (col = (0, 0, 255) <-> status = "CRITICAL RISK"%string)
        /\ (col = (0, 165, 255) <-> status = "High Density"%string)
        /\ (col = (0, 255, 0) <-> status = "Normal"%string).
Proof.
  intros boxes.
  pose proof (process_frame_overlay_aux boxes) as Hov.
  destruct (App.process_frame boxes) as [[[overlay n] status] css] eqn:Hpf.
  destruct Hov as [Hn [Hb Hc]].
  assert (Hs : (status, css) = App.classify (Z.of_nat (length boxes))).
  { unfold App.process_frame in Hpf.
    pose proof (app_draw_boxes_count boxes 0) as Hcount.
    destruct (App.draw_boxes 0 boxes) as [n' drawn]. cbn [fst] in Hcount.
    replace (0 + Z.of_nat (length boxes)) with (Z.of_nat (length boxes))
      in Hcount by lia.
    subst n'. destruct (App.classify (Z.of_nat (length boxes))) as [s c].
    inversion Hpf. reflexivity. }
  assert (Hpair : (status, css)
                  = (if (25 <? length boxes)%nat
                     then ("CRITICAL RISK"%string, "status-critical"%string)
                     else if (20 <? length boxes)%nat
                          then ("High Density"%string, "status-warning"%string)
                          else ("Normal"%string, "status-normal"%string))).
  { rewrite Hs. unfold App.classify.
    destruct (Z.ltb_spec 25 (Z.of_nat (length boxes))),
      (Nat.ltb_spec 25 (length boxes)); try lia; [reflexivity |].
    destruct (Z.ltb_spec 20 (Z.of_nat (length boxes))),
      (Nat.ltb_spec 20 (length boxes)); try lia; reflexivity. }
  split; [exact Hpair |].
  intros b col Hlast.
  assert (Hlen : (length boxes - 1 < length boxes)%nat).
  { assert (length boxes - 1 < length overlay)%nat
      by (apply nth_error_Some; congruence).
    rewrite <- Hb at 2. rewrite length_map. exact H. }
  rewrite (Hc _ b col Hlast).
  destruct (Nat.ltb_spec 25 (length boxes)) as [H25 | H25].
  - inversion Hpair. subst status css.
    destruct (Nat.leb_spec 25 (length boxes - 1)); [| lia].
    repeat split; intros; try discriminate; reflexivity.
  - destruct (Nat.leb_spec 25 (length boxes - 1)); [lia |].
    destruct (Nat.ltb_spec 20 (length boxes)) as [H20 | H20].
    + inversion Hpair. subst status css.
      destruct (Nat.leb_spec 20 (length boxes - 1)); [| lia].
      repeat split; intros; try discriminate; reflexivity.
    + inversion Hpair. subst status css.
      destruct (Nat.leb_spec 20 (length boxes - 1)); [lia |].
      repeat split; intros; try discriminate; reflexivity.
Qed.

Lemma process_frame_status_witness :
  ((0, 255, 0) = (0, 0, 255) <-> "Normal"%string = "CRITICAL RISK"%string)
  /\ ((0, 255, 0) = (0, 165, 255) <-> "Normal"%string = "High Density"%string)
  /\ ((0, 255, 0) = (0, 255, 0) <-> "Normal"%string = "Normal"%string).
Proof.
  pose proof (process_frame_status
                [{| App.x1 := 0; App.y1 := 0; App.x2 := 1; App.y2 := 1 |}])
    as H.
  cbn in H. destruct H as [_ H].
  apply (H {| App.x1 := 0; App.y1 := 0; App.x2 := 1; App.y2 := 1 |}).
  reflexivity.
Defined.


End ColourFacts.

(* ================================================================= *)
(** ** More on the density bar and the dashboard loops *)

Module DensityExtras.
Import Py App FloatFacts LoopFacts.

(** [count / 100] for a count of at least 100: the exponent of the
    result grows with the number of digits of the count. *)
Lemma SFdiv_100_exponent (count : Z) :
  100 <= count ->
  exists (m3 : positive) (e3 : Z),
    SFdiv prec emax (exact_int count) (exact_int 100)
    = (if e3 <=? 971 then S754_finite false m3 e3 else S754_infinity false)
    /\ Zdigits2 count - 60 <= e3.
Proof.
  intros Hc.
  pose proof (div_core_100 count Hc) as Hcore. cbv zeta in Hcore.
  pose proof (Zdigits2_gt count 6 ltac:(lia) ltac:(lia) ltac:(simpl; lia)) as Hd.
  pose proof (Zdigits2_bounds count ltac:(lia)) as [Hlo Hhi].
  set (d1 := Zdigits2 count) in *.
  set (s := Z.max (60 - d1) 0) in *.
  set (q := count * 2 ^ s / 100) in *.
  assert (Hs : 0 <= s) by lia.
  assert (Hp : 0 < 2 ^ s) by (apply Z.pow_pos_nonneg; lia).
  assert (Hm : 2 ^ (d1 + s - 1) <= count * 2 ^ s).
  { replace (d1 + s - 1) with (d1 - 1 + s) by lia.
    rewrite Z.pow_add_r by lia.
    apply Z.mul_le_mono_nonneg_r; [lia | exact Hlo]. }
  assert (Hsplit : 2 ^ (d1 + s - 1) = 128 * 2 ^ (d1 + s - 8)).
  { change 128 with (2 ^ 7). rewrite <- Z.pow_add_r by lia. f_equal. lia. }
  assert (Hp8 : 0 < 2 ^ (d1 + s - 8)) by (apply Z.pow_pos_nonneg; lia).
  assert (Hq8 : 2 ^ (d1 + s - 8) <= q).
  { unfold q. apply Z.div_le_lower_bound; [lia |]. lia. }
  assert (H52 : 2 ^ 52 <= 2 ^ (d1 + s - 8)) by (apply Z.pow_le_mono_r; lia).
  assert (Hq52 : 2 ^ 52 <= q) by lia.
  pose proof (Zdigits2_gt q (d1 + s - 8) ltac:(lia) ltac:(lia) Hq8) as Hdq.
  destruct (binary_round_aux_normal q (- s)
              (new_location 100 ((count * 2 ^ s) mod 100)) Hq52 ltac:(lia))
    as [m3 [e3 [Hr [_ He3]]]].
  exists m3, e3. split; [| lia].
  destruct count as [| p | p]; try lia.
  unfold SFdiv, exact_int. cbn [xorb].
  rewrite Hcore. exact Hr.
Qed.

(** X11. From [2 ^ 1031] persons on, [create_density_bar] raises
    [OverflowError]: the quotient [count / max_capacity] is beyond the
    range of a double. *)
Theorem density_bar_overflows_beyond_range :
  forall count : Z,
    2 ^ 1031 <= count ->
    create_density_bar count = Raise OverflowError.
Proof.
  intros count Hc.
  assert (H100 : 100 <= count).
  { assert (100 <= 2 ^ 1031) by (apply Z.leb_le; vm_compute; reflexivity). lia. }
  destruct (SFdiv_100_exponent count H100) as [m3 [e3 [Hdiv He3]]].
  pose proof (Zdigits2_gt count 1031 ltac:(lia) ltac:(lia) Hc) as Hd.
  clear Hc H100.
  destruct (Z.leb_spec e3 971) as [Hfin | Hinf]; [lia |].
  unfold create_density_bar, truediv. rewrite Hdiv. reflexivity.
Qed.

Lemma density_bar_overflows_beyond_range_witness :
  create_density_bar (10 ^ 400) = Raise OverflowError.
Proof.
  apply (density_bar_overflows_beyond_range (10 ^ 400)).
  apply Z.leb_le. vm_compute. reflexivity.
Defined.

(** X12. Within the range of a double the bar grows with the count:
    more persons never fill fewer cells; the bar is empty exactly below
    10 persons and full exactly from 100 on. *)
Theorem density_bar_grows :
  forall c1 c2 : Z,
    0 <= c1 <= c2 ->
    c2 < 2 ^ 1024 ->
    exists f1 f2 : Z,
      create_density_bar c1
      = Ok (str_of_int c1 ++ u " People detected &nbsp; "
              ++ repeat FULL_BLOCK (Z.to_nat f1)
              ++ repeat LIGHT_SHADE (Z.to_nat (10 - f1)))
      /\ create_density_bar c2
         = Ok (str_of_int c2 ++ u " People detected &nbsp; "
                 ++ repeat FULL_BLOCK (Z.to_nat f2)
                 ++ repeat LIGHT_SHADE (Z.to_nat (10 - f2)))
      /\ 0 <= f1 <= f2 /\ f2 <= 10
      /\ (f1 = 0 <-> c1 < 10)
      /\ (f1 = 10 <-> 100 <= c1).
Proof.
  intros c1 c2 H12 H2.
  exists (Z.min (c1 / 10) 10), (Z.min (c2 / 10) 10).
  split; [apply create_density_bar_total; lia |].
  split; [apply create_density_bar_total; lia |].
  assert (Hd1 : 0 <= c1 / 10) by (apply Z.div_pos; lia).
  assert (Hmono : c1 / 10 <= c2 / 10) by (apply Z.div_le_mono; lia).
  pose proof (Z.div_mod c1 10 ltac:(lia)) as Hdm.
  pose proof (Z.mod_pos_bound c1 10 ltac:(lia)) as Hmb.
  repeat split; lia.
Qed.

Lemma density_bar_grows_witness :
  exists f1 f2 : Z,
    create_density_bar 24
    = Ok (str_of_int 24 ++ u " People detected &nbsp; "
            ++ repeat FULL_BLOCK (Z.to_nat f1)
            ++ repeat LIGHT_SHADE (Z.to_nat (10 - f1)))
    /\ create_density_bar 57
       = Ok (str_of_int 57 ++ u " People detected &nbsp; "
               ++ repeat FULL_BLOCK (Z.to_nat f2)
               ++ repeat LIGHT_SHADE (Z.to_nat (10 - f2)))
    /\ 0 <= f1 <= f2 /\ f2 <= 10
    /\ (f1 = 0 <-> 24 < 10)
    /\ (f1 = 10 <-> 100 <= 24).
Proof.
  apply (density_bar_grows 24 57).
  - lia.
  - reflexivity.
Defined.

(** What a frame computes for the display. *)
Lemma computed_value (boxes : list Box) :
  countable boxes ->
  computed boxes
  = Ok (fst (classify (Z.of_nat (length boxes))),
        str_of_int (Z.of_nat (length boxes)) ++ u " People detected &nbsp; "
          ++ repeat FULL_BLOCK
               (Z.to_nat (Z.min (Z.of_nat (length boxes) / 10) 10))
          ++ repeat LIGHT_SHADE
               (Z.to_nat (10 - Z.min (Z.of_nat (length boxes) / 10) 10)),
        snd (classify (Z.of_nat (length boxes)))).
Proof.
  unfold countable. intros Hsmall. unfold computed, process_frame.
  pose proof (ClassifyFacts.app_draw_boxes_count boxes 0) as Hn.
  destruct (draw_boxes 0 boxes) as [n ov]. simpl in Hn. subst n.
  destruct (classify (Z.of_nat (length boxes))) as [status css].
  rewrite create_density_bar_total by lia. reflexivity.
Qed.

(** X13. Whatever the frames, the dashboard never shows a status
    without its own CSS class, and the class is one the style sheet
    defines; the density text is the placeholder or a count with a bar
    of 10 cells. *)
Theorem display_is_consistent :
  forall frames : list (list Box),
    Forall countable frames ->
    exists ds : list Display,
      show_live frames = Ok ds
      /\ show_analysis frames = Ok ds
      /\ forall d : Display,
          In d ds ->
          In (display_status d, display_css d)
            [("Initializing..."%string, "status-normal"%string);
             ("Normal"%string, "status-normal"%string);
             ("High Density"%string, "status-warning"%string);
             ("CRITICAL RISK"%string, "status-critical"%string)]
          /\ (display_density d = display_density initial_display
              \/ exists (count filled : Z),
                  0 <= filled <= 10
                  /\ display_density d
                     = str_of_int count ++ u " People detected &nbsp; "
                         ++ repeat FULL_BLOCK (Z.to_nat filled)
                         ++ repeat LIGHT_SHADE (Z.to_nat (10 - filled))).
Proof.
  intros frames Hsmall.
  destruct (dashboard_loop_spec frames Hsmall initial_display)
    as [ds [Hloop [Hlen Hstep]]].
  exists ds. unfold show_live, show_analysis.
  split; [exact Hloop |]. split; [exact Hloop |].
  intros d Hin. apply In_nth_error in Hin. destruct Hin as [n Hd].
  destruct (shown_is_latest_tenth frames ds Hsmall Hloop n d Hd)
    as [_ [Hinit Hlate]].
  destruct (Z.eq_dec (10 * ((Z.of_nat n + 1) / 10)) 0) as [Hz | Hnz].
  - specialize (Hinit Hz). unfold shown in Hinit.
    injection Hinit as Hs Hdens Hcss. rewrite Hs, Hcss.
    split; [left; reflexivity | left; exact Hdens].
  - assert (Hpos : 0 < 10 * ((Z.of_nat n + 1) / 10)).
    { assert (0 <= (Z.of_nat n + 1) / 10) by (apply Z.div_pos; lia). lia. }
    destruct (Hlate Hpos) as [boxes [Hf Hcomp]].
    assert (Hb : countable boxes).
    { rewrite Forall_forall in Hsmall. apply Hsmall.
      eapply nth_error_In. eassumption. }
    rewrite (computed_value boxes Hb) in Hcomp.
    unfold shown in Hcomp. injection Hcomp as Hs Hdens Hcss.
    rewrite <- Hs, <- Hcss, <- Hdens.
    split.
    + unfold classify.
      destruct (25 <? Z.of_nat (length boxes)); cbn [fst snd].
      * right. right. right. left. reflexivity.
      * destruct (20 <? Z.of_nat (length boxes)); cbn [fst snd].
        -- right. right. left. reflexivity.
        -- right. left. reflexivity.
    + right. exists (Z.of_nat (length boxes)),
        (Z.min (Z.of_nat (length boxes) / 10) 10).
      split; [| reflexivity].
      assert (0 <= Z.of_nat (length boxes) / 10) by (apply Z.div_pos; lia).
      lia.
Qed.

Lemma display_is_consistent_witness :
  exists ds : list Display,
    show_live (repeat [] 10) = Ok ds
    /\ show_analysis (repeat [] 10) = Ok ds
    /\ forall d : Display,
        In d ds ->
        In (display_status d, display_css d)
          [("Initializing..."%string, "status-normal"%string);
           ("Normal"%string, "status-normal"%string);
           ("High Density"%string, "status-warning"%string);
           ("CRITICAL RISK"%string, "status-critical"%string)]
        /\ (display_density d = display_density initial_display
            \/ exists (count filled : Z),
                0 <= filled <= 10
                /\ display_density d
                   = str_of_int count ++ u " People detected &nbsp; "
                       ++ repeat FULL_BLOCK (Z.to_nat filled)
                       ++ repeat LIGHT_SHADE (Z.to_nat (10 - filled))).
Proof.
  apply (display_is_consistent (repeat [] 10)).
  simpl. repeat constructor.
Defined.

End DensityExtras.

(* ================================================================= *)
(** ** Session state, theme and pages of app.py *)

Module NavigationFacts.
Import Navigation.

Section Files.

Variable UploadedFile : Type.

Lemma initialise_empty :
  initialise (@empty_session UploadedFile)
  = {| page := Some "home"%string;
       video_source := Some None;
       theme := Some "light"%string |}.
Proof. reflexivity. Qed.

Lemma initialise_settled (s : SessionState UploadedFile) :
  settled s -> initialise s = s.
Proof.
  intros [p [v [t [Hp [Hv [Ht _]]]]]].
  destruct s as [sp sv st]. simpl in *. subst. reflexivity.
Qed.

(** A run from a fresh or a settled session ends in a settled session,
    and it neither fails to read the video nor leaves the page blank. *)
Lemma script_run_settled (s : SessionState UploadedFile)
  (w : Widgets UploadedFile) :
  s = empty_session \/ settled s ->
  settled (fst (script_run s w))
  /\ snd (script_run s w) <> Crash
  /\ forall p, snd (script_run s w) <> Blank p.
Proof.
  intros Hs.
  assert (Hinit : settled (initialise s)).
  { destruct Hs as [-> | Hs].
    - rewrite initialise_empty. exists "home"%string, None, "light"%string.
      cbn. repeat split; auto. discriminate.
    - now rewrite initialise_settled. }
  unfold script_run.
  set (si := initialise s) in *. clearbody si. clear Hs s.
  destruct Hinit as [p [v [t [Hp [Hv [Ht [Hpage Hvid]]]]]]].
  destruct si as [sp sv st]. cbn in Hp, Hv, Ht. subst sp sv st.
  unfold get_theme, get_page. cbn [theme page].
  assert (Hthemed :
            forall t', settled
                         (set_theme
                            {| page := Some p; video_source := Some v;
                               theme := Some t |} t')).
  { intros t'. exists p, v, t'. cbn. repeat split; auto. }
  assert (Hpages :
            forall pal,
              let r :=
                if String.eqb p "home"
                then show_home pal
                       {| page := Some p; video_source := Some v;
                          theme := Some t |} w
                else if String.eqb p "live"
                     then show_live pal
                            {| page := Some p; video_source := Some v;
                               theme := Some t |} w
                     else if String.eqb p "analysis"
                          then show_analysis pal
                                 {| page := Some p; video_source := Some v;
                                    theme := Some t |} w
                          else ({| page := Some p; video_source := Some v;
                                   theme := Some t |}, Blank pal) in
              settled (fst r)
              /\ snd r <> Crash /\ forall q, snd r <> Blank q).
  { intros pal.
    assert (Hsame : settled
                      {| page := Some p; video_source := Some v;
                         theme := Some t |}).
    { exists p, v, t. cbn. repeat split; auto. }
    destruct Hpage as [-> | [-> | ->]]; cbn.
    - unfold show_home. destruct (start_live_clicked w); cbn.
      + split; [| split; [discriminate | discriminate]].
        exists "live"%string, v, t. cbn. repeat split; auto. discriminate.
      + destruct (uploaded_file w) as [f |]; cbn.
        * destruct (analyze_clicked w); cbn.
          -- split; [| split; [discriminate | discriminate]].
             exists "analysis"%string, (Some f), t. cbn.
             repeat split; auto. discriminate.
          -- split; [exact Hsame | split; [discriminate | discriminate]].
        * split; [exact Hsame | split; [discriminate | discriminate]].
    - unfold show_live. destruct (back_clicked w); cbn.
      + split; [| split; [discriminate | discriminate]].
        exists "home"%string, v, t. cbn. repeat split; auto. discriminate.
      + split; [exact Hsame | split; [discriminate | discriminate]].
    - unfold show_analysis. destruct (back_clicked w); cbn.
      + split; [| split; [discriminate | discriminate]].
        exists "home"%string, None, t. cbn. repeat split; auto. discriminate.
      + destruct v as [f |]; [| exfalso; now apply Hvid].
        cbn. split; [exact Hsame | split; [discriminate | discriminate]]. }
  destruct (mode w).
  - destruct (negb (String.eqb t "light")).
    + cbn [fst snd]. split; [apply Hthemed | split; [discriminate | discriminate]].
    + apply Hpages.
  - destruct (negb (String.eqb t "dark")).
    + cbn [fst snd]. split; [apply Hthemed | split; [discriminate | discriminate]].
    + apply Hpages.
Qed.

Lemma script_runs_settled (ws : list (Widgets UploadedFile)) :
  forall s : SessionState UploadedFile,
    s = empty_session \/ settled s ->
    (ws <> [] -> settled (fst (script_runs s ws)))
    /\ ~ In Crash (snd (script_runs s ws))
    /\ forall p, ~ In (Blank p) (snd (script_runs s ws)).
Proof.
  induction ws as [| w ws IH]; intros s Hs.
  - cbn. split; [congruence | split; [tauto | intros p; tauto]].
  - cbn [script_runs].
    destruct (script_run_settled s w Hs) as [Hset [Hnc Hnb]].
    destruct (script_run s w) as [s1 out]. cbn [fst snd] in *.
    destruct (IH s1 (or_intror Hset)) as [Hfin [Hc Hb]].
    destruct (script_runs s1 ws) as [s2 outs] eqn:Hruns.
    cbn [fst snd] in *.
    split; [| split].
    + intros _. destruct ws as [| w' ws'].
      * cbn in Hruns. inversion Hruns. subst. exact Hset.
      * apply Hfin. discriminate.
    + intros [H | H]; [now apply Hnc | now apply Hc].
    + intros p [H | H]; [now apply (Hnb p) | now apply (Hb p)].
Qed.

End Files.

(** X14. From a fresh browser session, whatever the user does, no run
    of app.py reads a missing video on the analysis page, none falls
    through the router with no page, and after each run the three keys of
    the session are set, with a page the router knows and, on the
    analysis page, a video. *)
Theorem navigation_is_safe :
  forall (UploadedFile : Type) (ws : list (Widgets UploadedFile)),
    (ws <> [] ->
     settled (fst (script_runs empty_session ws)))
    /\ ~ In Crash (snd (script_runs empty_session ws))
    /\ forall p, ~ In (Blank p) (snd (script_runs empty_session ws)).
Proof.
  intros UploadedFile ws.
  apply script_runs_settled. left. reflexivity.
Qed.

Lemma navigation_is_safe_witness :
  settled
    (fst (script_runs (@empty_session nat)
            [{| mode := Light; start_live_clicked := true;
                uploaded_file := None; analyze_clicked := false;
                back_clicked := false |};
             {| mode := Light; start_live_clicked := false;
                uploaded_file := None; analyze_clicked := false;
                back_clicked := true |}])).
Proof.
  apply (proj1 (navigation_is_safe nat
                  [{| mode := Light; start_live_clicked := true;
                      uploaded_file := None; analyze_clicked := false;
                      back_clicked := false |};
                   {| mode := Light; start_live_clicked := false;
                      uploaded_file := None; analyze_clicked := false;
                      back_clicked := true |}])).
  discriminate.
Defined.


(** X15. A page is only ever rendered in the colours of the mode
    selected in the sidebar: a run that finds the stored theme out of
    step stores the selected one and reruns before any page is drawn.
    After every run the stored theme is the selected one. *)
Theorem theme_follows_mode :
  forall (UploadedFile : Type) (s : SessionState UploadedFile)
         (w : Widgets UploadedFile),
    (forall p : Palette,
        palette_of (snd (script_run s w)) = Some p ->
        p = palette_for (mode w))
    /\ theme (fst (script_run s w))
       = Some (theme_name (mode w)).
Proof.
  intros UploadedFile s w. unfold script_run.
  set (si := initialise s).
  assert (Hkeys : exists t, theme si = Some t).
  { subst si. unfold initialise.
    destruct s as [[p |] [v |] [t |]]; cbn; eauto. }
  destruct Hkeys as [t Ht].
  unfold get_theme, get_page. rewrite Ht.
  assert (Hpages :
            forall pal,
              let r :=
                if String.eqb match page si with
                              | Some p => p | None => ""%string end "home"
                then show_home pal si w
                else if String.eqb match page si with
                                   | Some p => p | None => ""%string end "live"
                     then show_live pal si w
                     else if String.eqb match page si with
                                        | Some p => p | None => ""%string end
                               "analysis"
                          then show_analysis pal si w
                          else (si, Blank pal) in
              (forall p, palette_of (snd r) = Some p -> p = pal)
              /\ theme (fst r) = Some t).
  { intros pal. cbv zeta.
    destruct (String.eqb _ "home").
    - unfold show_home. destruct (start_live_clicked w); cbn.
      + split; [discriminate | exact Ht].
      + destruct (uploaded_file w) as [f |]; cbn.
        * destruct (analyze_clicked w); cbn.
          -- split; [discriminate | exact Ht].
          -- split; [intros p H; now inversion H | exact Ht].
        * split; [intros p H; now inversion H | exact Ht].
    - destruct (String.eqb _ "live").
      + unfold show_live. destruct (back_clicked w); cbn.
        * split; [discriminate | exact Ht].
        * split; [intros p H; now inversion H | exact Ht].
      + destruct (String.eqb _ "analysis").
        * unfold show_analysis. destruct (back_clicked w); cbn.
          -- split; [discriminate | exact Ht].
          -- destruct (video_source si) as [[f |] |]; cbn.
             ++ split; [intros p H; now inversion H | exact Ht].
             ++ split; [discriminate | exact Ht].
             ++ split; [discriminate | exact Ht].
        * cbn. split; [intros p H; now inversion H | exact Ht]. }
  destruct (mode w); cbn [palette_for theme_name].
  - destruct (String.eqb_spec t "light") as [-> | Hne]; cbn [negb].
    + change (String.eqb "light" "dark") with false. cbv iota.
      apply (Hpages light_palette).
    + cbn. split; [discriminate | reflexivity].
  - destruct (String.eqb_spec t "dark") as [-> | Hne]; cbn [negb].
    + apply (Hpages dark_palette).
    + cbn. split; [discriminate | reflexivity].
Qed.

Lemma theme_follows_mode_witness :
  light_palette = palette_for Light.
Proof.
  apply (proj1 (theme_follows_mode nat empty_session
                  {| mode := Light; start_live_clicked := false;
                     uploaded_file := None; analyze_clicked := false;
                     back_clicked := false |})).
  reflexivity.
Defined.



(** X16. From the home page, with the theme in step with the sidebar,
    clicking "Analyze" on an uploaded file stores it and reruns; the next
    run renders the analysis page on exactly that file; and "back" there
    returns to the home page and forgets the video. *)
Theorem analyze_then_back :
  forall (UploadedFile : Type) (s : SessionState UploadedFile)
         (w w1 w2 : Widgets UploadedFile) (f : UploadedFile)
         (v : option UploadedFile),
    page s = Some "home"%string ->
    video_source s = Some v ->
    theme s = Some (theme_name (mode w)) ->
    start_live_clicked w = false ->
    uploaded_file w = Some f ->
    analyze_clicked w = true ->
    mode w1 = mode w -> back_clicked w1 = false ->
    mode w2 = mode w -> back_clicked w2 = true ->
    let s1 := {| page := Some "analysis"%string;
                 video_source := Some (Some f);
                 theme := theme s |} in
    script_run s w = (s1, Rerun)
    /\ script_run s1 w1 = (s1, Analysis (palette_for (mode w)) f)
    /\ script_run s1 w2
       = ({| page := Some "home"%string;
             video_source := Some None;
             theme := theme s |}, Rerun).
Proof.
  intros UploadedFile s w w1 w2 f v Hp Hv Ht Hstart Hup Han Hm1 Hb1 Hm2 Hb2.
  destruct s as [sp sv st]. cbn in Hp, Hv, Ht. subst sp sv st.
  cbn [theme]. unfold script_run, initialise, get_theme, get_page.
  cbn [page video_source theme].
  rewrite Hm1, Hm2.
  destruct (mode w); cbn [theme_name palette_for];
    cbn; unfold show_home, show_analysis;
    rewrite Hstart, Hup, Han, Hb1, Hb2; cbn; auto.
Qed.

Lemma analyze_then_back_witness :
  let w := {| mode := Light; start_live_clicked := false;
              uploaded_file := Some 7%nat; analyze_clicked := true;
              back_clicked := false |} in
  let w1 := {| mode := Light; start_live_clicked := false;
               uploaded_file := None; analyze_clicked := false;
               back_clicked := false |} in
  let w2 := {| mode := Light; start_live_clicked := false;
               uploaded_file := None; analyze_clicked := false;
               back_clicked := true |} in
  let s := {| page := Some "home"%string; video_source := Some None;
              theme := Some "light"%string |} in
  let s1 := {| page := Some "analysis"%string;
               video_source := Some (Some 7%nat);
               theme := theme s |} in
  script_run s w = (s1, Rerun)
  /\ script_run s1 w1 = (s1, Analysis (palette_for (mode w)) 7%nat)
  /\ script_run s1 w2
     = ({| page := Some "home"%string;
           video_source := Some None;
           theme := theme s |}, Rerun).
Proof.
  intros w w1 w2 s.
  apply (analyze_then_back nat s w w1 w2 7%nat None); reflexivity.
Defined.

End NavigationFacts.

(* ================================================================= *)
(** ** The checkpointed script against app.py *)

Module CheckpointFacts.
Import Py App LoopFacts ColourFacts.

Lemma frame_body_is_process_frame (boxes : list Box) :
  let '(overlay, n, status, css) := process_frame boxes in
  Checkpoint.frame_body boxes
  = (overlay, {| Checkpoint.css_class := css;
                 Checkpoint.status_text := status;
                 Checkpoint.detected_persons := n |}).
Proof.
  unfold process_frame, Checkpoint.frame_body.
  pose proof (checkpoint_draw_boxes_is boxes 0) as Hsame.
  destruct (Checkpoint.draw_boxes 0 boxes) as [n' overlay'].
  destruct (draw_boxes 0 boxes) as [n overlay].
  inversion Hsame. subst n' overlay'.
  unfold classify, Checkpoint.RISK_LIMIT.
  destruct (25 <? n); [reflexivity |].
  destruct (20 <? n); reflexivity.
Qed.

(** X17. The checkpointed script and app.py agree frame by frame: its
    status bar shows, at every frame, the overlay, count, status and CSS
    class that [process_frame] computes for that frame; the dashboard
    of app.py shows the same status and class on every tenth frame. *)
Theorem checkpoint_agrees_with_app :
  forall frames : list (list Box),
    Forall countable frames ->
    exists ds : list Display,
      show_analysis frames = Ok ds
      /\ length (Checkpoint.processing_loop frames) = length frames
      /\ forall (n : nat) (boxes : list Box),
          nth_error frames n = Some boxes ->
          (let '(overlay, cnt, status, css) := process_frame boxes in
           Checkpoint.frame_body boxes
           = (overlay, {| Checkpoint.css_class := css;
                          Checkpoint.status_text := status;
                          Checkpoint.detected_persons := cnt |}))
          /\ nth_error (Checkpoint.processing_loop frames) n
             = Some (snd (Checkpoint.frame_body boxes))
          /\ ((Z.of_nat n + 1) mod 10 = 0 ->
              forall d : Display,
                nth_error ds n = Some d ->
                display_status d
                = Checkpoint.status_text (snd (Checkpoint.frame_body boxes))
                /\ display_css d
                   = Checkpoint.css_class (snd (Checkpoint.frame_body boxes))).
Proof.
  intros frames Hsmall.
  destruct (dashboard_loop_spec frames Hsmall initial_display)
    as [ds [Hloop [Hlen Hstep]]].
  exists ds. unfold show_analysis. split; [exact Hloop |].
  split; [unfold Checkpoint.processing_loop; apply length_map |].
  intros n boxes Hf.
  split; [apply frame_body_is_process_frame |].
  split.
  { unfold Checkpoint.processing_loop. rewrite nth_error_map, Hf. reflexivity. }
  intros Hten d Hd.
  destruct (shown_is_latest_tenth frames ds Hsmall Hloop n d Hd)
    as [_ [_ Hlate]].
  assert (Hk : 10 * ((Z.of_nat n + 1) / 10) = Z.of_nat n + 1).
  { pose proof (Z.div_mod (Z.of_nat n + 1) 10 ltac:(lia)). lia. }
  rewrite Hk in Hlate. destruct (Hlate ltac:(lia)) as [bx [Hbx Hcomp]].
  replace (Z.to_nat (Z.of_nat n + 1 - 1)) with n in Hbx by lia.
  rewrite Hf in Hbx. inversion Hbx. subst bx.
  pose proof (frame_body_is_process_frame boxes) as Hfb.
  unfold computed in Hcomp.
  destruct (process_frame boxes) as [[[overlay cnt] status] css].
  rewrite Hfb. cbn [snd Checkpoint.status_text Checkpoint.css_class].
  destruct (create_density_bar cnt) as [density | e]; cbn [bind] in Hcomp;
    [| discriminate].
  unfold shown in Hcomp. injection Hcomp as Hs _ Hc. auto.
Qed.

Lemma checkpoint_agrees_with_app_witness :
  exists ds : list Display,
    show_analysis (repeat [] 10) = Ok ds
    /\ length (Checkpoint.processing_loop (repeat [] 10))
       = length (repeat (@nil Box) 10)
    /\ forall (n : nat) (boxes : list Box),
        nth_error (repeat [] 10) n = Some boxes ->
        (let '(overlay, cnt, status, css) := process_frame boxes in
         Checkpoint.frame_body boxes
         = (overlay, {| Checkpoint.css_class := css;
                        Checkpoint.status_text := status;
                        Checkpoint.detected_persons := cnt |}))
        /\ nth_error (Checkpoint.processing_loop (repeat [] 10)) n
           = Some (snd (Checkpoint.frame_body boxes))
        /\ ((Z.of_nat n + 1) mod 10 = 0 ->
            forall d : Display,
              nth_error ds n = Some d ->
              display_status d
              = Checkpoint.status_text (snd (Checkpoint.frame_body boxes))
              /\ display_css d
                 = Checkpoint.css_class (snd (Checkpoint.frame_body boxes))).
Proof.
  apply (checkpoint_agrees_with_app (repeat [] 10)).
  simpl. repeat constructor.
Defined.

End CheckpointFacts.

(* ================================================================= *)
(** ** Where the density bar stops *)

Module BoundaryExtras.
Import Py App FloatBoundary.

(** X20. [create_density_bar] raises exactly from the first count whose
    hundredth rounds beyond the largest double,
    [100 * (2 ^ 1024 - 2 ^ 970)], and then [OverflowError]; on every
    smaller count it returns a string. *)
Theorem density_bar_raises_exactly_beyond_range :
  forall count : Z,
    0 <= count ->
    (create_density_bar count = Raise OverflowError
     <-> 100 * (2 ^ 1024 - 2 ^ 970) <= count)
    /\ (count < 100 * (2 ^ 1024 - 2 ^ 970) ->
        exists bar : str, create_density_bar count = Ok bar).
Proof.
  intros count Hc. split; [split |].
  - intros Hraise.
    destruct (Z_lt_le_dec count (100 * (2 ^ 1024 - 2 ^ 970))) as [Hlt | Hge];
      [| exact Hge].
    rewrite (create_density_bar_in_range count (conj Hc Hlt)) in Hraise.
    discriminate Hraise.
  - apply create_density_bar_beyond_range.
  - intros Hlt. eexists.
    apply (create_density_bar_in_range count (conj Hc Hlt)).
Qed.

Lemma density_bar_raises_exactly_beyond_range_witness :
  (create_density_bar (100 * (2 ^ 1024 - 2 ^ 970)) = Raise OverflowError
   <-> 100 * (2 ^ 1024 - 2 ^ 970) <= 100 * (2 ^ 1024 - 2 ^ 970))
  /\ (100 * (2 ^ 1024 - 2 ^ 970) < 100 * (2 ^ 1024 - 2 ^ 970) ->
      exists bar : str,
        create_density_bar (100 * (2 ^ 1024 - 2 ^ 970)) = Ok bar).
Proof.
  apply (density_bar_raises_exactly_beyond_range
           (100 * (2 ^ 1024 - 2 ^ 970))).
  apply Z.leb_le. vm_compute. reflexivity.
Defined.

End BoundaryExtras.
